(** * Shotcut API client: a shallow embedding and its properties

    The development follows the four source modules of the client,

      - [exceptions.py]  the error taxonomy,
      - [utils.py]       parameter cleaning and the two validators,
      - [models.py]      the dataclasses and record construction,
      - [api.py]         the request pipeline and the resource methods,

    preceded by the fragment of the Python language and of its standard
    library that those modules rely on (module [Py]).

    Conventions.  Python text is a Rocq [string] whose characters are the
    code points U+0000..U+00FF.  A [dict] is an association list in
    insertion order with pairwise distinct keys.  Python integers are [Z].
    Floating point numbers do not occur in the modelled fragment.  A
    computation that may raise returns a [result]; code that mutates an
    object or talks to the network threads its state explicitly through the
    monad [prog]. *)

From Stdlib Require Import ZArith String Ascii List Bool Lia DecimalString DecimalZ.
From stdpp Require Import base option gmap.
Import ListNotations.
#[local] Set Warnings "-register-all".
Open Scope string_scope.
Open Scope Z_scope.

(* ===================================================================== *)
(** * The Python fragment                                                 *)
(* ===================================================================== *)

Module Py.

(** ** Characters *)

Definition ord (c : ascii) : Z := Z.of_N (N_of_ascii c).

(** [str.isdigit] restricted to decimal digits, as [int] and [\d] use it. *)
Definition isdecimal (c : ascii) : bool := (48 <=? ord c) && (ord c <=? 57).

Definition digit_value (c : ascii) : Z := ord c - 48.

Definition in_range (lo hi c : ascii) : bool :=
  (ord lo <=? ord c) && (ord c <=? ord hi).

(** [str.isspace] on one character: TAB..CR, FS..US, SPACE, NEL, NBSP. *)
Definition isspace (c : ascii) : bool :=
  ((9 <=? ord c) && (ord c <=? 13)) || ((28 <=? ord c) && (ord c <=? 32))
  || (ord c =? 133) || (ord c =? 160).

(** ** Text *)

Definition len (s : string) : Z := Z.of_nat (String.length s).

Fixpoint startswith (s prefix : string) {struct prefix} : bool :=
  match prefix with
  | EmptyString => true
  | String p prefix' =>
      match s with
      | String c s' => Ascii.eqb c p && startswith s' prefix'
      | EmptyString => false
      end
  end.

Fixpoint drop (n : nat) (s : string) : string :=
  match n, s with
  | O, _ => s
  | S n', String _ s' => drop n' s'
  | S _, EmptyString => EmptyString
  end.

Fixpoint take (n : nat) (s : string) : string :=
  match n, s with
  | O, _ => EmptyString
  | S n', String c s' => String c (take n' s')
  | S _, EmptyString => EmptyString
  end.

Definition endswith (s suffix : string) : bool :=
  (String.length suffix <=? String.length s)%nat
  && String.eqb (drop (String.length s - String.length suffix) s) suffix.

(** A slice bound: negative indices count from the end, and the result is
    clamped to [0, len s]. *)
Definition slice_index (s : string) (i : Z) : nat :=
  let i' := if i <? 0 then i + len s else i in
  Z.to_nat (Z.min (Z.max i' 0) (len s)).

(** [s[start:stop]] *)
Definition slice (s : string) (start stop : Z) : string :=
  let a := slice_index s start in
  let b := slice_index s stop in
  take (b - a) (drop a s).

(** [s.split(sep)] for a separator of one character. *)
Fixpoint split (sep : ascii) (s : string) : list string :=
  match s with
  | EmptyString => [EmptyString]
  | String c s' =>
      if Ascii.eqb c sep then EmptyString :: split sep s'
      else match split sep s' with
           | h :: t => String c h :: t
           | [] => [String c EmptyString]
           end
  end.

(** [s] without its leading characters that satisfy [p]. *)
Fixpoint lstrip_by (p : ascii -> bool) (s : string) : string :=
  match s with
  | EmptyString => EmptyString
  | String c s' => if p c then lstrip_by p s' else s
  end.

(** [s] without its trailing characters that satisfy [p]. *)
Fixpoint rstrip_by (p : ascii -> bool) (s : string) : string :=
  match s with
  | EmptyString => EmptyString
  | String c s' =>
      match rstrip_by p s' with
      | EmptyString => if p c then EmptyString else String c EmptyString
      | r => String c r
      end
  end.

Definition strip_by (p : ascii -> bool) (s : string) : string :=
  rstrip_by p (lstrip_by p s).

(** [s.lstrip()], [s.rstrip()] and [s.strip()] *)
Definition lstrip (s : string) : string := lstrip_by isspace s.
Definition rstrip (s : string) : string := rstrip_by isspace s.
Definition strip (s : string) : string := strip_by isspace s.

Definition lower_ascii (c : ascii) : ascii :=
  if in_range "A" "Z" c then ascii_of_N (N_of_ascii c + 32) else c.

Fixpoint lower (s : string) : string :=
  match s with
  | EmptyString => EmptyString
  | String c s' => String (lower_ascii c) (lower s')
  end.

(** ** Values *)

Record datetime := mk_datetime {
  year : Z; month : Z; day : Z; hour : Z; minute : Z; second : Z }.

(** The objects that flow through the client: decoded JSON, request
    parameters and model attributes. *)
Inductive value :=
| VNone
| VBool (b : bool)
| VInt (n : Z)
| VStr (s : string)
| VList (l : list value)
| VDict (d : list (string * value))
| VDatetime (t : datetime).

Abbreviation dict := (list (string * value)).

(** Truth value of an object, as [if x], [not x] and [and] test it. *)
Definition truthy (v : value) : bool :=
  match v with
  | VNone => false
  | VBool b => b
  | VInt n => negb (n =? 0)
  | VStr s => negb (String.eqb s "")
  | VList l => match l with [] => false | _ => true end
  | VDict d => match d with [] => false | _ => true end
  | VDatetime _ => true
  end.

(** [v == n] for an integer literal [n]; [True] and [False] compare as 1
    and 0, objects of any other type are unequal to an integer. *)
Definition eq_int (v : value) (n : Z) : bool :=
  match v with
  | VInt m => m =? n
  | VBool b => (if b then 1 else 0) =? n
  | _ => false
  end.

Definition is_none (v : value) : bool :=
  match v with VNone => true | _ => false end.

(** An [Optional[str]] argument as an object. *)
Definition of_optional_str (o : option string) : value :=
  match o with Some s => VStr s | None => VNone end.

(** ** Dictionaries: association lists in insertion order *)

Fixpoint dict_get (d : dict) (k : string) : option value :=
  match d with
  | [] => None
  | (k', v) :: d' => if String.eqb k' k then Some v else dict_get d' k
  end.

(** [k in d] *)
Definition dict_contains (d : dict) (k : string) : bool :=
  match dict_get d k with Some _ => true | None => false end.

(** [d[k] = v]: an existing key keeps its position, a new key goes last. *)
Fixpoint dict_set (d : dict) (k : string) (v : value) : dict :=
  match d with
  | [] => [(k, v)]
  | (k', v') :: d' =>
      if String.eqb k' k then (k', v) :: d' else (k', v') :: dict_set d' k v
  end.

Definition keys (d : dict) : list string := map fst d.

(** The representation invariant of a dictionary. *)
Definition wf_dict (d : dict) : Prop := List.NoDup (keys d).

(** ** Exceptions *)

(** The exception classes that occur in the program: built-in ones, those
    of the HTTP library, the taxonomy of [exceptions.py], and the class of
    the same name that [api.py] declares for itself. *)
Inductive exc_class :=
| Exception
| ValueError
| TypeError
| AttributeError
| KeyError
| OverflowError
| OSError
| RequestException
| ConnectionError
| Timeout
| JSONDecodeError
| ShotcutAPIError
| RateLimitError
| AuthenticationError
| ValidationError
| api_ShotcutAPIError.

Definition exc_class_eqb (c d : exc_class) : bool :=
  match c, d with
  | Exception, Exception | ValueError, ValueError | TypeError, TypeError
  | AttributeError, AttributeError | KeyError, KeyError
  | OverflowError, OverflowError
  | OSError, OSError | RequestException, RequestException
  | ConnectionError, ConnectionError | Timeout, Timeout
  | JSONDecodeError, JSONDecodeError | ShotcutAPIError, ShotcutAPIError
  | RateLimitError, RateLimitError
  | AuthenticationError, AuthenticationError
  | ValidationError, ValidationError
  | api_ShotcutAPIError, api_ShotcutAPIError => true
  | _, _ => false
  end.

(** The declared base classes. *)
Definition bases (c : exc_class) : list exc_class :=
  match c with
  | Exception => []
  | ValueError | TypeError | AttributeError | OSError => [Exception]
  | KeyError | OverflowError => [Exception]
  | RequestException => [OSError]
  | ConnectionError | Timeout => [RequestException]
  | JSONDecodeError => [RequestException; ValueError]
  | ShotcutAPIError => [Exception]
  | RateLimitError | AuthenticationError | ValidationError => [ShotcutAPIError]
  | api_ShotcutAPIError => [Exception]
  end.

Fixpoint ancestors (fuel : nat) (c : exc_class) : list exc_class :=
  match fuel with
  | O => [c]
  | S n => c :: flat_map (ancestors n) (bases c)
  end.

(** [issubclass(c, d)]; the hierarchy is four levels deep. *)
Definition issubclass (c d : exc_class) : bool :=
  existsb (exc_class_eqb d) (ancestors 4 c).

(** An exception object: its class and the argument it was built from. *)
Record exc := Exc { exc_type : exc_class; exc_arg : value }.

Inductive result (A : Type) :=
| Return (a : A)
| Raise (e : exc).
Arguments Return {A} a.
Arguments Raise {A} e.

Definition bind {A B} (m : result A) (f : A -> result B) : result B :=
  match m with
  | Return a => f a
  | Raise e => Raise e
  end.

(** [try: body  except cls as e: handler(e)] *)
Definition try_except {A} (body : result A) (cls : exc_class)
    (handler : exc -> result A) : result A :=
  match body with
  | Return a => Return a
  | Raise e => if issubclass (exc_type e) cls then handler e else Raise e
  end.

(** ** Stateful programs: a state and exception monad *)

Definition prog (S A : Type) : Type := S -> S * result A.

Definition ret {S A} (a : A) : prog S A := fun st => (st, Return a).
Definition throw {S A} (e : exc) : prog S A := fun st => (st, Raise e).
Definition lift {S A} (m : result A) : prog S A := fun st => (st, m).
Definition pbind {S A B} (m : prog S A) (f : A -> prog S B) : prog S B :=
  fun st =>
    match m st with
    | (st', Return a) => f a st'
    | (st', Raise e) => (st', Raise e)
    end.
Definition try_except_prog {S A} (body : prog S A) (cls : exc_class)
    (handler : exc -> prog S A) : prog S A :=
  fun st =>
    match body st with
    | (st', Return a) => (st', Return a)
    | (st', Raise e) =>
        if issubclass (exc_type e) cls then handler e st' else (st', Raise e)
    end.

End Py.

Notation "'let*' x ':=' m 'in' k" := (Py.bind m (fun x => k))
  (at level 10, x name, m at level 100, k at level 200, only parsing).
Notation "'run*' x ':=' m 'in' k" := (Py.pbind m (fun x => k))
  (at level 10, x name, m at level 100, k at level 200, only parsing).

(* ===================================================================== *)
(** * The standard library used by the client                             *)
(* ===================================================================== *)

Module PyLib.
Import Py.

(** ** Rendering *)

Definition str_int (n : Z) : string := NilZero.string_of_int (Z.to_int n).

Fixpoint replicate (n : nat) (c : ascii) : string :=
  match n with
  | O => EmptyString
  | S n' => String c (replicate n' c)
  end.

(** [s.zfill(width)] for the text of a natural number. *)
Definition zfill (width : nat) (s : string) : string :=
  replicate (width - String.length s) "0" ++ s.

(** [str(t)]: the ISO form with a space as separator. *)
Definition str_datetime (t : datetime) : string :=
  zfill 4 (str_int (year t)) ++ "-" ++ zfill 2 (str_int (month t)) ++ "-"
  ++ zfill 2 (str_int (day t)) ++ " " ++ zfill 2 (str_int (hour t)) ++ ":"
  ++ zfill 2 (str_int (minute t)) ++ ":" ++ zfill 2 (str_int (second t)).

Definition type_name (v : value) : string :=
  match v with
  | VNone => "NoneType"
  | VBool _ => "bool"
  | VInt _ => "int"
  | VStr _ => "str"
  | VList _ => "list"
  | VDict _ => "dict"
  | VDatetime _ => "datetime.datetime"
  end.

(** ** The interpreter interface

    What depends on the interpreter and on the host rather than on the
    program: the text of [repr], the text of the [TypeError] that a
    generated [__init__] raises, given the class name, the keywords of the
    call that name no field and the required fields that the call leaves
    out, and local time. *)
Record runtime := {
  repr : value -> string;
  init_error : string -> list string -> list string -> string;
  fromtimestamp : Z -> result datetime
}.

Section WithRuntime.
Variable rt : runtime.

(** [str(v)] *)
Definition str (v : value) : string :=
  match v with
  | VNone => "None"
  | VBool true => "True"
  | VBool false => "False"
  | VInt n => str_int n
  | VStr s => s
  | VDatetime t => str_datetime t
  | VList _ | VDict _ => repr rt v
  end.

(** [str(e)] for an exception built from one argument. *)
Definition str_exc (e : exc) : string := str (exc_arg e).

(** ** [int] *)

(** The digits of a decimal literal: single underscores may separate
    digits. [after_digit] tells whether the previous character was one. *)
Fixpoint digits (acc : Z) (after_digit : bool) (s : string) : option Z :=
  match s with
  | EmptyString => if after_digit then Some acc else None
  | String c s' =>
      if isdecimal c then digits (10 * acc + digit_value c) true s'
      else if Ascii.eqb c "_" then
        if after_digit then digits acc false s' else None
      else None
  end.

(** The whitespace [int] sets aside around a literal: TAB..CR, SPACE, NEL
    and NBSP.  The separators FS..US, which [str.strip] removes, are not
    among them: [int] rejects a text that begins or ends with one. *)
Definition int_space (c : ascii) : bool :=
  ((9 <=? ord c) && (ord c <=? 13)) || (ord c =? 32)
  || (ord c =? 133) || (ord c =? 160).

(** A literal with no whitespace around it: an optional sign, then the
    digits. *)
Definition bare_literal (u : string) : option Z :=
  match u with
  | EmptyString => None
  | String c body =>
      if Ascii.eqb c "-" then option_map Z.opp (digits 0 false body)
      else if Ascii.eqb c "+" then digits 0 false body
      else digits 0 false (String c body)
  end.

(** The digit characters of a text, counted; underscores do not count. *)
Fixpoint count_digits (s : string) : Z :=
  match s with
  | EmptyString => 0
  | String c s' => (if isdecimal c then 1 else 0) + count_digits s'
  end.

(** The cap on the digits of a literal that [int] converts, as the
    interpreter starts ([sys.get_int_max_str_digits()]). *)
Definition int_max_str_digits : Z := 4300.

(** A literal with no whitespace around it as [int] reads it: a literal
    of more digits than the cap is refused, leading zeros included. *)
Definition capped_literal (u : string) : option Z :=
  match bare_literal u with
  | Some n => if count_digits u <=? int_max_str_digits then Some n else None
  | None => None
  end.

(** The integer a text denotes in base 10: surrounding whitespace, an
    optional sign, then the digits, no more of them than the cap. *)
Definition int_literal (s : string) : option Z :=
  capped_literal (strip_by int_space s).

(** The run of digits and single underscores at the head of a text, as the
    conversion scans it before anything else: the number of its digits, or
    [None] when it starts with an underscore, two underscores meet or it
    ends in one.  [after_sep] tells whether the previous character was an
    underscore; it holds at the start. *)
Fixpoint run_digits (count : Z) (after_sep : bool) (s : string) : option Z :=
  match s with
  | EmptyString => if after_sep then None else Some count
  | String c s' =>
      if isdecimal c then run_digits (count + 1) false s'
      else if Ascii.eqb c "_" then
        if after_sep then None else run_digits count true s'
      else if after_sep then None else Some count
  end.

(** A literal without its sign. *)
Definition unsigned (u : string) : string :=
  match u with
  | EmptyString => EmptyString
  | String c body =>
      if Ascii.eqb c "-" || Ascii.eqb c "+" then body else u
  end.

(** The text of the [ValueError] of [int(s)]: the cap is reported when the
    run of digits at the head exceeds it, whatever follows the run; any
    other text is an invalid literal, shown by the first 200 characters of
    its [repr]. *)
Definition int_error (s : string) : string :=
  let invalid :=
    "invalid literal for int() with base 10: " ++ take 200 (repr rt (VStr s)) in
  match run_digits 0 true (unsigned (strip_by int_space s)) with
  | Some n =>
      if int_max_str_digits <? n then
        "Exceeds the limit (" ++ str_int int_max_str_digits
        ++ " digits) for integer string conversion: value has " ++ str_int n
        ++ " digits; use sys.set_int_max_str_digits() to increase the limit"
      else invalid
  | None => invalid
  end.

(** [int(v)] *)
Definition int (v : value) : result Z :=
  match v with
  | VInt n => Return n
  | VBool b => Return (if b then 1 else 0)
  | VStr s =>
      match int_literal s with
      | Some n => Return n
      | None => Raise (Exc ValueError (VStr (int_error s)))
      end
  | _ =>
      Raise (Exc TypeError
        (VStr ("int() argument must be a string, a bytes-like object or a "
               ++ "real number, not '" ++ type_name v ++ "'")))
  end.

(** ** [datetime] *)

Definition is_leap (y : Z) : bool :=
  (y mod 4 =? 0) && (negb (y mod 100 =? 0) || (y mod 400 =? 0)).

Definition days_in_month (y m : Z) : Z :=
  if m =? 2 then (if is_leap y then 29 else 28)
  else if (m =? 4) || (m =? 6) || (m =? 9) || (m =? 11) then 30
  else 31.

Definition value_error {A} (text : string) : result A :=
  Raise (Exc ValueError (VStr text)).

(** [datetime(y, m, d, H, M, S)]: the constructor validates every field. *)
Definition datetime_new (y m d H M S : Z) : result datetime :=
  if negb ((1 <=? y) && (y <=? 9999)) then
    value_error ("year " ++ str_int y ++ " is out of range")
  else if negb ((1 <=? m) && (m <=? 12)) then
    value_error "month must be in 1..12"
  else if negb ((1 <=? d) && (d <=? days_in_month y m)) then
    value_error "day is out of range for month"
  else if negb ((0 <=? H) && (H <=? 23)) then
    value_error "hour must be in 0..23"
  else if negb ((0 <=? M) && (M <=? 59)) then
    value_error "minute must be in 0..59"
  else if negb ((0 <=? S) && (S <=? 59)) then
    value_error "second must be in 0..59"
  else Return (mk_datetime y m d H M S).

End WithRuntime.

End PyLib.

(** ** Regular expressions with backtracking ([re])

    A match is tried alternative by alternative and, inside a repetition,
    longest first.  [matches r s] lists every way in which [r] matches a
    prefix of [s], in the order in which the backtracking matcher finds
    them; [re.match] returns the first one. *)

Module Re.
Import Py.

Inductive regex :=
| Eps
| Chr (c : ascii)
| Cls (p : ascii -> bool)
| ClsPlus (p : ascii -> bool)
| Cat (r1 r2 : regex)
| Alt (r1 r2 : regex)
| Grp (name : string) (r : regex).

(** A match: the text matched, the text that follows it, and the named
    groups in the order in which they closed. *)
Record found := mk_found {
  matched : string; rest : string; groups : list (string * string) }.

(** One or more characters of a class, the longest run first. *)
Fixpoint plus_matches (p : ascii -> bool) (s : string) : list found :=
  match s with
  | EmptyString => []
  | String c s' =>
      if p c then
        map (fun f => mk_found (String c (matched f)) (rest f) [])
            (plus_matches p s')
        ++ [mk_found (String c EmptyString) s' []]
      else []
  end.

Fixpoint matches (r : regex) (s : string) : list found :=
  match r with
  | Eps => [mk_found EmptyString s []]
  | Chr c =>
      match s with
      | String c' s' =>
          if Ascii.eqb c' c then [mk_found (String c' EmptyString) s' []]
          else []
      | EmptyString => []
      end
  | Cls p =>
      match s with
      | String c' s' =>
          if p c' then [mk_found (String c' EmptyString) s' []] else []
      | EmptyString => []
      end
  | ClsPlus p => plus_matches p s
  | Cat r1 r2 =>
      flat_map
        (fun f1 =>
           map (fun f2 => mk_found (matched f1 ++ matched f2) (rest f2)
                            (groups f1 ++ groups f2))
               (matches r2 (rest f1)))
        (matches r1 s)
  | Alt r1 r2 => matches r1 s ++ matches r2 s
  | Grp name r1 =>
      map (fun f => mk_found (matched f) (rest f)
                      (groups f ++ [(name, matched f)]))
          (matches r1 s)
  end.

(** [re.match(r, s)] *)
Definition re_match (r : regex) (s : string) : option found :=
  match matches r s with
  | f :: _ => Some f
  | [] => None
  end.

(** [m.groupdict()[name]] *)
Fixpoint group (g : list (string * string)) (name : string) : option string :=
  match g with
  | [] => None
  | (n, t) :: g' => if String.eqb n name then Some t else group g' name
  end.

End Re.

(** ** [datetime.strptime] ([_strptime]) *)

Module Strptime.
Import Py PyLib Re.

Definition d_ : regex := Cls isdecimal.
Definition rng (lo hi : ascii) : regex := Cls (in_range lo hi).

(** The patterns of the numeric directives (the table of [TimeRE]). *)
Definition re_Y : regex := Grp "Y" (Cat d_ (Cat d_ (Cat d_ d_))).

Definition re_m : regex :=
  Grp "m" (Alt (Cat (Chr "1") (rng "0" "2"))
          (Alt (Cat (Chr "0") (rng "1" "9"))
               (rng "1" "9"))).

Definition re_d : regex :=
  Grp "d" (Alt (Cat (Chr "3") (rng "0" "1"))
          (Alt (Cat (rng "1" "2") d_)
          (Alt (Cat (Chr "0") (rng "1" "9"))
          (Alt (rng "1" "9")
               (Cat (Chr " ") (rng "1" "9")))))).

Definition re_H : regex :=
  Grp "H" (Alt (Cat (Chr "2") (rng "0" "3"))
          (Alt (Cat (rng "0" "1") d_)
               d_)).

Definition re_M : regex := Grp "M" (Alt (Cat (rng "0" "5") d_) d_).

Definition re_S : regex :=
  Grp "S" (Alt (Cat (Chr "6") (rng "0" "1"))
          (Alt (Cat (rng "0" "5") d_)
               d_)).

(** The pattern of one directive; the six numeric directives are the ones
    the client's format uses. *)
Definition directive (c : ascii) : option regex :=
  if Ascii.eqb c "Y" then Some re_Y
  else if Ascii.eqb c "m" then Some re_m
  else if Ascii.eqb c "d" then Some re_d
  else if Ascii.eqb c "H" then Some re_H
  else if Ascii.eqb c "M" then Some re_M
  else if Ascii.eqb c "S" then Some re_S
  else if Ascii.eqb c "%" then Some (Chr "%")
  else None.

(** [TimeRE.pattern]: a run of whitespace in the format stands for one or
    more whitespace characters of the input, [%x] for the pattern of the
    directive, any other character for itself.  [in_space] holds inside a
    run of whitespace. *)
Fixpoint pattern (in_space : bool) (format : string) : option regex :=
  match format with
  | EmptyString => Some Eps
  | String c format' =>
      if isspace c then
        if in_space then pattern true format'
        else option_map (Cat (ClsPlus isspace)) (pattern true format')
      else if Ascii.eqb c "%" then
        match format' with
        | EmptyString => None
        | String x format'' =>
            match directive x, pattern false format'' with
            | Some r, Some r' => Some (Cat r r')
            | _, _ => None
            end
        end
      else option_map (Cat (Chr c)) (pattern false format')
  end.

Section WithRuntime.
Variable rt : runtime.

(** The number a group holds, or the default of an absent directive. *)
Definition field (g : list (string * string)) (name : string) (default : Z)
  : result Z :=
  match group g name with
  | Some t => int rt (VStr t)
  | None => Return default
  end.

(** [datetime.strptime(data_string, format)] *)
Definition strptime (data_string : value) (format : string) : result datetime :=
  match data_string with
  | VStr s =>
      match pattern false format with
      | None =>
          value_error ("bad directive in format " ++ repr rt (VStr format))
      | Some r =>
          match re_match r s with
          | None =>
              value_error ("time data " ++ repr rt data_string
                           ++ " does not match format "
                           ++ repr rt (VStr format))
          | Some f =>
              if negb (String.eqb (rest f) "") then
                value_error ("unconverted data remains: " ++ rest f)
              else
                let* y := field (groups f) "Y" 1900 in
                let* m := field (groups f) "m" 1 in
                let* d := field (groups f) "d" 1 in
                let* H := field (groups f) "H" 0 in
                let* M := field (groups f) "M" 0 in
                let* S := field (groups f) "S" 0 in
                datetime_new y m d H M S
          end
      end
  | _ =>
      Raise (Exc TypeError
        (VStr ("strptime() argument 1 must be str, not "
               ++ type_name data_string)))
  end.

End WithRuntime.

End Strptime.

(** ** [dataclasses]: the generated constructor *)

Module Dataclasses.
Import Py PyLib.

(** A declared field and its default, if it has one. *)
Record field := mk_field { f_name : string; f_default : option value }.

Definition required (name : string) : field := mk_field name None.
Definition optional (name : string) (default : value) : field :=
  mk_field name (Some default).

(** A class made by [@dataclass]: its [__name__] and its fields, those of
    the base class first. *)
Record dataclass := mk_dataclass {
  __name__ : string; fields : list field }.

(** An instance: the class it belongs to and its attributes. *)
Record instance := mk_instance { class_of : string; attrs : dict }.

Definition field_names (cls : dataclass) : list string :=
  map f_name (fields cls).

Definition mem (k : string) (l : list string) : bool :=
  existsb (String.eqb k) l.

(** Keyword names that no field declares. *)
Definition unexpected (cls : dataclass) (kwargs : dict) : list string :=
  List.filter (fun k => negb (mem k (field_names cls))) (keys kwargs).

(** Fields without a default that the call leaves out. *)
Definition missing (cls : dataclass) (kwargs : dict) : list string :=
  map f_name
    (List.filter
       (fun f => match f_default f with
                 | Some _ => false
                 | None => negb (dict_contains kwargs (f_name f))
                 end)
       (fields cls)).

Definition attr_of (kwargs : dict) (f : field) : string * value :=
  (f_name f,
   match dict_get kwargs (f_name f), f_default f with
   | Some v, _ => v
   | None, Some v => v
   | None, None => VNone
   end).

Section WithRuntime.
Variable rt : runtime.

(** Calling the class with the entries of [kwargs] as keyword arguments:
    every keyword must name a field and every field
    without a default must be given; the values are stored as they are. *)
Definition init (cls : dataclass) (kwargs : dict) : result instance :=
  match unexpected cls kwargs, missing cls kwargs with
  | [], [] =>
      Return (mk_instance (__name__ cls) (map (attr_of kwargs) (fields cls)))
  | _, _ =>
      Raise (Exc TypeError
        (VStr (init_error rt (__name__ cls) (unexpected cls kwargs)
                 (missing cls kwargs))))
  end.

End WithRuntime.

(** [obj.name] *)
Definition getattr (obj : instance) (name : string) : option value :=
  dict_get (attrs obj) name.

End Dataclasses.

(** ** Mutable dictionaries: the object store *)

Module Store.
Import Py.

Abbreviation loc := nat.

(** The dictionaries that are alive, by address. *)
Abbreviation heap := (gmap nat dict).

(** The dictionary behind a reference. *)
Definition deref (h : heap) (l : loc) : dict := default [] (h !! l).

Definition read (l : loc) : prog heap dict :=
  fun h => (h, Return (deref h l)).

(** [k in d] *)
Definition contains (l : loc) (k : string) : prog heap bool :=
  fun h => (h, Return (dict_contains (deref h l) k)).

(** [d[k]] *)
Definition getitem (l : loc) (k : string) : prog heap value :=
  fun h =>
    match dict_get (deref h l) k with
    | Some v => (h, Return v)
    | None => (h, Raise (Exc KeyError (VStr k)))
    end.

(** [d[k] = v] *)
Definition setitem (l : loc) (k : string) (v : value) : prog heap unit :=
  fun h => (<[l := dict_set (deref h l) k v]> h, Return tt).

End Store.

(** ** The HTTP library ([requests]) *)

Module requests.
Import Py.

(** The arguments of one [requests.request] call. *)
Record request := mk_request {
  req_method : string;
  req_url : string;
  req_headers : list (string * string);
  req_json : option dict;
  req_params : option dict }.

(** A response: its headers and what [response.json()] does. *)
Record response := mk_response {
  resp_headers : list (string * string);
  json : result value }.

(** The headers of a response are looked up without regard to case
    (header names are ASCII). *)
Fixpoint headers_get (h : list (string * string)) (name : string)
  : option string :=
  match h with
  | [] => None
  | (n, v) :: h' =>
      if String.eqb (lower n) (lower name) then Some v else headers_get h' name
  end.

(** The network as the client sees it: every request is answered by a
    response or by an exception.  The state of a pipeline run is the list
    of the requests transmitted so far. *)
Definition transport : Type := request -> result response.
Definition wire : Type := list request.

(** [requests.request(...)] *)
Definition request_ (send : transport) (r : request) : prog wire response :=
  fun w => ((w ++ [r])%list, send r).

End requests.

(* ===================================================================== *)
(** * exceptions.py                                                       *)
(* ===================================================================== *)

Module exceptions.
Import Py.

(** The module declares [ShotcutAPIError] and its three specialisations
    [RateLimitError], [AuthenticationError] and [ValidationError]; the
    classes are constructors of [exc_class]. *)
Definition taxonomy : list exc_class :=
  [ShotcutAPIError; RateLimitError; AuthenticationError; ValidationError].

(** An exception of one of the kinds of the taxonomy. *)
Definition typed_error (e : exc) : bool :=
  issubclass (exc_type e) ShotcutAPIError.

End exceptions.

(* ===================================================================== *)
(** * utils.py                                                            *)
(* ===================================================================== *)

Module utils.
Import Py PyLib Strptime.

Section WithRuntime.
Variable rt : runtime.

Definition validate_date (date_str : option string) : result bool :=
  if negb (truthy (of_optional_str date_str)) then Return true
  else
    try_except
      (let* _ := strptime rt (of_optional_str date_str) "%Y-%m-%d %H:%M:%S" in
       Return true)
      ValueError
      (fun _ => Return false).

(** The comprehension inserts the retained entries one by one into a new
    dictionary. *)
Definition clean_params (params : dict) : dict :=
  fold_left
    (fun acc kv => if negb (is_none (snd kv)) then dict_set acc (fst kv) (snd kv)
                   else acc)
    params [].

(** [all(0 <= int(v.strip()) <= 255 for v in values)] *)
Fixpoint all_components (values : list string) : result bool :=
  match values with
  | [] => Return true
  | v :: values' =>
      let* n := int rt (VStr (strip v)) in
      if (0 <=? n) && (n <=? 255) then all_components values'
      else Return false
  end.

Definition validate_rgb_color (color : option string) : result bool :=
  if negb (truthy (of_optional_str color)) then Return true
  else
    let color := match color with Some c => c | None => "" end in
    if negb (startswith color "rgb(") || negb (endswith color ")") then
      Return false
    else
      try_except
        (let values := split "," (slice color 4 (-1)) in
         if negb (length values =? 3)%nat then Return false
         else all_components values)
        ValueError
        (fun _ => Return false).

End WithRuntime.

End utils.

(* ===================================================================== *)
(** * models.py                                                           *)
(* ===================================================================== *)

Module models.
Import Py PyLib Strptime Dataclasses Store.

Definition BaseModel : dataclass :=
  mk_dataclass "BaseModel"
    [required "id"; required "created_at"; required "updated_at"].

Definition Link : dataclass :=
  mk_dataclass "Link"
    (fields BaseModel ++
     [required "url"; required "shorturl"; optional "title" VNone;
      optional "description" VNone; optional "location" VNone;
      optional "custom" VNone; optional "password" VNone;
      optional "expiry" VNone; optional "clicks" (VInt 0);
      optional "status" (VBool true)])%list.

Definition Campaign : dataclass :=
  mk_dataclass "Campaign"
    (fields BaseModel ++
     [required "name"; required "slug"; optional "public" (VBool false);
      optional "total_links" (VInt 0); optional "total_clicks" (VInt 0)])%list.

Definition Channel : dataclass :=
  mk_dataclass "Channel"
    (fields BaseModel ++
     [required "name"; optional "description" VNone; optional "color" VNone;
      optional "starred" (VBool false); optional "total_items" (VInt 0)])%list.

Definition Domain : dataclass :=
  mk_dataclass "Domain"
    (fields BaseModel ++
     [required "domain"; required "status"; optional "redirect_root" VNone;
      optional "redirect_404" VNone; optional "ssl_status" (VBool false)])%list.

Definition Pixel : dataclass :=
  mk_dataclass "Pixel"
    (fields BaseModel ++
     [required "type"; required "name"; required "tag";
      optional "status" (VBool true)])%list.

Definition QRCode : dataclass :=
  mk_dataclass "QRCode"
    (fields BaseModel ++
     [required "type"; required "data"; required "link";
      optional "background" VNone; optional "foreground" VNone;
      optional "logo" VNone])%list.

Definition Splash : dataclass :=
  mk_dataclass "Splash"
    (fields BaseModel ++
     [required "name"; required "content"; optional "status" (VBool true)])%list.

Definition AccountStats : dataclass :=
  mk_dataclass "AccountStats"
    [required "total_links"; required "total_clicks";
     required "total_campaigns"; required "total_channels";
     required "total_domains"; required "total_pixels";
     required "total_qr_codes"].

Definition PaginatedResponse : dataclass :=
  mk_dataclass "PaginatedResponse"
    [required "items"; required "total"; required "current_page";
     required "total_pages"; required "has_next"; required "has_prev"].

Definition APIResponse : dataclass :=
  mk_dataclass "APIResponse"
    [required "error"; optional "message" VNone; optional "data" VNone].

(** The record kinds of the library. *)
Definition record_kinds : list dataclass :=
  [Link; Campaign; Channel; Domain; Pixel; QRCode; Splash; AccountStats].

Section WithRuntime.
Variable rt : runtime.

Definition convert_datetime (date_str : value) : result value :=
  if negb (truthy date_str) then Return VNone
  else
    try_except
      (let* t := strptime rt date_str "%Y-%m-%d %H:%M:%S" in
       Return (VDatetime t))
      ValueError
      (fun _ => Return VNone).

(** [if key in data: data[key] = convert_datetime(data[key])] *)
Definition convert_entry (data : loc) (key : string) : prog heap unit :=
  run* present := contains data key in
  if present : bool then
    run* old := getitem data key in
    run* new := lift (convert_datetime old) in
    setitem data key new
  else ret tt.

(** [data] is a reference to the caller's dictionary, or [None]. *)
Definition create_model_from_response (model_class : dataclass)
    (data : option loc) : prog heap (option instance) :=
  match data with
  | None => ret None
  | Some data =>
      run* d := read data in
      if negb (truthy (VDict d)) then ret None
      else
        run* _ := convert_entry data "created_at" in
        run* _ := convert_entry data "updated_at" in
        run* _ := convert_entry data "expiry" in
        try_except_prog
          (run* kwargs := read data in
           run* obj := lift (init rt model_class kwargs) in
           ret (Some obj))
          TypeError
          (fun e =>
             throw (Exc ValueError
               (VStr ("Invalid data for " ++ __name__ model_class ++ ": "
                      ++ str_exc rt e))))
  end.

End WithRuntime.

End models.

(* ===================================================================== *)
(** * api.py                                                              *)
(* ===================================================================== *)

Module api.
Import Py PyLib requests.

Record ShotcutAPI := mk_ShotcutAPI {
  api_key : string;
  base_url : string;
  headers : list (string * string) }.

Definition __init__ (api_key : string) : ShotcutAPI :=
  mk_ShotcutAPI api_key "https://shotcut.in/api"
    [("Authorization", "Bearer " ++ api_key);
     ("Content-Type", "application/json")].

(** [d if d else None] for an optional dictionary. *)
Definition if_nonempty (d : option dict) : option dict :=
  match d with
  | Some (_ :: _) => d
  | _ => None
  end.

Section WithRuntime.
Variable rt : runtime.
Variable send : transport.

(** [obj.get(key, default)]; only a dictionary has the method. *)
Definition get (obj : value) (key : string) (default : value) : result value :=
  match obj with
  | VDict d => Return (match dict_get d key with Some v => v | None => default end)
  | _ =>
      Raise (Exc AttributeError
        (VStr ("'" ++ type_name obj ++ "' object has no attribute 'get'")))
  end.

(** [obj[key]] *)
Definition subscript (obj : value) (key : string) : result value :=
  match obj with
  | VDict d =>
      match dict_get d key with
      | Some v => Return v
      | None => Raise (Exc KeyError (VStr key))
      end
  | _ =>
      Raise (Exc TypeError
        (VStr ("'" ++ type_name obj ++ "' object is not subscriptable")))
  end.

(** [response.headers.get(name, default)] *)
Definition header (r : response) (name : string) (default : value) : value :=
  match headers_get (resp_headers r) name with
  | Some v => VStr v
  | None => default
  end.

(** The rate limit check of lines 56 to 58. *)
Definition check_rate_limit (r : response) : result unit :=
  match header r "X-RateLimit-Remaining" VNone with
  | VStr "0" =>
      let* ts := int rt (header r "X-RateLimit-Reset" (VInt 0)) in
      let* reset_time := fromtimestamp rt ts in
      Raise (Exc api_ShotcutAPIError
        (VStr ("Rate limit exceeded. Reset at " ++ str rt (VDatetime reset_time))))
  | _ => Return tt
  end.

(** The check of the body of lines 61 and 62. *)
Definition check_api_error (response_data : value) : result unit :=
  let* e := get response_data "error" VNone in
  if truthy e then
    let* e' := subscript response_data "error" in
    if negb (eq_int e' 0) then
      let* message := get response_data "message" (VStr "Unknown API error") in
      Raise (Exc api_ShotcutAPIError message)
    else Return tt
  else Return tt.

Definition _make_request (self : ShotcutAPI) (method endpoint : string)
    (data params : option dict) : prog wire value :=
  let url := base_url self ++ "/" ++ endpoint in
  try_except_prog
    (run* response :=
       request_ send
         (mk_request method url (headers self) (if_nonempty data)
            (if_nonempty params)) in
     run* response_data := lift (json response) in
     run* _ := lift (check_rate_limit response) in
     run* _ := lift (check_api_error response_data) in
     ret response_data)
    RequestException
    (fun e =>
       throw (Exc api_ShotcutAPIError (VStr ("Request failed: " ++ str_exc rt e)))).

Definition get_account (self : ShotcutAPI) : prog wire value :=
  _make_request self "GET" "account" None None.

Definition list_domains (self : ShotcutAPI) (limit page : Z) : prog wire value :=
  let params := [("limit", VInt limit); ("page", VInt page)] in
  _make_request self "GET" "domains" None (Some params).

Definition create_domain (self : ShotcutAPI) (domain : string)
    (redirect_root redirect_404 : option string) : prog wire value :=
  let data := [("domain", VStr domain);
               ("redirectroot", of_optional_str redirect_root);
               ("redirect404", of_optional_str redirect_404)] in
  _make_request self "POST" "domain/add" (Some data) None.

(** [if x: data[key] = x] for an optional text [x]. *)
Definition set_if (data : dict) (key : string) (x : option string) : dict :=
  if truthy (of_optional_str x) then dict_set data key (of_optional_str x)
  else data.

Definition update_domain (self : ShotcutAPI) (domain_id : Z)
    (redirect_root redirect_404 : option string) : prog wire value :=
  let data := [] in
  let data := set_if data "redirectroot" redirect_root in
  let data := set_if data "redirect404" redirect_404 in
  _make_request self "PUT" ("domain/" ++ str_int domain_id ++ "/update")
    (Some data) None.

(** ** The other methods of the client

    Identifiers are integers, as annotated; an f-string renders them with
    [str].  Arguments with a default are passed explicitly. *)

Definition update_account (self : ShotcutAPI) (email password : option string)
  : prog wire value :=
  let data := [] in
  let data := set_if data "email" email in
  let data := set_if data "password" password in
  _make_request self "PUT" "account/update" (Some data) None.

Definition delete_domain (self : ShotcutAPI) (domain_id : Z) : prog wire value :=
  _make_request self "DELETE" ("domain/" ++ str_int domain_id ++ "/delete")
    None None.

Definition list_overlays (self : ShotcutAPI) (limit page : Z) : prog wire value :=
  let params := [("limit", VInt limit); ("page", VInt page)] in
  _make_request self "GET" "overlay" None (Some params).

Definition list_campaigns (self : ShotcutAPI) (limit page : Z) : prog wire value :=
  let params := [("limit", VInt limit); ("page", VInt page)] in
  _make_request self "GET" "campaigns" None (Some params).

Definition create_campaign (self : ShotcutAPI) (name : string)
    (slug : option string) (public : bool) : prog wire value :=
  let data := [("name", VStr name); ("slug", of_optional_str slug);
               ("public", VBool public)] in
  _make_request self "POST" "campaign/add" (Some data) None.

Definition assign_link_to_campaign (self : ShotcutAPI) (campaign_id link_id : Z)
  : prog wire value :=
  _make_request self "POST"
    ("campaign/" ++ str_int campaign_id ++ "/assign/" ++ str_int link_id)
    None None.

(** [if x is not None: data[key] = x] for an optional flag [x]. *)
Definition set_if_not_none (data : dict) (key : string) (x : option bool) : dict :=
  match x with
  | Some b => dict_set data key (VBool b)
  | None => data
  end.

Definition update_campaign (self : ShotcutAPI) (campaign_id : Z) (name : string)
    (slug : option string) (public : option bool) : prog wire value :=
  let data := [("name", VStr name)] in
  let data := set_if data "slug" slug in
  let data := set_if_not_none data "public" public in
  _make_request self "PUT" ("campaign/" ++ str_int campaign_id ++ "/update")
    (Some data) None.

Definition delete_campaign (self : ShotcutAPI) (campaign_id : Z) : prog wire value :=
  _make_request self "DELETE" ("campaign/" ++ str_int campaign_id ++ "/delete")
    None None.

Definition list_channels (self : ShotcutAPI) (limit page : Z) : prog wire value :=
  let params := [("limit", VInt limit); ("page", VInt page)] in
  _make_request self "GET" "channels" None (Some params).

Definition list_channel_items (self : ShotcutAPI) (channel_id limit page : Z)
  : prog wire value :=
  let params := [("limit", VInt limit); ("page", VInt page)] in
  _make_request self "GET" ("channel/" ++ str_int channel_id) None (Some params).

Definition create_channel (self : ShotcutAPI) (name : string)
    (description color : option string) (starred : bool) : prog wire value :=
  let data := [("name", VStr name);
               ("description", of_optional_str description);
               ("color", of_optional_str color);
               ("starred", VBool starred)] in
  _make_request self "POST" "channel/add" (Some data) None.

Definition assign_item_to_channel (self : ShotcutAPI) (channel_id : Z)
    (item_type : string) (item_id : Z) : prog wire value :=
  _make_request self "POST"
    ("channel/" ++ str_int channel_id ++ "/assign/" ++ item_type ++ "/"
     ++ str_int item_id)
    None None.

Definition update_channel (self : ShotcutAPI) (channel_id : Z)
    (name description color : option string) (starred : option bool)
  : prog wire value :=
  let data := [] in
  let data := set_if data "name" name in
  let data := set_if data "description" description in
  let data := set_if data "color" color in
  let data := set_if_not_none data "starred" starred in
  _make_request self "PUT" ("channel/" ++ str_int channel_id ++ "/update")
    (Some data) None.

Definition delete_channel (self : ShotcutAPI) (channel_id : Z) : prog wire value :=
  _make_request self "DELETE" ("channel/" ++ str_int channel_id ++ "/delete")
    None None.

Definition list_splash (self : ShotcutAPI) (limit page : Z) : prog wire value :=
  let params := [("limit", VInt limit); ("page", VInt page)] in
  _make_request self "GET" "splash" None (Some params).

Definition list_links (self : ShotcutAPI) (limit page : Z) (order : string)
    (short : option string) : prog wire value :=
  let params := [("limit", VInt limit); ("page", VInt page);
                 ("order", VStr order)] in
  let params := set_if params "short" short in
  _make_request self "GET" "urls" None (Some params).

Definition get_link (self : ShotcutAPI) (link_id : Z) : prog wire value :=
  _make_request self "GET" ("url/" ++ str_int link_id) None None.



Definition delete_link (self : ShotcutAPI) (link_id : Z) : prog wire value :=
  _make_request self "DELETE" ("url/" ++ str_int link_id ++ "/delete") None None.

Definition list_pixels (self : ShotcutAPI) (limit page : Z) : prog wire value :=
  let params := [("limit", VInt limit); ("page", VInt page)] in
  _make_request self "GET" "pixels" None (Some params).

Definition create_pixel (self : ShotcutAPI) (type name tag : string)
  : prog wire value :=
  let data := [("type", VStr type); ("name", VStr name); ("tag", VStr tag)] in
  _make_request self "POST" "pixel/add" (Some data) None.

Definition update_pixel (self : ShotcutAPI) (pixel_id : Z)
    (name tag : option string) : prog wire value :=
  let data := [] in
  let data := set_if data "name" name in
  let data := set_if data "tag" tag in
  _make_request self "PUT" ("pixel/" ++ str_int pixel_id ++ "/update")
    (Some data) None.

Definition delete_pixel (self : ShotcutAPI) (pixel_id : Z) : prog wire value :=
  _make_request self "DELETE" ("pixel/" ++ str_int pixel_id ++ "/delete")
    None None.

Definition list_qr_codes (self : ShotcutAPI) (limit page : Z) : prog wire value :=
  let params := [("limit", VInt limit); ("page", VInt page)] in
  _make_request self "GET" "qr" None (Some params).

Definition get_qr_code (self : ShotcutAPI) (qr_id : Z) : prog wire value :=
  _make_request self "GET" ("qr/" ++ str_int qr_id) None None.

(** [data] is a text or a dictionary. *)
Definition create_qr_code (self : ShotcutAPI) (type : string) (data : value)
    (background foreground logo : option string) : prog wire value :=
  let qr_data := [("type", VStr type); ("data", data)] in
  let qr_data := set_if qr_data "background" background in
  let qr_data := set_if qr_data "foreground" foreground in
  let qr_data := set_if qr_data "logo" logo in
  _make_request self "POST" "qr/add" (Some qr_data) None.

Definition update_qr_code (self : ShotcutAPI) (qr_id : Z) (data : value)
    (background foreground logo : option string) : prog wire value :=
  let qr_data := [("data", data)] in
  let qr_data := set_if qr_data "background" background in
  let qr_data := set_if qr_data "foreground" foreground in
  let qr_data := set_if qr_data "logo" logo in
  _make_request self "PUT" ("qr/" ++ str_int qr_id ++ "/update")
    (Some qr_data) None.

Definition delete_qr_code (self : ShotcutAPI) (qr_id : Z) : prog wire value :=
  _make_request self "DELETE" ("qr/" ++ str_int qr_id ++ "/delete") None None.

End WithRuntime.

End api.

(* ===================================================================== *)
(** * An interpreter instance                                             *)
(* ===================================================================== *)

(** CPython 3.11 on a 64-bit Linux host whose local time is UTC, for the
    closed examples. *)
Module CPython.
Import Py PyLib.

Definition hex_digit (n : Z) : ascii :=
  ascii_of_N (Z.to_N (if n <? 10 then 48 + n else 87 + n)).

Definition printable (c : ascii) : bool :=
  ((32 <=? ord c) && (ord c <=? 126))
  || ((161 <=? ord c) && negb (ord c =? 173)).

Fixpoint escape (quote : ascii) (s : string) : string :=
  match s with
  | EmptyString => EmptyString
  | String c s' =>
      (if Ascii.eqb c "\" then "\\"
       else if Ascii.eqb c quote then String "\" (String c "")
       else if ord c =? 10 then "\n"
       else if ord c =? 13 then "\r"
       else if ord c =? 9 then "\t"
       else if printable c then String c ""
       else String "\" (String "x" (String (hex_digit (ord c / 16))
                                      (String (hex_digit (ord c mod 16)) ""))))
      ++ escape quote s'
  end.

Fixpoint has (c : ascii) (s : string) : bool :=
  match s with
  | EmptyString => false
  | String c' s' => Ascii.eqb c' c || has c s'
  end.

(** The double quote, code point 34. *)
Definition dquote : ascii := ascii_of_N 34.

Definition repr_str (s : string) : string :=
  if has "'" s && negb (has dquote s)
  then String dquote (escape dquote s ++ String dquote "")
  else String "'" (escape "'" s ++ String "'" "").

Definition repr_datetime (t : datetime) : string :=
  "datetime.datetime(" ++ str_int (year t) ++ ", " ++ str_int (month t)
  ++ ", " ++ str_int (day t) ++ ", " ++ str_int (hour t) ++ ", "
  ++ str_int (minute t)
  ++ (if second t =? 0 then "" else ", " ++ str_int (second t)) ++ ")".

Fixpoint join (sep : string) (l : list string) : string :=
  match l with
  | [] => ""
  | [x] => x
  | x :: l' => x ++ sep ++ join sep l'
  end.

Fixpoint repr (v : value) : string :=
  match v with
  | VNone => "None"
  | VBool true => "True"
  | VBool false => "False"
  | VInt n => str_int n
  | VStr s => repr_str s
  | VDatetime t => repr_datetime t
  | VList l => "[" ++ join ", " (map repr l) ++ "]"
  | VDict d =>
      "{" ++ join ", " (map (fun kv => repr_str (fst kv) ++ ": " ++ repr (snd kv)) d)
      ++ "}"
  end.

Fixpoint name_list_tail (l : list string) : string :=
  match l with
  | [] => ""
  | [b] => "and " ++ repr_str b
  | b :: l' => repr_str b ++ ", " ++ name_list_tail l'
  end.

(** ['a'], ['a' and 'b'], ['a', 'b', and 'c'] *)
Definition name_list (l : list string) : string :=
  match l with
  | [] => ""
  | [a] => repr_str a
  | [a; b] => repr_str a ++ " and " ++ repr_str b
  | a :: l' => repr_str a ++ ", " ++ name_list_tail l'
  end.

(** The first keyword that names no field is reported, between plain
    quotes, before any missing argument; the keyword [self] collides with
    the first parameter of the constructor. *)
Definition init_error (name : string) (unexpected missing : list string)
  : string :=
  match unexpected with
  | k :: _ =>
      if String.eqb k "self" then
        name ++ ".__init__() got multiple values for argument 'self'"
      else
        name ++ ".__init__() got an unexpected keyword argument '" ++ k ++ "'"
  | [] =>
      name ++ ".__init__() missing "
      ++ str_int (Z.of_nat (length missing)) ++ " required positional argument"
      ++ (match missing with [_] => "" | _ => "s" end) ++ ": "
      ++ name_list missing
  end.

(** Days since 1970-01-01 to a civil date. *)
Definition civil_from_days (z : Z) : Z * Z * Z :=
  let z := z + 719468 in
  let era := z / 146097 in
  let doe := z - era * 146097 in
  let yoe := (doe - doe / 1460 + doe / 36524 - doe / 146096) / 365 in
  let doy := doe - (365 * yoe + yoe / 4 - yoe / 100) in
  let mp := (5 * doy + 2) / 153 in
  let d := doy - (153 * mp + 2) / 5 + 1 in
  let m := if mp <? 10 then mp + 3 else mp - 9 in
  (yoe + era * 400 + (if m <=? 2 then 1 else 0), m, d).

(** [tm_year + 1900] as the C library computes it in the type [int]. *)
Definition wrap_int (y : Z) : Z :=
  (y + 2147483648) mod 4294967296 - 2147483648.

(** [datetime.fromtimestamp(ts)] for an integer: the timestamp must fit
    [time_t], the year must fit the [int] of the C library and lie between
    1 and 9999, and so must the year of the day before, which the
    conversion probes for a repeated hour. *)
Definition fromtimestamp (ts : Z) : result datetime :=
  if (ts <? - 9223372036854775808) || (9223372036854775808 <=? ts) then
    Raise (Exc OverflowError
             (VStr "timestamp out of range for platform time_t"))
  else
    let '(y, m, d) := civil_from_days (ts / 86400) in
    let '(y0, _, _) := civil_from_days ((ts - 86400) / 86400) in
    let secs := ts mod 86400 in
    if (y <? - 2147481748) || (2147485547 <? y) then
      Raise (Exc OSError
               (VStr "[Errno 75] Value too large for defined data type"))
    else if negb ((1 <=? wrap_int y) && (wrap_int y <=? 9999)) then
      value_error ("year " ++ str_int (wrap_int y) ++ " is out of range")
    else if y0 <? 1 then value_error "year 0 is out of range"
    else
      Return (mk_datetime y m d (secs / 3600) (secs mod 3600 / 60) (secs mod 60)).

Definition runtime : PyLib.runtime :=
  {| PyLib.repr := repr;
     PyLib.init_error := init_error;
     PyLib.fromtimestamp := fromtimestamp |}.

End CPython.

(* ===================================================================== *)
(** * The specification's vocabulary                                      *)
(* ===================================================================== *)

Module Spec.
Import Py PyLib Dataclasses requests.

(** Every character of [t] satisfies [p]. *)
Fixpoint forall_chars (p : ascii -> bool) (t : string) : bool :=
  match t with
  | EmptyString => true
  | String c t' => p c && forall_chars p t'
  end.

(** The number a run of decimal digits denotes. *)
Fixpoint number_from (acc : Z) (t : string) : Z :=
  match t with
  | EmptyString => acc
  | String c t' => number_from (10 * acc + digit_value c) t'
  end.
Definition number (t : string) : Z := number_from 0 t.

(** [t] consists of at least [lo] and at most [hi] decimal digits. *)
Definition numeral (lo hi : nat) (t : string) : Prop :=
  forall_chars isdecimal t = true
  /\ (lo <= String.length t)%nat /\ (String.length t <= hi)%nat.

(** A moment of the proleptic Gregorian calendar. *)
Definition valid_datetime (y m d H M S : Z) : Prop :=
  1 <= y <= 9999 /\ 1 <= m <= 12 /\ 1 <= d <= days_in_month y m
  /\ 0 <= H <= 23 /\ 0 <= M <= 59 /\ 0 <= S <= 59.

(** What a pattern matches, and the groups it then holds. *)
Fixpoint den (r : Re.regex) (w : string) (g : list (string * string)) : Prop :=
  match r with
  | Re.Eps => w = "" /\ g = []
  | Re.Chr c => w = String c "" /\ g = []
  | Re.Cls p => exists c, w = String c "" /\ p c = true /\ g = []
  | Re.ClsPlus p => w <> "" /\ forall_chars p w = true /\ g = []
  | Re.Cat r1 r2 =>
      exists w1 w2 g1 g2,
        w = w1 ++ w2 /\ g = (g1 ++ g2)%list /\ den r1 w1 g1 /\ den r2 w2 g2
  | Re.Alt r1 r2 => den r1 w g \/ den r2 w g
  | Re.Grp name r1 => exists g1, g = (g1 ++ [(name, w)])%list /\ den r1 w g1
  end.

(** The pattern of the client's format, and its tails. *)
Definition tail_S : Re.regex := Re.Cat Strptime.re_S Re.Eps.
Definition tail_cS : Re.regex := Re.Cat (Re.Chr ":") tail_S.
Definition tail_M : Re.regex := Re.Cat Strptime.re_M tail_cS.
Definition tail_cM : Re.regex := Re.Cat (Re.Chr ":") tail_M.
Definition tail_H : Re.regex := Re.Cat Strptime.re_H tail_cM.
Definition tail_ws : Re.regex := Re.Cat (Re.ClsPlus isspace) tail_H.
Definition tail_d : Re.regex := Re.Cat Strptime.re_d tail_ws.
Definition tail_cd : Re.regex := Re.Cat (Re.Chr "-") tail_d.
Definition tail_m : Re.regex := Re.Cat Strptime.re_m tail_cd.
Definition tail_cm : Re.regex := Re.Cat (Re.Chr "-") tail_m.
Definition date_time_pattern : Re.regex := Re.Cat Strptime.re_Y tail_cm.



(** The day of the month: one or two digits, or a digit after a space. *)
Definition day_text (d : string) (n : Z) : Prop :=
  (numeral 1 2 d /\ n = number d)
  \/ (exists c, d = String " " (String c "") /\ isdecimal c = true
                /\ n = digit_value c).

(** The format as the parser reads it: a year of four digits, the other
    fields of one or two digits, and any non-empty run of whitespace
    between the date and the time. *)
Definition lenient_format (s : string) : Prop :=
  exists (Y m d ws H M S : string) (day : Z),
    s = Y ++ "-" ++ m ++ "-" ++ d ++ ws ++ H ++ ":" ++ M ++ ":" ++ S
    /\ numeral 4 4 Y /\ numeral 1 2 m /\ day_text d day
    /\ ws <> "" /\ forall_chars isspace ws = true
    /\ numeral 1 2 H /\ numeral 1 2 M /\ numeral 1 2 S
    /\ valid_datetime (number Y) (number m) day
         (number H) (number M) (number S).

(** Decimal digits, with single underscores allowed between two digits,
    and the number they denote. *)
Inductive digit_run : string -> Z -> Prop :=
| run_one c :
    isdecimal c = true -> digit_run (String c "") (digit_value c)
| run_digit t n c :
    digit_run t n -> isdecimal c = true ->
    digit_run (t ++ String c "") (10 * n + digit_value c)
| run_sep t n c :
    digit_run t n -> isdecimal c = true ->
    digit_run (t ++ String "_" (String c "")) (10 * n + digit_value c).

(** An integer literal of the language: an optional sign [+] or [-], then
    decimal digits between which single underscores may stand. *)
Definition integer_literal (t : string) (n : Z) : Prop :=
  digit_run t n
  \/ (exists u, t = String "+" u /\ digit_run u n)
  \/ (exists u m, t = String "-" u /\ digit_run u m /\ n = - m).

(** What [int(t.strip())] reads: an integer literal of the language of at
    most 4300 digits, with whitespace around it. *)
Definition integer_text (t : string) (n : Z) : Prop :=
  exists pre u post,
    t = pre ++ u ++ post
    /\ forall_chars isspace pre = true /\ forall_chars isspace post = true
    /\ integer_literal u n
    /\ count_digits u <= int_max_str_digits.





(** The state of [digits] after reading [s]: the number so far and whether
    the last character was a digit. *)
Fixpoint scan (acc : Z) (after_digit : bool) (s : string) : option (Z * bool) :=
  match s with
  | EmptyString => Some (acc, after_digit)
  | String c s' =>
      if isdecimal c then scan (10 * acc + digit_value c) true s'
      else if Ascii.eqb c "_" then
        if after_digit then scan acc false s' else None
      else None
  end.

(** The last character of [u] is no whitespace. *)
Fixpoint ends_solid (u : string) : bool :=
  match u with
  | EmptyString => false
  | String c EmptyString => negb (isspace c)
  | String _ u' => ends_solid u'
  end.

(** A colour component that the validator accepts: text without a comma
    that, whitespace around it set aside, is an integer literal of the
    language (sign, underscores, at most 4300 digits) between 0 and 255. *)
Definition component (t : string) : Prop :=
  forall_chars (fun c => negb (Ascii.eqb c ",")) t = true
  /\ exists n, integer_text t n /\ 0 <= n <= 255.

(** An entry whose value is present. *)
Definition present (kv : string * value) : bool := negb (is_none (snd kv)).

(** [t] holds no [sep]. *)
Definition free (sep : ascii) (t : string) : bool :=
  forall_chars (fun c => negb (Ascii.eqb c sep)) t.

(** [0 <= int(t.strip()) <= 255], false when [t.strip()] is no integer
    literal. *)
Definition in_byte_range (t : string) : bool :=
  match int_literal (strip t) with
  | Some n => (0 <=? n) && (n <=? 255)
  | None => false
  end.

(** The literal form [rgb(R,G,B)] with three such components. *)
Definition rgb_form (s : string) : Prop :=
  exists R G B : string,
    s = "rgb(" ++ R ++ "," ++ G ++ "," ++ B ++ ")"
    /\ component R /\ component G /\ component B.

(** [has_next == (current_page < total_pages)] on an instance. *)
Definition has_next_invariant (obj : instance) : Prop :=
  exists (cp tp : Z) (hn : bool),
    getattr obj "current_page" = Some (VInt cp)
    /\ getattr obj "total_pages" = Some (VInt tp)
    /\ getattr obj "has_next" = Some (VBool hn)
    /\ hn = (cp <? tp).

(** The three entries that record construction converts. *)
Definition date_keys : list string := ["created_at"; "updated_at"; "expiry"].

Definition is_date_key (k : string) : bool :=
  existsb (String.eqb k) date_keys.

Section WithRuntime.
Variable rt : runtime.

(** The parsed date-time of a text, or [None] when it does not parse. *)
Definition parsed (v : value) : value :=
  match Strptime.strptime rt v "%Y-%m-%d %H:%M:%S" with
  | Return t => VDatetime t
  | Raise _ => VNone
  end.

(** The mapping with the text of every date entry replaced. *)
Definition dates_replaced (d : dict) : dict :=
  map (fun kv => if is_date_key (fst kv) then (fst kv, parsed (snd kv)) else kv) d.

(** The same replacement for one key, on every entry and on the first. *)
Definition replace_key (k : string) (d : dict) : dict :=
  map (fun kv => if String.eqb (fst kv) k then (fst kv, parsed (snd kv)) else kv) d.

Definition conv_key (k : string) (d : dict) : dict :=
  match dict_get d k with
  | Some v => dict_set d k (parsed v)
  | None => d
  end.

(** The constructor call that ends record construction, with a
    [TypeError] of the call turned into the [ValueError] of the helper. *)
Definition construct (cls : dataclass) (kwargs : dict) : result (option instance) :=
  match Dataclasses.init rt cls kwargs with
  | Return obj => Return (Some obj)
  | Raise e =>
      Raise (Exc ValueError
        (VStr ("Invalid data for " ++ __name__ cls ++ ": " ++ str_exc rt e)))
  end.

End WithRuntime.

(** What [convert_datetime] converts without raising: text, and any object
    that counts as false ([None] above all). *)
Definition text_or_false (v : value) : Prop :=
  (exists s, v = VStr s) \/ truthy v = false.

(** The date entries of [d] hold text or a false object. *)
Definition dates_are_text (d : dict) : Prop :=
  forall k v, In k date_keys -> dict_get d k = Some v -> text_or_false v.

(** The keys of [d] differ from the declared fields: a key that is no
    field, or a required field that is no key. *)
Definition keys_mismatch (cls : dataclass) (d : dict) : Prop :=
  (exists k, In k (keys d) /\ ~ In k (field_names cls))
  \/ (exists f, In f (fields cls) /\ f_default f = None
                /\ ~ In (f_name f) (keys d)).

(** The request that one pipeline call transmits. *)
Definition transmitted (self : api.ShotcutAPI) (method endpoint : string)
    (data params : option dict) : request :=
  mk_request method (api.base_url self ++ "/" ++ endpoint) (api.headers self)
    (api.if_nonempty data) (api.if_nonempty params).

(** The [error] entry of a decoded body, [None] when there is none, and its
    [message] entry, with the text that stands in for an absent one. *)
Definition error_code (body : dict) : value :=
  match dict_get body "error" with Some v => v | None => VNone end.

Definition error_message (body : dict) : value :=
  match dict_get body "message" with
  | Some m => m
  | None => VStr "Unknown API error"
  end.

(** The API error with which the pipeline reports a failed request. *)
Definition request_failed (rt : runtime) (e : exc) : exc :=
  Exc api_ShotcutAPIError (VStr ("Request failed: " ++ str_exc rt e)).

(** The network and the decoder raise no exception of the taxonomy, and
    neither does the conversion to local time. *)
Definition untyped_transport (send : transport) : Prop :=
  forall r,
    match send r with
    | Raise e => exceptions.typed_error e = false
    | Return resp =>
        match json resp with
        | Raise e => exceptions.typed_error e = false
        | Return _ => True
        end
    end.

Definition untyped_clock (rt : runtime) : Prop :=
  forall ts e, fromtimestamp rt ts = Raise e -> exceptions.typed_error e = false.

(** The entry of an optional text argument that is given and not empty, and
    the entry of an optional flag that is given. *)
Definition given (key : string) (x : option string) : dict :=
  match x with
  | Some s => if String.eqb s "" then [] else [(key, VStr s)]
  | None => []
  end.

Definition given_flag (key : string) (x : option bool) : dict :=
  match x with
  | Some b => [(key, VBool b)]
  | None => []
  end.

(** No entry of [d] holds [None]. *)
Definition none_free (d : dict) : Prop := forall k, dict_get d k <> Some VNone.

(** A mapping as the body of a request: an empty one is not transmitted. *)
Definition as_body (d : dict) : option dict :=
  match d with
  | [] => None
  | _ => Some d
  end.

(** One request with the headers of the client and no query parameters or
    no body. *)
Definition sends_body (self : api.ShotcutAPI) (method endpoint : string)
    (body : option dict) : request :=
  mk_request method (api.base_url self ++ "/" ++ endpoint) (api.headers self)
    body None.

Definition sends_params (self : api.ShotcutAPI) (endpoint : string)
    (params : dict) : request :=
  mk_request "GET" (api.base_url self ++ "/" ++ endpoint) (api.headers self)
    None (Some params).

(** The fields of a date-time are those of a moment of the calendar. *)
Definition valid (t : datetime) : Prop :=
  valid_datetime (year t) (month t) (day t) (hour t) (minute t) (second t).

(** The same as a test. *)
Definition valid_datetimeb (y m d H M S : Z) : bool :=
  (1 <=? y) && (y <=? 9999) && (1 <=? m) && (m <=? 12)
  && (1 <=? d) && (d <=? days_in_month y m)
  && (0 <=? H) && (H <=? 23) && (0 <=? M) && (M <=? 59)
  && (0 <=? S) && (S <=? 59).

(** A text of the shape [Y-m-d H:M:S] whose fields are in the ranges that
    the patterns of the directives admit. *)
Definition date_time_shape (Y m d H M S : string) : Prop :=
  numeral 4 4 Y /\ numeral 1 2 m /\ numeral 1 2 d
  /\ numeral 1 2 H /\ numeral 1 2 M /\ numeral 1 2 S
  /\ 1 <= number m <= 12 /\ 1 <= number d <= 31
  /\ number H <= 23 /\ number M <= 59 /\ number S <= 61.

(** [zfill] of the text of [n] is a numeral of the given width that
    denotes [n]. *)
Definition renders (width : nat) (n : Z) : bool :=
  let t := zfill width (str_int n) in
  forall_chars isdecimal t && (String.length t =? width)%nat && (number t =? n).

End Spec.

(* ===================================================================== *)
(** * Concrete inputs                                                     *)
(* ===================================================================== *)

Module Examples.
Import Py PyLib Dataclasses Store requests.

Definition client : api.ShotcutAPI := api.__init__ "key".

(** A server out of quota that names no reset time. *)
Definition out_of_quota : transport :=
  fun _ => Return (mk_response [("X-RateLimit-Remaining", "0")]
                     (Return (VDict [("error", VInt 0)]))).

(** A server out of quota whose reset header is not a number. *)
Definition malformed_reset : transport :=
  fun _ => Return (mk_response [("X-RateLimit-Remaining", "0");
                                ("X-RateLimit-Reset", "soon")]
                     (Return (VDict [("error", VInt 0)]))).



Definition link_data : dict :=
  [("id", VInt 5); ("created_at", VStr "2024-01-01 00:00:00");
   ("updated_at", VStr "yesterday"); ("url", VStr "https://x");
   ("shorturl", VStr "https://s/x")].

(** A store in which address 1 holds [link_data]. *)
Definition store1 : heap := {[ 1%nat := link_data ]}.

Definition page_kwargs (cp tp : Z) (hn : bool) : dict :=
  [("items", VList []); ("total", VInt 0); ("current_page", VInt cp);
   ("total_pages", VInt tp); ("has_next", VBool hn);
   ("has_prev", VBool false)].

(** A host that cannot be reached. *)
Definition unreachable : transport :=
  fun _ => Raise (Exc ConnectionError (VStr "connection refused")).

(** A server out of quota that answers with a page that is no JSON. *)
Definition out_of_quota_page : response :=
  mk_response [("X-RateLimit-Remaining", "0")]
    (Raise (Exc JSONDecodeError
              (VStr "Expecting value: line 1 column 1 (char 0)"))).

Definition not_json : transport := fun _ => Return out_of_quota_page.

(** A server that answers with a JSON array. *)
Definition array_response : response :=
  mk_response [("X-RateLimit-Remaining", "41")] (Return (VList [])).

Definition array_body : transport := fun _ => Return array_response.

(** A server that reports its error code as text. *)
Definition text_code_body : dict := [("error", VStr "1")].

Definition text_code_response : response :=
  mk_response [] (Return (VDict text_code_body)).

Definition text_code : transport := fun _ => Return text_code_response.

(** The data of a link whose creation time is a number. *)
Definition numeric_date_data : dict :=
  [("id", VInt 5); ("created_at", VInt 1704067200)].

Definition store3 : heap := {[ 1%nat := numeric_date_data ]}.

(** A store in which address 1 holds an empty mapping. *)
Definition store0 : heap := {[ 1%nat := [] ]}.

(** The link that [link_data] describes. *)
Definition link_record : instance :=
  mk_instance "Link"
    [("id", VInt 5);
     ("created_at", VDatetime (mk_datetime 2024 1 1 0 0 0));
     ("updated_at", VNone); ("url", VStr "https://x");
     ("shorturl", VStr "https://s/x"); ("title", VNone);
     ("description", VNone); ("location", VNone); ("custom", VNone);
     ("password", VNone); ("expiry", VNone); ("clicks", VInt 0);
     ("status", VBool true)].


(** The last second of a leap day. *)
Definition leap_day : datetime := mk_datetime 2024 2 29 23 59 59.






(** The data of a link whose creation time is a number and whose update
    time is text. *)
Definition mixed_dates_data : dict :=
  [("created_at", VInt 1704067200);
   ("updated_at", VStr "2024-01-01 00:00:00")].

Definition store4 : heap := {[ 1%nat := mixed_dates_data ]}.

End Examples.

(* ===================================================================== *)
(** * Properties                                                          *)
(* ===================================================================== *)

Import Py PyLib Dataclasses Store requests Re Strptime Spec Examples.
#[local] Arguments String.append : simpl nomatch.

(** ** Text *)

Lemma sapp_assoc (a b c : string) : (a ++ b) ++ c = a ++ (b ++ c).
Proof. induction a as [|x a IH]; simpl; [reflexivity|]. f_equal. exact IH. Qed.

Lemma sapp_nil_r (a : string) : a ++ "" = a.
Proof. induction a as [|x a IH]; simpl; [reflexivity|]. f_equal. exact IH. Qed.

Lemma slength_app (a b : string) :
  String.length (a ++ b) = (String.length a + String.length b)%nat.
Proof. induction a as [|x a IH]; simpl; [reflexivity|]. f_equal. exact IH. Qed.

Lemma sapp_inv_head (a b c : string) : a ++ b = a ++ c -> b = c.
Proof.
  induction a as [|x a IH]; simpl; intros H; [exact H|].
  injection H as H. apply IH. exact H.
Qed.

Lemma sapp_inv_tail (a b c : string) : a ++ c = b ++ c -> a = b.
Proof.
  revert b. induction a as [|x a IH]; intros [|y b] H; simpl in H.
  - reflexivity.
  - exfalso. apply (f_equal String.length) in H. simpl in H.
    rewrite slength_app in H. lia.
  - exfalso. apply (f_equal String.length) in H. simpl in H.
    rewrite slength_app in H. lia.
  - injection H as -> H. f_equal. apply IH. exact H.
Qed.

Lemma startswith_spec (s p : string) :
  startswith s p = true <-> exists t, s = p ++ t.
Proof.
  revert s. induction p as [|x p IH]; intros s; simpl.
  - split; [intros _; exists s; reflexivity|reflexivity].
  - destruct s as [|c s].
    + split; [discriminate|intros [t H]; discriminate].
    + rewrite andb_true_iff, IH. split.
      * intros [E [t ->]]. apply Ascii.eqb_eq in E. subst c. exists t. reflexivity.
      * intros [t H]. injection H as -> ->. split; [apply Ascii.eqb_refl|eauto].
Qed.

Lemma take_drop (n : nat) (s : string) : take n s ++ drop n s = s.
Proof.
  revert s. induction n as [|n IH]; intros [|c s]; simpl; try reflexivity.
  f_equal. apply IH.
Qed.

Lemma drop_app (a b : string) : drop (String.length a) (a ++ b) = b.
Proof. induction a as [|x a IH]; simpl; [destruct b; reflexivity|exact IH]. Qed.

Lemma take_app (a b : string) : take (String.length a) (a ++ b) = a.
Proof.
  induction a as [|x a IH]; simpl; [destruct b; reflexivity|]. f_equal. exact IH.
Qed.

Lemma endswith_spec (s suffix : string) :
  endswith s suffix = true <-> exists t, s = t ++ suffix.
Proof.
  unfold endswith. rewrite andb_true_iff, Nat.leb_le, String.eqb_eq. split.
  - intros [_ H]. exists (take (String.length s - String.length suffix) s).
    pose proof (take_drop (String.length s - String.length suffix) s) as T.
    rewrite H in T. symmetry. exact T.
  - intros [t ->]. rewrite slength_app. split; [lia|].
    replace (String.length t + String.length suffix - String.length suffix)%nat
      with (String.length t) by lia.
    apply drop_app.
Qed.

(** A text that starts with [rgb(] and ends with [)] has a middle. *)
Lemma rgb_shape (s : string) :
  startswith s "rgb(" = true -> endswith s ")" = true ->
  exists m, s = "rgb(" ++ m ++ ")".
Proof.
  intros Hs He. apply startswith_spec in Hs. destruct Hs as [t ->].
  apply endswith_spec in He. destruct He as [u Hu].
  destruct u as [|c1 [|c2 [|c3 [|c4 u]]]]; simpl in Hu; try discriminate.
  injection Hu as _ _ _ _ ->. exists u. reflexivity.
Qed.

Lemma slice_rgb (m : string) : slice ("rgb(" ++ m ++ ")") 4 (-1) = m.
Proof.
  unfold slice, slice_index, len. simpl String.length. rewrite slength_app.
  simpl String.length. cbn [Z.ltb Z.compare].
  replace (Z.to_nat (Z.min (Z.max 4 0)
             (Z.of_nat (S (S (S (S (String.length m + 1)))))))) with 4%nat by lia.
  replace (Z.to_nat (Z.min (Z.max (-1 + Z.of_nat (S (S (S (S (String.length m + 1)))))) 0)
             (Z.of_nat (S (S (S (S (String.length m + 1))))))) - 4)%nat
    with (String.length m) by lia.
  simpl drop. apply take_app.
Qed.

(** ** [split] *)

Lemma split_nonempty sep s : split sep s <> [].
Proof.
  destruct s as [|c s]; simpl; [discriminate|].
  destruct (Ascii.eqb c sep); [discriminate|].
  destruct (split sep s); discriminate.
Qed.

Lemma split_free sep t : free sep t = true -> split sep t = [t].
Proof.
  unfold free. induction t as [|c t IH]; simpl; [reflexivity|].
  rewrite andb_true_iff, negb_true_iff. intros [E H].
  rewrite E, (IH H). reflexivity.
Qed.

Lemma split_app sep a b :
  free sep a = true -> split sep (a ++ String sep b) = a :: split sep b.
Proof.
  unfold free. induction a as [|c a IH]; simpl.
  - intros _. rewrite Ascii.eqb_refl. reflexivity.
  - rewrite andb_true_iff, negb_true_iff. intros [E H].
    rewrite E, (IH H). reflexivity.
Qed.

Lemma split_concat sep s :
  String.concat (String sep "") (split sep s) = s
  /\ Forall (fun t => free sep t = true) (split sep s).
Proof.
  induction s as [|c s [IH1 IH2]]; simpl.
  - split; [reflexivity|repeat constructor].
  - destruct (Ascii.eqb c sep) eqn:E.
    + apply Ascii.eqb_eq in E. subst c. split.
      * destruct (split sep s) as [|h t] eqn:Es; [now apply split_nonempty in Es|].
        simpl in *. rewrite IH1. reflexivity.
      * constructor; [reflexivity|exact IH2].
    + destruct (split sep s) as [|h t] eqn:Es; [now apply split_nonempty in Es|].
      split.
      * simpl in *. destruct t; simpl in *; rewrite IH1; reflexivity.
      * inversion IH2; subst. constructor; [|assumption].
        unfold free. simpl. rewrite E. simpl. assumption.
Qed.

Lemma split_three sep s R G B :
  split sep s = [R; G; B]
  <-> s = R ++ String sep (G ++ String sep B)
      /\ free sep R = true /\ free sep G = true /\ free sep B = true.
Proof.
  split.
  - intros H. destruct (split_concat sep s) as [H1 H2]. rewrite H in H1, H2.
    simpl in H1. inversion H2 as [|? ? HR H3]; subst.
    inversion H3 as [|? ? HG H4]; subst. inversion H4 as [|? ? HB _]; subst.
    repeat split; assumption.
  - intros (-> & HR & HG & HB).
    rewrite (split_app sep R _ HR), (split_app sep G _ HG), (split_free sep B HB).
    reflexivity.
Qed.

(** ** [strip] *)

Lemma rstrip_by_sub (p q : ascii -> bool) s :
  (forall c, q c = true -> p c = true) ->
  rstrip_by q (rstrip_by p s) = rstrip_by p s.
Proof.
  intros Hsub. induction s as [|c s IH]; simpl; [reflexivity|].
  destruct (rstrip_by p s) as [|c' r] eqn:E.
  - destruct (p c) eqn:Ec; simpl; [reflexivity|].
    destruct (q c) eqn:Eq; [|reflexivity].
    apply Hsub in Eq. congruence.
  - simpl. simpl in IH. rewrite IH. reflexivity.
Qed.

Lemma lstrip_by_head p s :
  lstrip_by p s = "" \/ exists c r, lstrip_by p s = String c r /\ p c = false.
Proof.
  induction s as [|c s IH]; simpl; [left; reflexivity|].
  destruct (p c) eqn:E; [exact IH|]. right. eauto.
Qed.

Lemma rstrip_by_head p c r :
  p c = false -> exists r', rstrip_by p (String c r) = String c r'.
Proof.
  intros E. simpl. destruct (rstrip_by p r); [rewrite E|]; eauto.
Qed.

(** Stripping less after stripping more changes nothing. *)
Lemma strip_by_sub (p q : ascii -> bool) s :
  (forall c, q c = true -> p c = true) ->
  strip_by q (strip_by p s) = strip_by p s.
Proof.
  intros Hsub. unfold strip_by.
  destruct (lstrip_by_head p s) as [->|(c & r & -> & E)]; [reflexivity|].
  destruct (rstrip_by_head p c r E) as [r' Hr]. rewrite Hr.
  assert (q c = false) as Eq.
  { destruct (q c) eqn:Eq; [|reflexivity]. apply Hsub in Eq. congruence. }
  simpl lstrip_by. rewrite Eq. rewrite <- Hr. apply rstrip_by_sub. exact Hsub.
Qed.

(** ** Regular expressions *)


Lemma plus_matches_In p s f :
  In f (plus_matches p s)
  <-> s = matched f ++ rest f /\ matched f <> ""
      /\ forall_chars p (matched f) = true /\ groups f = [].
Proof.
  revert f. induction s as [|c s IH]; intros f; simpl.
  - split; [intros []|]. intros (H & Hne & _). destruct (matched f); [congruence|discriminate].
  - destruct (p c) eqn:Ep.
    + rewrite in_app_iff, in_map_iff. simpl. split.
      * intros [(f' & <- & Hin)|[<-|[]]]; simpl.
        -- apply IH in Hin. destruct Hin as (-> & Hne & Hp & Hg).
           rewrite Ep. repeat split; try assumption; discriminate.
        -- rewrite Ep. repeat split; discriminate.
      * intros (H & Hne & Hp & Hg). destruct f as [w r g]. simpl in *. subst g.
        destruct w as [|c' w]; [congruence|]. simpl in H, Hp.
        injection H as <- ->. apply andb_true_iff in Hp. destruct Hp as [_ Hp].
        destruct w as [|c'' w].
        -- right. left. reflexivity.
        -- left. exists (mk_found (String c'' w) r []). split; [reflexivity|].
           apply IH. simpl. repeat split; try assumption; discriminate.
    + split; [intros []|]. intros (H & Hne & Hp & _).
      destruct (matched f) as [|c' w]; [congruence|]. simpl in H, Hp.
      injection H as <- _. rewrite Ep in Hp. discriminate.
Qed.

Lemma matches_In r : forall s f,
  In f (matches r s)
  <-> s = matched f ++ rest f /\ den r (matched f) (groups f).
Proof.
  induction r as [|c|p|p|r1 IH1 r2 IH2|r1 IH1 r2 IH2|name r IH]; intros s f.
  - simpl. split.
    + intros [<-|[]]. simpl. auto.
    + intros (-> & Hw & Hg). left. destruct f as [w r g]. simpl in *. subst. reflexivity.
  - simpl. destruct s as [|c' s].
    + split; [intros []|]. intros (H & Hw & _). rewrite Hw in H. discriminate.
    + destruct (Ascii.eqb c' c) eqn:E.
      * apply Ascii.eqb_eq in E. subst c'. split.
        -- intros [<-|[]]. simpl. auto.
        -- intros (H & Hw & Hg). left. destruct f as [w r g]. simpl in *. subst.
           injection H as ->. reflexivity.
      * split; [intros []|]. intros (H & Hw & _). rewrite Hw in H.
        injection H as -> _. rewrite Ascii.eqb_refl in E. discriminate.
  - simpl. destruct s as [|c' s].
    + split; [intros []|]. intros (H & (c & Hw & _)). rewrite Hw in H. discriminate.
    + destruct (p c') eqn:E.
      * split.
        -- intros [<-|[]]. simpl. eauto.
        -- intros (H & (c & Hw & Hp & Hg)). left. destruct f as [w r g].
           simpl in *. subst. injection H as -> ->. reflexivity.
      * split; [intros []|]. intros (H & (c & Hw & Hp & _)). rewrite Hw in H.
        injection H as -> _. congruence.
  - simpl. apply plus_matches_In.
  - simpl. rewrite in_flat_map. split.
    + intros (f1 & Hin1 & Hin). apply in_map_iff in Hin.
      destruct Hin as (f2 & <- & Hin2). apply IH1 in Hin1. apply IH2 in Hin2.
      destruct Hin1 as (-> & H1), Hin2 as (E2 & H2). simpl. split.
      * rewrite E2. symmetry. apply sapp_assoc.
      * exists (matched f1), (matched f2), (groups f1), (groups f2). auto.
    + intros (-> & (w1 & w2 & g1 & g2 & Hw & Hg & H1 & H2)).
      exists (mk_found w1 (w2 ++ rest f) g1). split.
      * apply IH1. simpl. split; [rewrite Hw; apply sapp_assoc|exact H1].
      * apply in_map_iff. exists (mk_found w2 (rest f) g2). simpl. split.
        -- destruct f as [w r g]. simpl in *. subst. reflexivity.
        -- apply IH2. simpl. auto.
  - simpl. rewrite in_app_iff, IH1, IH2. tauto.
  - simpl. rewrite in_map_iff. split.
    + intros (f' & <- & Hin). apply IH in Hin. destruct Hin as (-> & H).
      simpl. split; [reflexivity|]. eauto.
    + intros (-> & (g1 & Hg & H)). exists (mk_found (matched f) (rest f) g1).
      split.
      * destruct f as [w r0 g]. simpl in *. subst. reflexivity.
      * apply IH. simpl. auto.
Qed.

(** ** Characters *)

Lemma ord_inj a b : ord a = ord b -> a = b.
Proof.
  unfold ord. intros H. apply N2Z.inj in H.
  rewrite <- (ascii_N_embedding a), <- (ascii_N_embedding b), H. reflexivity.
Qed.

Lemma eqb_ord a b : Ascii.eqb a b = (ord a =? ord b).
Proof.
  destruct (Ascii.eqb a b) eqn:E.
  - apply Ascii.eqb_eq in E. subst. symmetry. apply Z.eqb_refl.
  - symmetry. apply Z.eqb_neq. intros H. apply ord_inj in H. subst.
    rewrite Ascii.eqb_refl in E. discriminate.
Qed.

#[local] Arguments ord : simpl never.

Ltac ord_lits :=
  repeat match goal with
         | |- context [ord (Ascii ?a ?b ?c ?d ?e ?f ?g ?h)] =>
             let v := eval vm_compute in (ord (Ascii a b c d e f g h)) in
             change (ord (Ascii a b c d e f g h)) with v
         | H : context [ord (Ascii ?a ?b ?c ?d ?e ?f ?g ?h)] |- _ =>
             let v := eval vm_compute in (ord (Ascii a b c d e f g h)) in
             change (ord (Ascii a b c d e f g h)) with v in H
         end.

Ltac bools :=
  repeat match goal with
         | H : _ && _ = true |- _ => apply andb_true_iff in H; destruct H
         | H : _ || _ = false |- _ => apply orb_false_iff in H; destruct H
         | H : _ && _ = false |- _ => apply andb_false_iff in H; destruct H
         | H : _ || _ = true |- _ => apply orb_true_iff in H; destruct H
         | H : negb _ = true |- _ => apply negb_true_iff in H
         | H : negb _ = false |- _ => apply negb_false_iff in H
         | H : (_ <=? _) = true |- _ => apply Z.leb_le in H
         | H : (_ <=? _) = false |- _ => apply Z.leb_gt in H
         | H : (_ =? _) = true |- _ => apply Z.eqb_eq in H
         | H : (_ =? _) = false |- _ => apply Z.eqb_neq in H
         | H : true = false |- _ => discriminate H
         | H : false = true |- _ => discriminate H
         end.

(** Character tests as arithmetic on code points. *)
Ltac chars :=
  rewrite ?eqb_ord in *;
  unfold in_range, isdecimal, isspace, digit_value in *;
  ord_lits; bools;
  repeat match goal with
         | |- _ && _ = true => apply andb_true_iff; split
         | |- _ || _ = false => apply orb_false_iff; split
         | |- negb _ = true => apply negb_true_iff
         | |- (_ <=? _) = true => apply Z.leb_le
         | |- (_ <=? _) = false => apply Z.leb_gt
         | |- (_ =? _) = true => apply Z.eqb_eq
         | |- (_ =? _) = false => apply Z.eqb_neq
         end;
  try lia.

Lemma decimal_not_space c : isdecimal c = true -> isspace c = false.
Proof. intros H. chars. Qed.


(** ** Integer literals *)

Lemma digits_number t : forall acc b,
  forall_chars isdecimal t = true -> (t <> "" \/ b = true) ->
  digits acc b t = Some (number_from acc t).
Proof.
  induction t as [|c t IH]; intros acc b Hd Hne; simpl.
  - destruct Hne as [Hne| ->]; [congruence|reflexivity].
  - simpl in Hd. apply andb_true_iff in Hd. destruct Hd as [Hc Hd].
    rewrite Hc. apply IH; [exact Hd|right; reflexivity].
Qed.

Lemma int_space_isspace c : int_space c = true -> isspace c = true.
Proof.
  intros H. unfold int_space in H. unfold isspace.
  rewrite !orb_true_iff, !andb_true_iff in *. bools.
  destruct H as [[[[H1 H2]|H]|H]|H]; bools; [left; left; left|left; left; right|
    left; right|right]; chars.
Qed.

Lemma decimal_not_int_space c : isdecimal c = true -> int_space c = false.
Proof.
  intros H. destruct (int_space c) eqn:E; [|reflexivity].
  apply int_space_isspace in E. rewrite (decimal_not_space c H) in E. discriminate.
Qed.

Lemma count_digits_decimal t :
  forall_chars isdecimal t = true ->
  count_digits t = Z.of_nat (String.length t).
Proof.
  induction t as [|c t IH]; [reflexivity|]. cbn [forall_chars].
  intros H. apply andb_true_iff in H. destruct H as [Hc Hd].
  cbn [count_digits String.length]. rewrite Hc, (IH Hd). lia.
Qed.

(** [int] of text that [str.strip] returned reads the text as it is. *)
Lemma int_literal_strip s : int_literal (strip s) = capped_literal (strip s).
Proof.
  unfold int_literal, strip. rewrite (strip_by_sub isspace int_space s); [reflexivity|].
  exact int_space_isspace.
Qed.

Lemma lstrip_decimal c t :
  isdecimal c = true -> lstrip_by int_space (String c t) = String c t.
Proof. intros H. simpl. rewrite (decimal_not_int_space c H). reflexivity. Qed.

Lemma rstrip_decimal t :
  forall_chars isdecimal t = true -> rstrip_by int_space t = t.
Proof.
  induction t as [|c t IH]; simpl; [reflexivity|].
  intros H. apply andb_true_iff in H. destruct H as [Hc Hd].
  rewrite (IH Hd). destruct t; [|reflexivity].
  rewrite (decimal_not_int_space c Hc). reflexivity.
Qed.

Lemma bare_literal_numeral t :
  forall_chars isdecimal t = true -> t <> "" ->
  bare_literal t = Some (number t).
Proof.
  intros Hd Hne. destruct t as [|c t]; [congruence|].
  unfold bare_literal. pose proof Hd as Hd'. simpl in Hd'.
  apply andb_true_iff in Hd'. destruct Hd' as [Hc _].
  assert (Ascii.eqb c "-" = false) as -> by chars.
  assert (Ascii.eqb c "+" = false) as -> by chars.
  apply digits_number; [exact Hd|left; discriminate].
Qed.

Lemma capped_literal_numeral t :
  forall_chars isdecimal t = true -> t <> "" ->
  capped_literal t
  = if Z.of_nat (String.length t) <=? int_max_str_digits
    then Some (number t) else None.
Proof.
  intros Hd Hne. unfold capped_literal.
  rewrite (bare_literal_numeral t Hd Hne), (count_digits_decimal t Hd).
  reflexivity.
Qed.

Lemma int_literal_numeral t :
  forall_chars isdecimal t = true -> t <> "" ->
  Z.of_nat (String.length t) <= int_max_str_digits ->
  int_literal t = Some (number t).
Proof.
  intros Hd Hne Hlen. unfold int_literal, strip_by.
  destruct t as [|c t]; [congruence|]. pose proof Hd as Hd'. simpl in Hd'.
  apply andb_true_iff in Hd'. destruct Hd' as [Hc _].
  rewrite (lstrip_decimal c t Hc), (rstrip_decimal _ Hd).
  rewrite (capped_literal_numeral _ Hd Hne).
  apply Z.leb_le in Hlen. rewrite Hlen. reflexivity.
Qed.

Lemma int_literal_padded c :
  isdecimal c = true ->
  int_literal (String " " (String c "")) = Some (digit_value c).
Proof.
  intros Hc. unfold int_literal, strip_by.
  change (lstrip_by int_space (String " " (String c "")))
    with (lstrip_by int_space (String c "")).
  rewrite (lstrip_decimal c "" Hc). simpl rstrip_by.
  rewrite (decimal_not_int_space c Hc).
  rewrite capped_literal_numeral;
    [|simpl; rewrite Hc; reflexivity|discriminate].
  reflexivity.
Qed.

(** ** Integer literals, declaratively *)

Lemma digits_scan s : forall acc b,
  digits acc b s
  = match scan acc b s with Some (n, true) => Some n | _ => None end.
Proof.
  induction s as [|c s IH]; intros acc b; simpl.
  - destruct b; reflexivity.
  - destruct (isdecimal c); [apply IH|].
    destruct (Ascii.eqb c "_"); [|reflexivity].
    destruct b; [apply IH|reflexivity].
Qed.

Lemma scan_app s u : forall acc b,
  scan acc b (s ++ u)
  = match scan acc b s with Some (n, b') => scan n b' u | None => None end.
Proof.
  induction s as [|c s IH]; intros acc b; simpl; [reflexivity|].
  destruct (isdecimal c); [apply IH|].
  destruct (Ascii.eqb c "_"); [|reflexivity].
  destruct b; [apply IH|reflexivity].
Qed.

Lemma snoc_cases s : s = "" \/ exists t c, s = t ++ String c "".
Proof.
  induction s as [|c s IH]; [left; reflexivity|right].
  destruct IH as [->|(t & c' & ->)].
  - exists "", c. reflexivity.
  - exists (String c t), c'. reflexivity.
Qed.

Lemma string_rev_ind (P : string -> Prop) :
  P "" -> (forall t c, P t -> P (t ++ String c "")) -> forall s, P s.
Proof.
  intros H0 Hs s.
  assert (forall n s, String.length s = n -> P s) as H; [|exact (H _ s eq_refl)].
  clear s. induction n as [|n IH]; intros s Hl.
  - destruct s; [exact H0|discriminate].
  - destruct (snoc_cases s) as [->|(t & c & ->)]; [discriminate|].
    apply Hs, IH. rewrite slength_app in Hl. simpl in Hl. lia.
Qed.

Lemma run_scan t n : digit_run t n -> scan 0 false t = Some (n, true).
Proof.
  induction 1 as [c Hc|t n c _ IH Hc|t n c _ IH Hc].
  - simpl. rewrite Hc. reflexivity.
  - rewrite scan_app, IH. simpl. rewrite Hc. reflexivity.
  - rewrite scan_app, IH.
    assert (isdecimal "_" = false) as E by reflexivity.
    cbn [scan]. rewrite E. cbn [Ascii.eqb Bool.eqb]. rewrite Hc. reflexivity.
Qed.

Lemma scan_run : forall t n b,
  scan 0 false t = Some (n, b) ->
  (b = true -> digit_run t n)
  /\ (b = false ->
      (t = "" /\ n = 0) \/ exists t', t = t' ++ "_" /\ digit_run t' n).
Proof.
  intros t. induction t as [|t c IH] using string_rev_ind; intros n b H.
  - simpl in H. injection H as <- <-. split; [discriminate|auto].
  - rewrite scan_app in H.
    destruct (scan 0 false t) as [[n' b']|] eqn:E; [|discriminate].
    destruct (IH n' b' eq_refl) as [IHt IHf]. cbn [scan] in H.
    destruct (isdecimal c) eqn:Hc.
    + injection H as <- <-. split; [intros _|discriminate].
      destruct b'.
      * apply run_digit; auto.
      * destruct (IHf eq_refl) as [[-> ->]|(t' & -> & Hr)].
        -- replace (10 * 0 + digit_value c) with (digit_value c) by lia.
           apply run_one. exact Hc.
        -- rewrite sapp_assoc. apply run_sep; assumption.
    + destruct (Ascii.eqb c "_") eqn:Eu; [|discriminate].
      apply Ascii.eqb_eq in Eu. subst c.
      destruct b'; [|discriminate]. injection H as <- <-.
      split; [discriminate|intros _]. right. exists t. auto.
Qed.

Lemma digits_run t n : digits 0 false t = Some n <-> digit_run t n.
Proof.
  rewrite digits_scan. split.
  - destruct (scan 0 false t) as [[n' [|]]|] eqn:E; try discriminate.
    intros [= <-]. apply (scan_run t n' true E). reflexivity.
  - intros H. rewrite (run_scan t n H). reflexivity.
Qed.

Lemma run_head t n :
  digit_run t n -> exists c t', t = String c t' /\ isdecimal c = true.
Proof.
  induction 1 as [c Hc|t n c _ (c0 & t0 & -> & H0) Hc|t n c _ (c0 & t0 & -> & H0) Hc];
    simpl; eauto.
Qed.

Lemma ends_solid_snoc t c : ends_solid (t ++ String c "") = negb (isspace c).
Proof.
  induction t as [|c' t IH]; [reflexivity|].
  simpl. rewrite IH. destruct t; reflexivity.
Qed.

Lemma run_ends_solid t n : digit_run t n -> ends_solid t = true.
Proof.
  destruct 1 as [c Hc|t n c _ Hc|t n c _ Hc].
  - simpl. rewrite (decimal_not_space c Hc). reflexivity.
  - rewrite ends_solid_snoc, (decimal_not_space c Hc). reflexivity.
  - replace (t ++ String "_" (String c "")) with ((t ++ "_") ++ String c "")
      by apply sapp_assoc.
    rewrite ends_solid_snoc, (decimal_not_space c Hc). reflexivity.
Qed.

Lemma bare_literal_spec u n : bare_literal u = Some n <-> integer_literal u n.
Proof.
  unfold bare_literal, integer_literal. split.
  - destruct u as [|c body]; [discriminate|].
    destruct (Ascii.eqb c "-") eqn:Em.
    + apply Ascii.eqb_eq in Em. subst c.
      destruct (digits 0 false body) as [m|] eqn:E; [|discriminate].
      intros [= <-]. right. right. exists body, m.
      apply digits_run in E. auto.
    + destruct (Ascii.eqb c "+") eqn:Ep.
      * apply Ascii.eqb_eq in Ep. subst c. intros E. apply digits_run in E.
        right. left. eauto.
      * intros E. apply digits_run in E. left. exact E.
  - intros [H|[(u' & -> & H)|(u' & m & -> & H & ->)]].
    + destruct (run_head u n H) as (c & t' & -> & Hc).
      assert (Ascii.eqb c "-" = false) as -> by chars.
      assert (Ascii.eqb c "+" = false) as -> by chars.
      apply digits_run. exact H.
    + cbn [Ascii.eqb Bool.eqb]. apply digits_run. exact H.
    + cbn [Ascii.eqb Bool.eqb]. apply digits_run in H. rewrite H. reflexivity.
Qed.

Lemma literal_solid u n :
  integer_literal u n ->
  ends_solid u = true /\ exists c u', u = String c u' /\ isspace c = false.
Proof.
  intros [H|[(u' & -> & H)|(u' & m & -> & H & _)]].
  - split; [exact (run_ends_solid u n H)|].
    destruct (run_head u n H) as (c & t' & -> & Hc).
    exists c, t'. split; [reflexivity|exact (decimal_not_space c Hc)].
  - split; [|exists "+"%char, u'; split; reflexivity].
    destruct (run_head u' n H) as (c & t' & E & _).
    pose proof (run_ends_solid u' n H) as Hs. rewrite E in *. exact Hs.
  - split; [|exists "-"%char, u'; split; reflexivity].
    destruct (run_head u' m H) as (c & t' & E & _).
    pose proof (run_ends_solid u' m H) as Hs. rewrite E in *. exact Hs.
Qed.

Lemma lstrip_decompose t :
  exists pre, t = pre ++ lstrip t /\ forall_chars isspace pre = true.
Proof.
  unfold lstrip. induction t as [|c t (pre & E & Hp)]; [exists ""; auto|].
  simpl. destruct (isspace c) eqn:Ec.
  - exists (String c pre). simpl. rewrite Ec, Hp. split; [f_equal; exact E|reflexivity].
  - exists "". auto.
Qed.

Lemma rstrip_decompose t :
  exists post, t = rstrip t ++ post /\ forall_chars isspace post = true.
Proof.
  unfold rstrip. induction t as [|c t (post & E & Hp)]; [exists ""; auto|].
  simpl. destruct (rstrip_by isspace t) as [|c' r] eqn:Er.
  - simpl in E. subst post. destruct (isspace c) eqn:Ec.
    + exists (String c t). simpl. rewrite Ec, Hp. auto.
    + exists t. auto.
  - exists post. split; [|exact Hp]. simpl. f_equal. exact E.
Qed.

Lemma lstrip_spaces pre x :
  forall_chars isspace pre = true -> lstrip (pre ++ x) = lstrip x.
Proof.
  unfold lstrip. induction pre as [|c pre IH]; simpl; [reflexivity|].
  intros H. apply andb_true_iff in H. destruct H as [Hc H].
  rewrite Hc. apply IH. exact H.
Qed.

Lemma rstrip_spaces post :
  forall_chars isspace post = true -> rstrip post = "".
Proof.
  unfold rstrip. induction post as [|c post IH]; simpl; [reflexivity|].
  intros H. apply andb_true_iff in H. destruct H as [Hc H].
  rewrite (IH H), Hc. reflexivity.
Qed.

Lemma rstrip_solid u post :
  ends_solid u = true -> forall_chars isspace post = true ->
  rstrip (u ++ post) = u.
Proof.
  intros Hu Hp. pose proof (rstrip_spaces post Hp) as Hs. unfold rstrip in *.
  induction u as [|c u IH]; [discriminate|].
  simpl. destruct u as [|c' u].
  - simpl in *. rewrite Hs.
    apply negb_true_iff in Hu. rewrite Hu. reflexivity.
  - rewrite IH; [reflexivity|exact Hu].
Qed.

Lemma strip_unfold t : strip t = rstrip (lstrip t).
Proof. reflexivity. Qed.

Lemma capped_literal_spec u n :
  capped_literal u = Some n
  <-> integer_literal u n /\ count_digits u <= int_max_str_digits.
Proof.
  unfold capped_literal. rewrite <- bare_literal_spec.
  destruct (bare_literal u) as [m|].
  - destruct (count_digits u <=? int_max_str_digits) eqn:E.
    + apply Z.leb_le in E. tauto.
    + apply Z.leb_gt in E. split; [discriminate|]. intros [_ H]. lia.
  - split; [discriminate|]. intros [H _]. discriminate H.
Qed.

(** [int(t.strip())] reads exactly the integer texts. *)
Lemma int_strip_spec t n : int_literal (strip t) = Some n <-> integer_text t n.
Proof.
  rewrite int_literal_strip, capped_literal_spec, strip_unfold.
  unfold integer_text. split.
  - intros [H Hc]. destruct (lstrip_decompose t) as (pre & E1 & Hpre).
    destruct (rstrip_decompose (lstrip t)) as (post & E2 & Hpost).
    exists pre, (rstrip (lstrip t)), post. rewrite <- E2. auto.
  - intros (pre & u & post & -> & Hpre & Hpost & H & Hcap).
    destruct (literal_solid u n H) as (Hs & c & u' & E & Hc).
    rewrite (lstrip_spaces pre _ Hpre).
    assert (lstrip (u ++ post) = u ++ post) as ->.
    { rewrite E. unfold lstrip. simpl. rewrite Hc. reflexivity. }
    rewrite (rstrip_solid u post Hs Hpost). auto.
Qed.

(** ** The directives *)


Lemma den_matches r w g : den r w g <-> In (mk_found w "" g) (matches r w).
Proof.
  rewrite matches_In. simpl. rewrite sapp_nil_r. tauto.
Qed.

Lemma pattern_of_format :
  pattern false "%Y-%m-%d %H:%M:%S" = Some date_time_pattern.
Proof. reflexivity. Qed.

Ltac split_ifs :=
  repeat match goal with
         | |- context [if ?b then _ else _] => destruct b eqn:?
         | H : context [if ?b then _ else _] |- _ => destruct b eqn:?
         end.

Lemma numeral_1_2 w :
  numeral 1 2 w
  <-> (exists c, w = String c "" /\ isdecimal c = true)
      \/ (exists c1 c2, w = String c1 (String c2 "")
            /\ isdecimal c1 = true /\ isdecimal c2 = true).
Proof.
  unfold numeral. split.
  - intros (Hd & Hlo & Hhi). destruct w as [|c1 [|c2 [|c3 w]]]; simpl in *; try lia.
    + left. exists c1. split; [reflexivity|]. now apply andb_true_iff in Hd.
    + right. exists c1, c2. apply andb_true_iff in Hd. destruct Hd as [H1 Hd].
      apply andb_true_iff in Hd. tauto.
  - intros [(c & -> & Hc)|(c1 & c2 & -> & H1 & H2)]; simpl.
    + rewrite Hc. repeat split; lia.
    + rewrite H1, H2. repeat split; lia.
Qed.

Ltac crunch :=
  repeat (simpl;
          match goal with
          | |- context [if ?b then _ else _] => destruct b eqn:?
          end);
  simpl.

Ltac found_cases H :=
  simpl in H;
  repeat match goal with
         | H : _ \/ _ |- _ => destruct H as [H|H]
         | H : False |- _ => destruct H
         | H : mk_found _ _ _ = mk_found _ _ _ |- _ =>
             first [discriminate H | injection H; clear H; intros; subst]
         end.

Ltac arith := unfold number in *; cbn [number_from] in *; chars; try (repeat split; lia).

Ltac pick_found :=
  simpl;
  first [ left; reflexivity
        | right; left; reflexivity
        | right; right; left; reflexivity
        | exfalso; arith ].

Ltac shape_1_2 :=
  first [ left; eexists; split; [reflexivity|]; solve [arith]
        | right; do 2 eexists; split; [reflexivity|]; solve [arith] ].

Lemma dir_m w g :
  den re_m w g <-> g = [("m", w)] /\ numeral 1 2 w /\ 1 <= number w <= 12.
Proof.
  rewrite den_matches, numeral_1_2. unfold re_m, rng.
  destruct w as [|c1 [|c2 [|c3 w]]]; crunch;
    (split;
     [ intros H; found_cases H; subst;
       first [ split; [reflexivity|]; split; [shape_1_2|solve [arith]]
             | exfalso; solve [arith] ]
     | intros (-> & [(c & E & Hc)|(c1' & c2' & E & Hc1 & Hc2)] & Hn);
       try discriminate E; injection E; clear E; intros; subst; pick_found ]).
Qed.

Lemma dir_H w g :
  den re_H w g <-> g = [("H", w)] /\ numeral 1 2 w /\ number w <= 23.
Proof.
  rewrite den_matches, numeral_1_2. unfold re_H, rng, d_.
  destruct w as [|c1 [|c2 [|c3 w]]]; crunch;
    (split;
     [ intros H; found_cases H; subst;
       first [ split; [reflexivity|]; split; [shape_1_2|solve [arith]]
             | exfalso; solve [arith] ]
     | intros (-> & [(c & E & Hc)|(c1' & c2' & E & Hc1 & Hc2)] & Hn);
       try discriminate E; injection E; clear E; intros; subst; pick_found ]).
Qed.

Lemma dir_M w g :
  den re_M w g <-> g = [("M", w)] /\ numeral 1 2 w /\ number w <= 59.
Proof.
  rewrite den_matches, numeral_1_2. unfold re_M, rng, d_.
  destruct w as [|c1 [|c2 [|c3 w]]]; crunch;
    (split;
     [ intros H; found_cases H; subst;
       first [ split; [reflexivity|]; split; [shape_1_2|solve [arith]]
             | exfalso; solve [arith] ]
     | intros (-> & [(c & E & Hc)|(c1' & c2' & E & Hc1 & Hc2)] & Hn);
       try discriminate E; injection E; clear E; intros; subst; pick_found ]).
Qed.

Lemma dir_S w g :
  den re_S w g <-> g = [("S", w)] /\ numeral 1 2 w /\ number w <= 61.
Proof.
  rewrite den_matches, numeral_1_2. unfold re_S, rng, d_.
  destruct w as [|c1 [|c2 [|c3 w]]]; crunch;
    (split;
     [ intros H; found_cases H; subst;
       first [ split; [reflexivity|]; split; [shape_1_2|solve [arith]]
             | exfalso; solve [arith] ]
     | intros (-> & [(c & E & Hc)|(c1' & c2' & E & Hc1 & Hc2)] & Hn);
       try discriminate E; injection E; clear E; intros; subst; pick_found ]).
Qed.

Lemma numeral_4 w :
  numeral 4 4 w
  <-> exists c1 c2 c3 c4,
        w = String c1 (String c2 (String c3 (String c4 "")))
        /\ isdecimal c1 = true /\ isdecimal c2 = true
        /\ isdecimal c3 = true /\ isdecimal c4 = true.
Proof.
  unfold numeral. split.
  - intros (Hd & Hlo & Hhi).
    destruct w as [|c1 [|c2 [|c3 [|c4 [|c5 w]]]]]; simpl in *; try lia.
    exists c1, c2, c3, c4. split; [reflexivity|].
    repeat (apply andb_true_iff in Hd; destruct Hd as [? Hd]). tauto.
  - intros (c1 & c2 & c3 & c4 & -> & H1 & H2 & H3 & H4). simpl.
    rewrite H1, H2, H3, H4. repeat split; lia.
Qed.

Lemma dir_Y w g : den re_Y w g <-> g = [("Y", w)] /\ numeral 4 4 w.
Proof.
  rewrite den_matches, numeral_4. unfold re_Y, d_.
  destruct w as [|c1 [|c2 [|c3 [|c4 [|c5 w]]]]]; crunch;
    (split;
     [ intros H; found_cases H; subst;
       first [ split; [reflexivity|]; do 4 eexists; split; [reflexivity|]; tauto
             | exfalso; solve [arith] ]
     | intros (-> & (a1 & a2 & a3 & a4 & E & H1 & H2 & H3 & H4));
       try discriminate E; injection E; clear E; intros; subst;
       first [ left; reflexivity | exfalso; congruence ] ]).
Qed.

(** The day of the month by shape. *)
Lemma day_shape w :
  (exists n, day_text w n /\ 1 <= n <= 31)
  <-> (exists c, w = String c "" /\ isdecimal c = true /\ 1 <= digit_value c)
      \/ (exists c1 c2, w = String c1 (String c2 "")
            /\ isdecimal c1 = true /\ isdecimal c2 = true
            /\ 1 <= 10 * digit_value c1 + digit_value c2 <= 31)
      \/ (exists c, w = String " " (String c "") /\ isdecimal c = true
            /\ 1 <= digit_value c).
Proof.
  unfold day_text. split.
  - intros (n & [(Hn & ->)|(c & -> & Hc & ->)] & Hr).
    + apply numeral_1_2 in Hn.
      destruct Hn as [(c & -> & Hc)|(c1 & c2 & -> & H1 & H2)].
      * left. exists c. unfold number in Hr. cbn [number_from] in Hr.
        repeat split; try assumption; lia.
      * right. left. exists c1, c2. unfold number in Hr. cbn [number_from] in Hr.
        repeat split; try assumption; lia.
    + right. right. exists c. repeat split; try assumption; lia.
  - intros [(c & -> & Hc & Hr)|[(c1 & c2 & -> & H1 & H2 & Hr)|(c & -> & Hc & Hr)]].
    + exists (digit_value c). split.
      * left. split; [apply numeral_1_2; left; eauto|]. reflexivity.
      * arith.
    + exists (10 * digit_value c1 + digit_value c2). split.
      * left. split; [apply numeral_1_2; right; eauto|].
        unfold number. cbn [number_from]. lia.
      * lia.
    + exists (digit_value c). split; [right; eauto|]. arith.
Qed.

Lemma dir_d w g :
  den re_d w g <-> g = [("d", w)] /\ exists n, day_text w n /\ 1 <= n <= 31.
Proof.
  rewrite den_matches, day_shape. unfold re_d, rng, d_.
  destruct w as [|c1 [|c2 [|c3 w]]]; crunch;
    (split;
     [ intros H; found_cases H; subst;
       first [ split; [reflexivity|];
               first [ left; eexists; split; [reflexivity|]; solve [arith]
                     | right; left; do 2 eexists; split; [reflexivity|]; solve [arith]
                     | right; right; eexists; split;
                       [f_equal; apply ord_inj; arith|]; solve [arith] ]
             | exfalso; solve [arith] ]
     | intros (-> & [(c & E & Hc & Hr)|[(c1' & c2' & E & Hc1 & Hc2 & Hr)
                                      |(c & E & Hc & Hr)]]);
       try discriminate E; injection E; clear E; intros; subst; pick_found ]).
Qed.

(** ** The first match *)

Lemma re_match_In r s f : re_match r s = Some f -> In f (matches r s).
Proof.
  unfold re_match. destruct (matches r s) as [|f' l]; [discriminate|].
  intros [= ->]. left. reflexivity.
Qed.

(** The first match of a concatenation, when only one match of the first
    part can be continued. *)
Lemma re_match_cat r1 r2 s f1 f2 :
  In f1 (matches r1 s) ->
  (forall f, In f (matches r1 s) -> matches r2 (rest f) <> [] -> f = f1) ->
  re_match r2 (rest f1) = Some f2 ->
  re_match (Cat r1 r2) s
  = Some (mk_found (matched f1 ++ matched f2) (rest f2)
            (groups f1 ++ groups f2)).
Proof.
  unfold re_match. cbn [matches]. intros Hin Huniq H2.
  induction (matches r1 s) as [|x l IH]; [destruct Hin|].
  cbn [flat_map]. destruct (matches r2 (rest x)) as [|y l2] eqn:E.
  - simpl. apply IH.
    + destruct Hin as [->|Hin]; [|exact Hin]. rewrite E in H2. discriminate.
    + intros f Hf. apply Huniq. right. exact Hf.
  - assert (x = f1) as ->.
    { apply Huniq; [left; reflexivity|]. rewrite E. discriminate. }
    rewrite E in H2. injection H2 as ->. reflexivity.
Qed.

Lemma re_match_chr c r s f :
  re_match r s = Some f ->
  re_match (Cat (Chr c) r) (String c s)
  = Some (mk_found (String c (matched f)) (rest f) (groups f)).
Proof.
  unfold re_match. cbn [matches]. rewrite Ascii.eqb_refl. cbn [flat_map rest].
  destruct (matches r s) as [|f' l]; [discriminate|].
  intros [= ->]. reflexivity.
Qed.

(** Two runs of a class that end before characters outside it. *)
Lemma span_unique (p : ascii -> bool) a b c x c' y :
  forall_chars p a = true -> forall_chars p b = true ->
  p c = false -> p c' = false ->
  a ++ String c x = b ++ String c' y -> a = b /\ x = y.
Proof.
  revert b. induction a as [|u a IH]; intros [|v b] Ha Hb Hc Hc' E; simpl in *.
  - injection E as _ ->. auto.
  - injection E as -> _. apply andb_true_iff in Hb. destruct Hb. congruence.
  - injection E as -> _. apply andb_true_iff in Ha. destruct Ha. congruence.
  - injection E as -> E. apply andb_true_iff in Ha, Hb.
    destruct Ha as [_ Ha], Hb as [_ Hb].
    destruct (IH b Ha Hb Hc Hc' E) as [-> ->]. auto.
Qed.

(** A field of characters of a class [p], followed by a tail that starts
    outside [p]. *)
Lemma re_match_field r rtail (p : ascii -> bool)
    (G : string -> list (string * string)) w c y f2 :
  (forall w' g, den r w' g -> g = G w' /\ forall_chars p w' = true) ->
  den r w (G w) ->
  p c = false ->
  (forall t f, In f (matches rtail t) ->
     exists c' y', t = String c' y' /\ p c' = false) ->
  re_match rtail (String c y) = Some f2 ->
  re_match (Cat r rtail) (w ++ String c y)
  = Some (mk_found (w ++ matched f2) (rest f2) (G w ++ groups f2)).
Proof.
  intros Hr Hw Hc Htail H2.
  apply (re_match_cat r rtail (w ++ String c y) (mk_found w (String c y) (G w)) f2).
  - apply matches_In. simpl. auto.
  - intros f Hf Hv. apply matches_In in Hf. destruct Hf as [E Hd].
    apply Hr in Hd. destruct Hd as [Hg Hp].
    destruct (matches rtail (rest f)) as [|f' l] eqn:Em; [congruence|].
    destruct (Htail (rest f) f') as (c' & y' & Er & Hc'); [rewrite Em; left; reflexivity|].
    rewrite Er in E. symmetry in E.
    destruct (Hr w (G w) Hw) as [_ Hpw].
    destruct (span_unique p _ _ _ _ _ _ Hp Hpw Hc' Hc E) as [E1 E2].
    rewrite E1 in E. apply sapp_inv_head in E.
    destruct f as [fw fr fg]. simpl in *. subst. rewrite E. reflexivity.
  - exact H2.
Qed.

Lemma chr_tail_first c r t f :
  In f (matches (Cat (Chr c) r) t) -> exists y, t = String c y.
Proof.
  cbn [matches]. destruct t as [|c' t]; [simpl; intros []|].
  destruct (Ascii.eqb c' c) eqn:E; [|simpl; intros []].
  apply Ascii.eqb_eq in E. subst. eauto.
Qed.

Lemma plus_tail_first p r t f :
  In f (matches (Cat (ClsPlus p) r) t) ->
  exists c y, t = String c y /\ p c = true.
Proof.
  destruct t as [|c t]; [simpl; intros []|].
  simpl. destruct (p c) eqn:E; [eauto|simpl; intros []].
Qed.

Lemma numeral_head lo hi w :
  numeral (S lo) hi w -> exists c w', w = String c w' /\ isdecimal c = true.
Proof.
  intros (Hd & Hlo & _). destruct w as [|c w]; simpl in *; [lia|].
  apply andb_true_iff in Hd. destruct Hd. eauto.
Qed.

Lemma H_tail_first r t f :
  In f (matches (Cat re_H r) t) ->
  exists c y, t = String c y /\ isdecimal c = true.
Proof.
  intros Hin. apply matches_In in Hin. destruct Hin as [E Hd].
  destruct Hd as (w1 & w2 & g1 & g2 & Ew & _ & H1 & _).
  apply dir_H in H1. destruct H1 as (_ & Hn & _).
  destruct (numeral_head _ _ _ Hn) as (c & w' & -> & Hc).
  rewrite Ew in E. simpl in E. eauto.
Qed.

(** ** The tails of the pattern, last to first *)

Lemma numeral_decimal lo hi w : numeral lo hi w -> forall_chars isdecimal w = true.
Proof. intros [H _]. exact H. Qed.

Lemma match_tail_S S :
  numeral 1 2 S -> number S <= 61 ->
  re_match tail_S S = Some (mk_found S "" [("S", S)]).
Proof.
  intros Hn Hr. apply numeral_1_2 in Hn.
  destruct Hn as [(c & -> & Hc)|(c1 & c2 & -> & H1 & H2)];
    unfold tail_S, re_S, rng, d_, re_match; crunch;
    first [reflexivity | exfalso; solve [arith]].
Qed.

Lemma decimal_field r name (bound : string -> Prop) :
  (forall w g, den r w g <-> g = [(name, w)] /\ numeral 1 2 w /\ bound w) ->
  forall w' g, den r w' g ->
    g = (fun w => [(name, w)]) w' /\ forall_chars isdecimal w' = true.
Proof.
  intros Hdir w' g Hd. apply Hdir in Hd. destruct Hd as (-> & Hn & _).
  split; [reflexivity|]. exact (numeral_decimal _ _ _ Hn).
Qed.

Lemma colon_tail r t f :
  In f (matches (Cat (Chr ":") r) t) ->
  exists c' y', t = String c' y' /\ isdecimal c' = false.
Proof.
  intros H. apply chr_tail_first in H. destruct H as [y ->].
  exists ":"%char, y. split; reflexivity.
Qed.

Lemma dash_tail r t f :
  In f (matches (Cat (Chr "-") r) t) ->
  exists c' y', t = String c' y' /\ isdecimal c' = false.
Proof.
  intros H. apply chr_tail_first in H. destruct H as [y ->].
  exists "-"%char, y. split; reflexivity.
Qed.

Lemma match_tail_M M S :
  numeral 1 2 M -> number M <= 59 -> numeral 1 2 S -> number S <= 61 ->
  re_match tail_M (M ++ String ":" S)
  = Some (mk_found (M ++ String ":" S) "" [("M", M); ("S", S)]).
Proof.
  intros HM HMr HS HSr.
  pose proof (re_match_chr ":" tail_S S _ (match_tail_S S HS HSr)) as Hc.
  fold tail_cS in Hc. cbn [matched rest groups] in Hc.
  unfold tail_M.
  rewrite (re_match_field re_M tail_cS isdecimal (fun w => [("M", w)]) M ":" S _
             (decimal_field re_M "M" _ dir_M)
             (proj2 (dir_M M _) (conj eq_refl (conj HM HMr)))
             eq_refl (colon_tail tail_S) Hc).
  reflexivity.
Qed.

Lemma match_tail_H H M S :
  numeral 1 2 H -> number H <= 23 ->
  numeral 1 2 M -> number M <= 59 -> numeral 1 2 S -> number S <= 61 ->
  re_match tail_H (H ++ String ":" (M ++ String ":" S))
  = Some (mk_found (H ++ String ":" (M ++ String ":" S)) ""
            [("H", H); ("M", M); ("S", S)]).
Proof.
  intros HH HHr HM HMr HS HSr.
  pose proof (re_match_chr ":" tail_M _ _ (match_tail_M M S HM HMr HS HSr)) as Hc.
  fold tail_cM in Hc. cbn [matched rest groups] in Hc.
  unfold tail_H.
  rewrite (re_match_field re_H tail_cM isdecimal (fun w => [("H", w)]) H ":" _ _
             (decimal_field re_H "H" _ dir_H)
             (proj2 (dir_H H _) (conj eq_refl (conj HH HHr)))
             eq_refl (colon_tail tail_M) Hc).
  reflexivity.
Qed.

Lemma H_tail_not_space t f :
  In f (matches tail_H t) ->
  exists c' y', t = String c' y' /\ isspace c' = false.
Proof.
  intros Hin. apply H_tail_first in Hin. destruct Hin as (c & y & -> & Hc).
  exists c, y. split; [reflexivity|]. apply decimal_not_space. exact Hc.
Qed.

Lemma match_tail_ws ws H M S :
  ws <> "" -> forall_chars isspace ws = true ->
  numeral 1 2 H -> number H <= 23 ->
  numeral 1 2 M -> number M <= 59 -> numeral 1 2 S -> number S <= 61 ->
  re_match tail_ws (ws ++ H ++ String ":" (M ++ String ":" S))
  = Some (mk_found (ws ++ H ++ String ":" (M ++ String ":" S)) ""
            [("H", H); ("M", M); ("S", S)]).
Proof.
  intros Hne Hws HH HHr HM HMr HS HSr.
  pose proof (match_tail_H H M S HH HHr HM HMr HS HSr) as Ht.
  destruct (numeral_head _ _ _ HH) as (c & H' & -> & Hc).
  cbn [String.append] in Ht |- *.
  unfold tail_ws.
  rewrite (re_match_field (ClsPlus isspace) tail_H isspace (fun _ => []) ws c _ _
             (fun w' g (Hd : den (ClsPlus isspace) w' g) =>
                conj (proj2 (proj2 Hd)) (proj1 (proj2 Hd)))
             (conj Hne (conj Hws eq_refl))
             (decimal_not_space c Hc) H_tail_not_space Ht).
  reflexivity.
Qed.

(** Two readings of the day before whitespace coincide. *)
Lemma day_unique a b c x c' y n n' :
  day_text a n -> 1 <= n <= 31 -> day_text b n' -> 1 <= n' <= 31 ->
  isspace c = true -> isspace c' = true ->
  a ++ String c x = b ++ String c' y -> a = b.
Proof.
  intros Ha Hn Hb Hn' Hc Hc' E.
  assert (Sa : exists k, day_text a k /\ 1 <= k <= 31) by eauto.
  assert (Sb : exists k, day_text b k /\ 1 <= k <= 31) by eauto.
  apply day_shape in Sa, Sb.
  destruct Sa as [(a1 & -> & ? & ?)|[(a1 & a2 & -> & ? & ? & ?)|(a1 & -> & ? & ?)]];
  destruct Sb as [(b1 & -> & ? & ?)|[(b1 & b2 & -> & ? & ? & ?)|(b1 & -> & ? & ?)]];
    simpl in E; injection E; clear E; intros; subst;
    first [reflexivity | exfalso; solve [arith]].
Qed.

Lemma ws_tail_space t f :
  In f (matches tail_ws t) -> exists c y, t = String c y /\ isspace c = true.
Proof. apply plus_tail_first. Qed.

Lemma match_tail_d d day ws H M S :
  day_text d day -> 1 <= day <= 31 ->
  ws <> "" -> forall_chars isspace ws = true ->
  numeral 1 2 H -> number H <= 23 ->
  numeral 1 2 M -> number M <= 59 -> numeral 1 2 S -> number S <= 61 ->
  re_match tail_d (d ++ ws ++ H ++ String ":" (M ++ String ":" S))
  = Some (mk_found (d ++ ws ++ H ++ String ":" (M ++ String ":" S)) ""
            [("d", d); ("H", H); ("M", M); ("S", S)]).
Proof.
  intros Hd Hdr Hne Hws HH HHr HM HMr HS HSr.
  pose proof (match_tail_ws ws H M S Hne Hws HH HHr HM HMr HS HSr) as Ht.
  set (tl := ws ++ H ++ String ":" (M ++ String ":" S)) in *.
  assert (Hden : den re_d d [("d", d)]) by (apply dir_d; eauto).
  unfold tail_d.
  rewrite (re_match_cat re_d tail_ws (d ++ tl) (mk_found d tl [("d", d)])
             (mk_found tl "" [("H", H); ("M", M); ("S", S)])).
  - reflexivity.
  - apply matches_In. simpl. auto.
  - intros f Hf Hv. apply matches_In in Hf. destruct Hf as [E Hf].
    apply dir_d in Hf. destruct Hf as (Hg & k & Hk & Hkr).
    destruct (matches tail_ws (rest f)) as [|f' l] eqn:Em; [congruence|].
    destruct (ws_tail_space (rest f) f') as (c' & y' & Er & Hc');
      [rewrite Em; left; reflexivity|].
    destruct (ws_tail_space tl _ (re_match_In _ _ _ Ht)) as (c & y & Et & Hc).
    rewrite Er, Et in E.
    pose proof (day_unique _ _ _ _ _ _ _ _ Hd Hdr Hk Hkr Hc Hc' E) as Ed.
    rewrite <- Ed in E. apply sapp_inv_head in E.
    destruct f as [fw fr fg]. cbn [matched rest groups] in *.
    rewrite Hg, <- Ed, Er, Et, E. reflexivity.
  - exact Ht.
Qed.

Lemma match_pattern Y m d day ws H M S :
  numeral 4 4 Y -> numeral 1 2 m -> 1 <= number m <= 12 ->
  day_text d day -> 1 <= day <= 31 ->
  ws <> "" -> forall_chars isspace ws = true ->
  numeral 1 2 H -> number H <= 23 ->
  numeral 1 2 M -> number M <= 59 -> numeral 1 2 S -> number S <= 61 ->
  re_match date_time_pattern
    (Y ++ String "-" (m ++ String "-"
       (d ++ ws ++ H ++ String ":" (M ++ String ":" S))))
  = Some (mk_found
            (Y ++ String "-" (m ++ String "-"
               (d ++ ws ++ H ++ String ":" (M ++ String ":" S))))
            ""
            [("Y", Y); ("m", m); ("d", d); ("H", H); ("M", M); ("S", S)]).
Proof.
  intros HY Hm Hmr Hd Hdr Hne Hws HH HHr HM HMr HS HSr.
  pose proof (match_tail_d d day ws H M S Hd Hdr Hne Hws HH HHr HM HMr HS HSr) as Ht.
  apply (re_match_chr "-" tail_d) in Ht. fold tail_cd in Ht.
  cbn [matched rest groups] in Ht.
  apply (re_match_field re_m tail_cd isdecimal (fun w => [("m", w)]) m "-" _ _
           (decimal_field re_m "m" _ dir_m)
           (proj2 (dir_m m _) (conj eq_refl (conj Hm Hmr)))
           eq_refl (dash_tail tail_d)) in Ht.
  fold tail_m in Ht. cbn [matched rest groups] in Ht.
  apply (re_match_chr "-" tail_m) in Ht. fold tail_cm in Ht.
  cbn [matched rest groups] in Ht.
  apply (re_match_field re_Y tail_cm isdecimal (fun w => [("Y", w)]) Y "-" _ _
           (fun w' g (Hd : den re_Y w' g) =>
              conj (proj1 (proj1 (dir_Y w' g) Hd))
                   (numeral_decimal _ _ _ (proj2 (proj1 (dir_Y w' g) Hd))))
           (proj2 (dir_Y Y _) (conj eq_refl HY))
           eq_refl (dash_tail tail_m)) in Ht.
  exact Ht.
Qed.

Section Outcomes.
Variable rt : runtime.

Lemma int_str_outcome s :
  (exists n, int rt (VStr s) = Return n)
  \/ (exists a, int rt (VStr s) = Raise (Exc ValueError a)).
Proof.
  simpl. destruct (int_literal s); [left|right]; eexists; reflexivity.
Qed.

Lemma field_outcome g name default :
  (exists n, Strptime.field rt g name default = Return n)
  \/ (exists a, Strptime.field rt g name default = Raise (Exc ValueError a)).
Proof.
  unfold Strptime.field. destruct (Re.group g name).
  - apply int_str_outcome.
  - left. eexists. reflexivity.
Qed.

Lemma datetime_new_outcome y m d H M S :
  (exists t, datetime_new y m d H M S = Return t)
  \/ (exists a, datetime_new y m d H M S = Raise (Exc ValueError a)).
Proof.
  unfold datetime_new, value_error.
  repeat match goal with
         | |- context [if ?b then _ else _] => destruct b
         end; eauto.
Qed.

Lemma strptime_str_outcome s format :
  (exists t, Strptime.strptime rt (VStr s) format = Return t)
  \/ (exists a, Strptime.strptime rt (VStr s) format = Raise (Exc ValueError a)).
Proof.
  unfold Strptime.strptime, value_error.
  destruct (Strptime.pattern false format) as [r|]; [|eauto].
  destruct (Re.re_match r s) as [f|]; [|eauto].
  destruct (negb _); [eauto|].
  repeat match goal with
         | |- context [Strptime.field rt ?g ?n ?d] =>
             destruct (field_outcome g n d) as [[? ->]|[? ->]]; simpl; [|eauto]
         end.
  apply datetime_new_outcome.
Qed.

End Outcomes.

(** ** [strptime] and the date validator *)

Lemma datetime_new_valid y m d H M S :
  (exists t, datetime_new y m d H M S = Return t) <-> valid_datetime y m d H M S.
Proof.
  unfold datetime_new, valid_datetime, value_error.
  repeat match goal with
         | |- context [negb (?a && ?b)] => destruct (a && b) eqn:?; cbn [negb]
         end;
    bools; split; try (intros [t Ht]; discriminate Ht); try lia;
    try (intros _; eauto).
  all: try (intros _; repeat split; lia).
Qed.

Lemma days_in_month_le y m : days_in_month y m <= 31.
Proof.
  unfold days_in_month.
  repeat match goal with
         | |- context [if ?b then _ else _] => destruct b
         end; lia.
Qed.

Lemma numeral_nonempty hi w : numeral 1 hi w -> w <> "".
Proof. intros (_ & Hlo & _) ->. simpl in Hlo. lia. Qed.

Lemma int_literal_field hi w :
  numeral 1 hi w -> (hi <= 4)%nat -> int_literal w = Some (number w).
Proof.
  intros Hn Hhi. apply int_literal_numeral.
  - exact (numeral_decimal _ _ _ Hn).
  - exact (numeral_nonempty _ _ Hn).
  - destruct Hn as (_ & _ & Hlen). unfold int_max_str_digits. lia.
Qed.

Lemma int_literal_day d n : day_text d n -> int_literal d = Some n.
Proof.
  intros [[Hn ->]|(c & -> & Hc & ->)].
  - exact (int_literal_field 2 _ Hn ltac:(lia)).
  - exact (int_literal_padded c Hc).
Qed.

Lemma numeral_weaken lo hi lo' hi' w :
  numeral lo hi w -> (lo' <= lo)%nat -> (hi <= hi')%nat -> numeral lo' hi' w.
Proof. unfold numeral. intros (? & ? & ?) ? ?. repeat split; [assumption|lia|lia]. Qed.

Section DateParsing.
Variable rt : runtime.

(** The fields of a match of the client's format, converted and checked. *)
Lemma convert_fields Y m d day H M S g :
  numeral 4 4 Y -> numeral 1 2 m -> day_text d day ->
  numeral 1 2 H -> numeral 1 2 M -> numeral 1 2 S ->
  g = [("Y", Y); ("m", m); ("d", d); ("H", H); ("M", M); ("S", S)] ->
  (let* y := field rt g "Y" 1900 in
   let* m := field rt g "m" 1 in
   let* d := field rt g "d" 1 in
   let* H := field rt g "H" 0 in
   let* M := field rt g "M" 0 in
   let* S := field rt g "S" 0 in
   datetime_new y m d H M S)
  = datetime_new (number Y) (number m) day (number H) (number M) (number S).
Proof.
  intros HY Hm Hd HH HM HS ->. unfold field. cbn [group String.eqb Ascii.eqb Bool.eqb].
  unfold int.
  rewrite (int_literal_field 4 _
             (numeral_weaken _ _ 1 4 _ HY ltac:(lia) ltac:(lia)) ltac:(lia)).
  cbn [bind].
  rewrite (int_literal_field 2 _ Hm ltac:(lia)). cbn [bind].
  rewrite (int_literal_day _ _ Hd). cbn [bind].
  rewrite (int_literal_field 2 _ HH ltac:(lia)). cbn [bind].
  rewrite (int_literal_field 2 _ HM ltac:(lia)). cbn [bind].
  rewrite (int_literal_field 2 _ HS ltac:(lia)). cbn [bind].
  reflexivity.
Qed.


Lemma strptime_sound s t :
  strptime rt (VStr s) "%Y-%m-%d %H:%M:%S" = Return t -> lenient_format s.
Proof.
  unfold strptime. rewrite pattern_of_format.
  destruct (re_match date_time_pattern s) as [f|] eqn:Em; [|discriminate].
  destruct (String.eqb (rest f) "") eqn:Er; cbn [negb]; [|discriminate].
  apply String.eqb_eq in Er. apply re_match_In, matches_In in Em.
  destruct Em as [Es Hden]. rewrite Er, sapp_nil_r in Es.
  unfold date_time_pattern in Hden.
  destruct Hden as (Y & w1 & gY & g1 & Ew & Eg & HY & H1).
  apply dir_Y in HY. destruct HY as [-> HY].
  unfold tail_cm in H1. destruct H1 as (? & w2 & ? & g2 & -> & -> & [-> ->] & H2).
  unfold tail_m in H2. destruct H2 as (m & w3 & gm & g3 & -> & -> & Hm & H3).
  apply dir_m in Hm. destruct Hm as (-> & Hm & Hmr).
  unfold tail_cd in H3. destruct H3 as (? & w4 & ? & g4 & -> & -> & [-> ->] & H4).
  unfold tail_d in H4. destruct H4 as (d & w5 & gd & g5 & -> & -> & Hd & H5).
  apply dir_d in Hd. destruct Hd as (-> & day & Hd & Hdr).
  unfold tail_ws in H5. destruct H5 as (ws & w6 & ? & g6 & -> & -> & (Hne & Hws & ->) & H6).
  unfold tail_H in H6. destruct H6 as (H & w7 & gH & g7 & -> & -> & HH & H7).
  apply dir_H in HH. destruct HH as (-> & HH & HHr).
  unfold tail_cM in H7. destruct H7 as (? & w8 & ? & g8 & -> & -> & [-> ->] & H8).
  unfold tail_M in H8. destruct H8 as (M & w9 & gM & g9 & -> & -> & HM & H9).
  apply dir_M in HM. destruct HM as (-> & HM & HMr).
  unfold tail_cS in H9. destruct H9 as (? & w10 & ? & g10 & -> & -> & [-> ->] & H10).
  unfold tail_S in H10. destruct H10 as (S & ? & gS & ? & -> & -> & HS & [-> ->]).
  apply dir_S in HS. destruct HS as (-> & HS & HSr).
  rewrite (convert_fields Y m d day H M S _ HY Hm Hd HH HM HS Eg).
  intros Hnew. assert (Hv : valid_datetime (number Y) (number m) day
                              (number H) (number M) (number S)).
  { apply datetime_new_valid. eauto. }
  exists Y, m, d, ws, H, M, S, day. rewrite Es, Ew, sapp_nil_r.
  exact (conj eq_refl (conj HY (conj Hm (conj Hd (conj Hne (conj Hws
           (conj HH (conj HM (conj HS Hv))))))))).
Qed.




End DateParsing.

Section DateClaims.
Variable rt : runtime.



End DateClaims.



(** ** The request pipeline *)

Section Pipeline.
Variable rt : runtime.
Variable send : transport.
Variables (self : api.ShotcutAPI) (method endpoint : string).
Variables (data params : option dict) (w : wire).

Lemma make_request_wire :
  fst (api._make_request rt send self method endpoint data params w)
  = (w ++ [transmitted self method endpoint data params])%list.
Proof.
  unfold api._make_request, try_except_prog, pbind, request_, lift, ret, throw, transmitted.
  destruct (send _) as [resp|e]; simpl.
  - destruct (json resp) as [body|e]; simpl.
    + destruct (api.check_rate_limit rt resp) as [[]|e]; simpl.
      * destruct (api.check_api_error body) as [[]|e]; simpl; [reflexivity|].
        destruct (issubclass _ _); reflexivity.
      * destruct (issubclass _ _); reflexivity.
    + destruct (issubclass _ _); reflexivity.
  - destruct (issubclass _ _); reflexivity.
Qed.

Lemma make_request_response resp body :
  send (transmitted self method endpoint data params) = Return resp ->
  json resp = Return body ->
  snd (api._make_request rt send self method endpoint data params w)
  = match api.check_rate_limit rt resp with
    | Raise e =>
        if issubclass (exc_type e) RequestException
        then Raise (Exc api_ShotcutAPIError (VStr ("Request failed: " ++ str_exc rt e)))
        else Raise e
    | Return _ =>
        match api.check_api_error body with
        | Raise e =>
            if issubclass (exc_type e) RequestException
            then Raise (Exc api_ShotcutAPIError (VStr ("Request failed: " ++ str_exc rt e)))
            else Raise e
        | Return _ => Return body
        end
    end.
Proof.
  intros Hs Hj.
  unfold api._make_request, try_except_prog, pbind, request_, lift, ret, throw.
  unfold transmitted in Hs. rewrite Hs. simpl. rewrite Hj. simpl.
  destruct (api.check_rate_limit rt resp) as [[]|e]; simpl.
  - destruct (api.check_api_error body) as [[]|e]; simpl; [reflexivity|].
    destruct (issubclass _ _); reflexivity.
  - destruct (issubclass _ _); reflexivity.
Qed.
End Pipeline.

Section PipelineClaims.
Variable rt : runtime.
Variable send : transport.
Variables (self : api.ShotcutAPI) (method endpoint : string).
Variables (data params : option dict) (w : wire).

Lemma check_rate_limit_not_exhausted resp :
  headers_get (resp_headers resp) "X-RateLimit-Remaining" <> Some "0" ->
  api.check_rate_limit rt resp = Return tt.
Proof.
  intros H. unfold api.check_rate_limit, api.header.
  destruct (headers_get (resp_headers resp) "X-RateLimit-Remaining") as [v|];
    [|reflexivity].
  destruct v as [|c v]; [reflexivity|].
  destruct v; [|destruct c as [[] [] [] [] [] [] [] []]; reflexivity].
  destruct c as [[] [] [] [] [] [] [] []]; try reflexivity.
  exfalso. apply H. reflexivity.
Qed.

Lemma check_rate_limit_exhausted resp :
  headers_get (resp_headers resp) "X-RateLimit-Remaining" = Some "0" ->
  api.check_rate_limit rt resp
  = (let* ts := int rt (api.header resp "X-RateLimit-Reset" (VInt 0)) in
     let* reset_time := fromtimestamp rt ts in
     Raise (Exc api_ShotcutAPIError
       (VStr ("Rate limit exceeded. Reset at " ++ str rt (VDatetime reset_time))))).
Proof.
  intros H. unfold api.check_rate_limit, api.header at 1. rewrite H. reflexivity.
Qed.

(** C1 (the code at the failing input).  When the response says that no
    requests remain and the reset header is absent or a number, the pipeline
    fails with the class that [api.py] declares for every failure; the
    message holds the reset time, and the class is no [RateLimitError]. *)
Theorem rate_limit_error_is_generic resp body ts t :
  send (transmitted self method endpoint data params) = Return resp ->
  json resp = Return body ->
  headers_get (resp_headers resp) "X-RateLimit-Remaining" = Some "0" ->
  int rt (api.header resp "X-RateLimit-Reset" (VInt 0)) = Return ts ->
  fromtimestamp rt ts = Return t ->
  snd (api._make_request rt send self method endpoint data params w)
  = Raise (Exc api_ShotcutAPIError
      (VStr ("Rate limit exceeded. Reset at " ++ str_datetime t)))
  /\ issubclass api_ShotcutAPIError RateLimitError = false.
Proof.
  intros Hs Hj Hr Hi Ht.
  rewrite (make_request_response rt send self method endpoint data params w resp body Hs Hj).
  rewrite (check_rate_limit_exhausted resp Hr), Hi. simpl. rewrite Ht. simpl.
  split; reflexivity.
Qed.

(** C3 (the code at the failing input).  When no requests remain and the
    reset header is present but no integer literal, [int] raises a
    [ValueError] that the handler for transport errors does not catch: it
    reaches the caller, and it is none of the kinds of the taxonomy. *)
Theorem malformed_reset_escapes resp body s :
  send (transmitted self method endpoint data params) = Return resp ->
  json resp = Return body ->
  headers_get (resp_headers resp) "X-RateLimit-Remaining" = Some "0" ->
  headers_get (resp_headers resp) "X-RateLimit-Reset" = Some s ->
  int_literal s = None ->
  exists e,
    snd (api._make_request rt send self method endpoint data params w) = Raise e
    /\ exc_type e = ValueError
    /\ exceptions.typed_error e = false
    /\ issubclass (exc_type e) api_ShotcutAPIError = false.
Proof.
  intros Hs Hj Hr Hx Hi.
  rewrite (make_request_response rt send self method endpoint data params w resp body Hs Hj).
  rewrite (check_rate_limit_exhausted resp Hr).
  unfold api.header. rewrite Hx. simpl. rewrite Hi. simpl.
  eexists. repeat split; reflexivity.
Qed.

(** C2 (the code at the failing input).  [create_domain] without its two
    optional arguments transmits a body with three entries, two of them
    [None]: the pipeline does not clean what it is given.  Cleaning would
    leave the domain entry alone, and the sibling [update_domain] leaves
    absent values out. *)
Theorem create_domain_transmits_none (domain : string) :
  fst (api.create_domain rt send self domain None None w)
  = (w ++ [mk_request "POST" (api.base_url self ++ "/domain/add")
             (api.headers self)
             (Some [("domain", VStr domain); ("redirectroot", VNone);
                    ("redirect404", VNone)])
             None])%list
  /\ utils.clean_params [("domain", VStr domain); ("redirectroot", VNone);
                         ("redirect404", VNone)]
     = [("domain", VStr domain)]
  /\ fst (api.update_domain rt send self 7 None None w)
     = (w ++ [mk_request "PUT" (api.base_url self ++ "/domain/7/update")
                (api.headers self) None None])%list.
Proof.
  unfold api.create_domain, api.update_domain.
  rewrite !make_request_wire. repeat split; reflexivity.
Qed.

End PipelineClaims.


Lemma rate_limit_error_is_generic_witness :
  snd (api._make_request CPython.runtime out_of_quota client "GET" "account" None None [])
  = Raise (Exc api_ShotcutAPIError
      (VStr "Rate limit exceeded. Reset at 1970-01-01 00:00:00"))
  /\ issubclass api_ShotcutAPIError RateLimitError = false.
Proof.
  apply (rate_limit_error_is_generic CPython.runtime out_of_quota client "GET"
           "account" None None []
           (mk_response [("X-RateLimit-Remaining", "0")]
              (Return (VDict [("error", VInt 0)])))
           (VDict [("error", VInt 0)]) 0 (mk_datetime 1970 1 1 0 0 0));
    reflexivity.
Defined.

Lemma malformed_reset_escapes_witness :
  exists e,
    snd (api._make_request CPython.runtime malformed_reset client "GET" "account" None None []) = Raise e
    /\ exc_type e = ValueError
    /\ exceptions.typed_error e = false
    /\ issubclass (exc_type e) api_ShotcutAPIError = false.
Proof.
  apply (malformed_reset_escapes CPython.runtime malformed_reset client "GET"
           "account" None None []
           (mk_response [("X-RateLimit-Remaining", "0");
                         ("X-RateLimit-Reset", "soon")]
              (Return (VDict [("error", VInt 0)])))
           (VDict [("error", VInt 0)]) "soon");
    reflexivity.
Defined.

(** ** Dictionaries *)

Lemma dict_set_fresh (d : dict) k v :
  ~ In k (keys d) -> dict_set d k v = (d ++ [(k, v)])%list.
Proof.
  induction d as [|[k' v'] d IH]; simpl; intros H; [reflexivity|].
  destruct (String.eqb k' k) eqn:E.
  - apply String.eqb_eq in E. exfalso. apply H. left. exact E.
  - rewrite IH; [reflexivity|]. intros Hin. apply H. right. exact Hin.
Qed.

Lemma keys_app (d1 d2 : dict) : keys (d1 ++ d2)%list = (keys d1 ++ keys d2)%list.
Proof. unfold keys. apply map_app. Qed.

Lemma clean_params_fold (params acc : dict) :
  List.NoDup (keys acc ++ keys params) ->
  fold_left
    (fun acc kv => if negb (is_none (snd kv)) then dict_set acc (fst kv) (snd kv)
                   else acc)
    params acc
  = (acc ++ List.filter present params)%list.
Proof.
  revert acc. induction params as [|[k v] params IH]; intros acc Hnd; simpl.
  - symmetry. apply app_nil_r.
  - simpl in Hnd. unfold present at 1. simpl.
    destruct (is_none v) eqn:E; simpl.
    + apply IH. eapply NoDup_remove_1. exact Hnd.
    + rewrite dict_set_fresh.
      * rewrite IH.
        -- rewrite <- app_assoc. reflexivity.
        -- rewrite keys_app. simpl. rewrite <- app_assoc. exact Hnd.
      * intros Hin. apply NoDup_remove_2 in Hnd. apply Hnd.
        apply in_or_app. left. exact Hin.
Qed.

Lemma clean_params_filter (params : dict) :
  wf_dict params -> utils.clean_params params = List.filter present params.
Proof.
  intros H. unfold utils.clean_params. rewrite clean_params_fold; [reflexivity|].
  exact H.
Qed.

Lemma is_none_false v : is_none v = false <-> v <> VNone.
Proof. destruct v; simpl; split; intros; congruence. Qed.

Lemma NoDup_keys_filter (f : string * value -> bool) (d : dict) :
  List.NoDup (keys d) -> List.NoDup (keys (List.filter f d)).
Proof.
  induction d as [|[k v] d IH]; simpl; intros H; [constructor|].
  inversion H as [|? ? Hn Hd]; subst.
  destruct (f (k, v)); simpl; [|apply IH; exact Hd].
  constructor; [|apply IH; exact Hd].
  intros Hin. apply Hn. unfold keys in *.
  apply in_map_iff in Hin. destruct Hin as [[k' v'] [Hk Hin]].
  apply filter_In in Hin. apply in_map_iff. exists (k', v'). tauto.
Qed.

(** C6.  [clean_params] builds a mapping that holds exactly the entries
    whose value is not [None], in their order and with their values; values
    that are present but false ([0], [False], the empty text) are kept. *)
Theorem clean_params_keeps_present (params : dict) :
  wf_dict params ->
  utils.clean_params params
  = List.filter (fun kv => negb (is_none (snd kv))) params
  /\ (forall k v, In (k, v) (utils.clean_params params)
                  <-> In (k, v) params /\ v <> VNone)
  /\ (forall k v, In (k, v) params ->
        v = VInt 0 \/ v = VBool false \/ v = VStr "" ->
        In (k, v) (utils.clean_params params))
  /\ wf_dict (utils.clean_params params)
  /\ utils.clean_params [("a", VInt 1); ("b", VNone); ("c", VInt 0)]
     = [("a", VInt 1); ("c", VInt 0)].
Proof.
  intros Hwf. pose proof (clean_params_filter params Hwf) as E.
  split; [exact E|]. rewrite E. split; [|split; [|split]].
  - intros k v. rewrite filter_In. unfold present. simpl.
    rewrite negb_true_iff, is_none_false. reflexivity.
  - intros k v Hin Hv. apply filter_In. split; [exact Hin|].
    unfold present. simpl. destruct Hv as [->|[->| ->]]; reflexivity.
  - apply NoDup_keys_filter. exact Hwf.
  - reflexivity.
Qed.

Lemma clean_params_keeps_present_witness :
  utils.clean_params [("a", VInt 1); ("b", VNone); ("c", VInt 0)]
  = List.filter (fun kv => negb (is_none (snd kv)))
      [("a", VInt 1); ("b", VNone); ("c", VInt 0)].
Proof.
  refine (proj1 (clean_params_keeps_present
                   [("a", VInt 1); ("b", VNone); ("c", VInt 0)] _)).
  unfold wf_dict. simpl.
  repeat (constructor; [simpl; intuition discriminate|]). constructor.
Defined.

(** C9 (amended).  The constructor of [PaginatedResponse] stores its six
    arguments as they are and checks nothing, so [has_next] equals
    [current_page < total_pages] on the new value exactly when the caller
    passes it so. *)
Theorem paginated_response_stores_arguments (rt : runtime)
    (items : value) (total cp tp : Z) (hn hp : bool) :
  exists obj,
    Dataclasses.init rt models.PaginatedResponse
      [("items", items); ("total", VInt total); ("current_page", VInt cp);
       ("total_pages", VInt tp); ("has_next", VBool hn); ("has_prev", VBool hp)]
    = Return obj
    /\ attrs obj
       = [("items", items); ("total", VInt total); ("current_page", VInt cp);
          ("total_pages", VInt tp); ("has_next", VBool hn);
          ("has_prev", VBool hp)]
    /\ (has_next_invariant obj <-> hn = (cp <? tp)).
Proof.
  eexists. split; [reflexivity|]. split; [reflexivity|].
  unfold has_next_invariant, getattr. simpl. split.
  - intros (cp' & tp' & hn' & H1 & H2 & H3 & H4).
    injection H1 as <-. injection H2 as <-. injection H3 as <-. exact H4.
  - intros H. exists cp, tp, hn. auto.
Qed.

(** C9 as stated fails: a value with [has_next] set on the last page can be
    constructed. *)
Lemma paginated_response_without_invariant :
  exists obj,
    Dataclasses.init CPython.runtime models.PaginatedResponse (page_kwargs 1 1 true)
    = Return obj
    /\ getattr obj "current_page" = Some (VInt 1)
    /\ getattr obj "total_pages" = Some (VInt 1)
    /\ getattr obj "has_next" = Some (VBool true)
    /\ ~ has_next_invariant obj.
Proof.
  eexists. split; [reflexivity|]. repeat split.
  intros (cp & tp & hn & H1 & H2 & H3 & H4).
  injection H1 as <-. injection H2 as <-. injection H3 as <-. discriminate H4.
Qed.

(** ** Record construction *)

Section Construction.
Variable rt : runtime.

Lemma convert_datetime_parsed v :
  text_or_false v -> models.convert_datetime rt v = Return (parsed rt v).
Proof.
  intros [[s ->]|Hf].
  2:{ unfold models.convert_datetime, parsed. rewrite Hf. cbn [negb].
      destruct v as [| | |s| | |]; try reflexivity.
      simpl in Hf. apply negb_false_iff, String.eqb_eq in Hf. subst s.
      reflexivity. }
  unfold models.convert_datetime, parsed.
  destruct (String.eqb s "") eqn:E.
  - apply String.eqb_eq in E. subst s. reflexivity.
  - cbn [truthy]. rewrite E. cbn [negb].
    destruct (strptime_str_outcome rt s "%Y-%m-%d %H:%M:%S") as [[t ->]|[a ->]];
      reflexivity.
Qed.

Lemma convert_entry_run l k (h : heap) d :
  h !! l = Some d ->
  (forall v, dict_get d k = Some v -> text_or_false v) ->
  models.convert_entry rt l k h = (<[l := conv_key rt k d]> h, Return tt).
Proof.
  intros Hl Hv.
  unfold models.convert_entry, pbind, contains, getitem, setitem, lift, ret, deref.
  rewrite Hl. simpl. unfold dict_contains, conv_key.
  destruct (dict_get d k) as [v|] eqn:E.
  - rewrite Hl. simpl. rewrite E.
    rewrite (convert_datetime_parsed v (Hv v eq_refl)). rewrite Hl. reflexivity.
  - rewrite insert_id; [reflexivity|exact Hl].
Qed.

Lemma dict_get_not_in (d : dict) k : ~ In k (keys d) -> dict_get d k = None.
Proof.
  induction d as [|[k' v] d IH]; simpl; intros H; [reflexivity|].
  destruct (String.eqb k' k) eqn:E.
  - apply String.eqb_eq in E. exfalso. apply H. left. exact E.
  - apply IH. intros Hin. apply H. right. exact Hin.
Qed.

Lemma replace_key_not_in (d : dict) k : ~ In k (keys d) -> replace_key rt k d = d.
Proof.
  induction d as [|[k' v] d IH]; simpl; intros H; [reflexivity|].
  destruct (String.eqb k' k) eqn:E.
  - apply String.eqb_eq in E. exfalso. apply H. left. exact E.
  - f_equal. apply IH. intros Hin. apply H. right. exact Hin.
Qed.

Lemma conv_key_replace (d : dict) k :
  wf_dict d -> conv_key rt k d = replace_key rt k d.
Proof.
  unfold conv_key, wf_dict.
  induction d as [|[k' v] d IH]; intros H; [reflexivity|].
  inversion H as [|? ? Hn Hd]; subst.
  cbn [dict_get replace_key map fst snd]. fold (replace_key rt k d).
  destruct (String.eqb k' k) eqn:E.
  - cbn [dict_set]. rewrite E. apply String.eqb_eq in E. subst k'.
    rewrite replace_key_not_in; [reflexivity|exact Hn].
  - specialize (IH Hd). destruct (dict_get d k) as [v'|] eqn:G.
    + cbn [dict_set]. rewrite E. f_equal. exact IH.
    + f_equal. exact IH.
Qed.

Lemma keys_replace_key k (d : dict) : keys (replace_key rt k d) = keys d.
Proof.
  unfold keys, replace_key. rewrite map_map. apply map_ext.
  intros [k' v]. simpl. destruct (String.eqb k' k); reflexivity.
Qed.

Lemma dict_get_replace_key_ne k k' (d : dict) :
  k <> k' -> dict_get (replace_key rt k d) k' = dict_get d k'.
Proof.
  intros Hne. induction d as [|[k0 v] d IH]; simpl; [reflexivity|].
  destruct (String.eqb k0 k) eqn:E; simpl.
  - apply String.eqb_eq in E. subst k0.
    destruct (String.eqb k k') eqn:E'; [apply String.eqb_eq in E'; contradiction|].
    exact IH.
  - destruct (String.eqb k0 k'); [reflexivity|exact IH].
Qed.

Lemma replace_three (d : dict) :
  replace_key rt "expiry" (replace_key rt "updated_at" (replace_key rt "created_at" d))
  = dates_replaced rt d.
Proof.
  unfold replace_key, dates_replaced. rewrite !map_map. apply map_ext.
  intros [k v]. unfold is_date_key, date_keys. simpl.
  destruct (String.eqb k "created_at") eqn:E1.
  - apply String.eqb_eq in E1. subst k. reflexivity.
  - simpl. destruct (String.eqb k "updated_at") eqn:E2.
    + apply String.eqb_eq in E2. subst k. reflexivity.
    + simpl. destruct (String.eqb k "expiry") eqn:E3; reflexivity.
Qed.

Lemma keys_dates_replaced (d : dict) : keys (dates_replaced rt d) = keys d.
Proof.
  unfold keys, dates_replaced. rewrite map_map. apply map_ext.
  intros [k v]. simpl. destruct (is_date_key k); reflexivity.
Qed.

Lemma create_model_run cls l (h : heap) d :
  h !! l = Some d -> wf_dict d -> d <> [] -> dates_are_text d ->
  models.create_model_from_response rt cls (Some l) h
  = (<[l := dates_replaced rt d]> h, construct rt cls (dates_replaced rt d)).
Proof.
  intros Hl Hwf Hne Hd.
  unfold models.create_model_from_response.
  unfold pbind at 1. unfold read at 1, deref. rewrite Hl. simpl.
  destruct d as [|kv d0] eqn:Ed; [contradiction|]. rewrite <- Ed in *. simpl.
  assert (Hk : forall k, In k date_keys -> forall v, dict_get d k = Some v -> text_or_false v).
  { intros k Hin v Hv. exact (Hd k v Hin Hv). }
  unfold pbind at 1.
  rewrite (convert_entry_run l "created_at" h d Hl (Hk "created_at" ltac:(simpl; auto))).
  rewrite (conv_key_replace d _ Hwf).
  set (d1 := replace_key rt "created_at" d).
  assert (Hwf1 : wf_dict d1) by (unfold wf_dict, d1; rewrite keys_replace_key; exact Hwf).
  unfold pbind at 1.
  rewrite (convert_entry_run l "updated_at" _ d1 (lookup_insert_eq _ _ _)).
  2:{ intros v Hv. unfold d1 in Hv. rewrite dict_get_replace_key_ne in Hv by discriminate.
      apply (Hk "updated_at"); [simpl; auto|exact Hv]. }
  rewrite (conv_key_replace d1 _ Hwf1), insert_insert_eq.
  set (d2 := replace_key rt "updated_at" d1).
  assert (Hwf2 : wf_dict d2) by (unfold wf_dict, d2; rewrite keys_replace_key; exact Hwf1).
  unfold pbind at 1.
  rewrite (convert_entry_run l "expiry" _ d2 (lookup_insert_eq _ _ _)).
  2:{ intros v Hv. unfold d2, d1 in Hv.
      rewrite !dict_get_replace_key_ne in Hv by discriminate.
      apply (Hk "expiry"); [simpl; auto|exact Hv]. }
  rewrite (conv_key_replace d2 _ Hwf2), insert_insert_eq.
  unfold d2, d1. rewrite replace_three.
  unfold try_except_prog, pbind, read, lift, ret, throw, deref.
  rewrite lookup_insert_eq. simpl. unfold construct, Dataclasses.init.
  destruct (unexpected cls _), (missing cls _); reflexivity.
Qed.

End Construction.

Section ConstructionClaims.
Variable rt : runtime.

Lemma dict_get_dates_replaced (d : dict) k :
  dict_get (dates_replaced rt d) k
  = option_map (fun v => if is_date_key k then parsed rt v else v) (dict_get d k).
Proof.
  induction d as [|[k' v] d IH]; simpl; [reflexivity|].
  destruct (is_date_key k') eqn:Ek; simpl;
    (destruct (String.eqb k' k) eqn:E;
     [apply String.eqb_eq in E; subst k'; simpl; rewrite Ek; reflexivity
     |exact IH]).
Qed.

Lemma is_date_key_In k : In k date_keys -> is_date_key k = true.
Proof.
  intros [<-|[<-|[<-|[]]]]; reflexivity.
Qed.

(** C10 (amended).  Record construction writes into the mapping it is
    given.  When the entries [created_at], [updated_at] and [expiry] that
    the mapping contains hold text or an object that counts as false, then
    after the call the caller's mapping holds, for each of them, the parsed
    date-time in place of the text ([None] when the text does not parse),
    every other entry is as before, and this is so also when the call
    fails. *)
Theorem create_model_mutates_input (cls : dataclass) (l : loc) (h : heap)
    (d : dict) :
  h !! l = Some d -> wf_dict d -> d <> [] -> dates_are_text d ->
  let out := models.create_model_from_response rt cls (Some l) h in
  fst out = <[l := dates_replaced rt d]> h
  /\ (forall k s, In k date_keys -> dict_get d k = Some (VStr s) ->
        dict_get (deref (fst out) l) k = Some (parsed rt (VStr s)))
  /\ (forall k v, ~ In k date_keys -> dict_get d k = Some v ->
        dict_get (deref (fst out) l) k = Some v)
  /\ (forall e, snd out = Raise e ->
        deref (fst out) l = dates_replaced rt d).
Proof.
  intros Hl Hwf Hne Hd. cbv zeta.
  rewrite (create_model_run rt cls l h d Hl Hwf Hne Hd). cbn [fst snd].
  unfold deref. rewrite lookup_insert_eq.
  change (default [] (Some (dates_replaced rt d))) with (dates_replaced rt d).
  split; [reflexivity|]. split; [|split].
  - intros k s Hin Hk. rewrite dict_get_dates_replaced, Hk. simpl.
    rewrite (is_date_key_In k Hin). reflexivity.
  - intros k v Hin Hk. rewrite dict_get_dates_replaced, Hk. simpl.
    destruct (is_date_key k) eqn:E; [|reflexivity].
    exfalso. apply Hin. unfold is_date_key in E. apply existsb_exists in E.
    destruct E as [k' [Hin' E]]. apply String.eqb_eq in E. subst k'. exact Hin'.
  - reflexivity.
Qed.

Lemma mem_false k l : mem k l = false <-> ~ In k l.
Proof.
  unfold mem. split.
  - intros H Hin. assert (existsb (String.eqb k) l = true) as E.
    { apply existsb_exists. exists k. split; [exact Hin|apply String.eqb_refl]. }
    congruence.
  - intros H. destruct (existsb (String.eqb k) l) eqn:E; [|reflexivity].
    apply existsb_exists in E. destruct E as [k' [Hin E]].
    apply String.eqb_eq in E. subst k'. contradiction.
Qed.

Lemma mismatch_rejected (cls : dataclass) (d d' : dict) :
  keys d' = keys d -> keys_mismatch cls d ->
  Dataclasses.init rt cls d'
  = Raise (Exc TypeError
      (VStr (init_error rt (__name__ cls) (unexpected cls d') (missing cls d')))).
Proof.
  intros Hk Hm. unfold Dataclasses.init.
  destruct (unexpected cls d') as [|u us] eqn:Eu; [|reflexivity].
  destruct (missing cls d') as [|m ms] eqn:Em; [|reflexivity].
  exfalso. destruct Hm as [[k [Hin Hn]]|[f [Hin [Hdef Hn]]]].
  - assert (In k (unexpected cls d')) as Hu.
    { unfold unexpected. apply filter_In. rewrite Hk. split; [exact Hin|].
      apply negb_true_iff, mem_false. exact Hn. }
    rewrite Eu in Hu. exact Hu.
  - assert (In (f_name f) (missing cls d')) as Hu.
    { unfold missing. apply in_map. apply filter_In. split; [exact Hin|].
      rewrite Hdef. unfold dict_contains.
      rewrite dict_get_not_in; [reflexivity|]. rewrite Hk. exact Hn. }
    rewrite Em in Hu. exact Hu.
Qed.

(** C4 (amended).  When the keys of a non-empty mapping do not match the
    fields of the record kind, record construction fails with the built-in
    [ValueError], which is no kind of the taxonomy; its message starts with
    ["Invalid data for "] and the name of the record kind. *)
Theorem construction_mismatch_raises_value_error (cls : dataclass) (l : loc)
    (h : heap) (d : dict) :
  h !! l = Some d -> wf_dict d -> d <> [] -> dates_are_text d ->
  keys_mismatch cls d ->
  exists detail,
    snd (models.create_model_from_response rt cls (Some l) h)
    = Raise (Exc ValueError
        (VStr ("Invalid data for " ++ __name__ cls ++ ": " ++ detail)))
    /\ issubclass ValueError ShotcutAPIError = false.
Proof.
  intros Hl Hwf Hne Hd Hm.
  rewrite (create_model_run rt cls l h d Hl Hwf Hne Hd). cbn [snd].
  unfold construct.
  rewrite (mismatch_rejected cls d _ (keys_dates_replaced rt d) Hm).
  eexists. split; reflexivity.
Qed.

End ConstructionClaims.

Lemma link_data_wf : wf_dict link_data.
Proof.
  unfold wf_dict. simpl.
  repeat (constructor; [simpl; intuition discriminate|]). constructor.
Qed.

Lemma link_data_dates : dates_are_text link_data.
Proof.
  intros k v [<-|[<-|[<-|[]]]] H; simpl in H; inversion H; left; eauto.
Qed.

Lemma create_model_mutates_input_witness :
  deref (fst (models.create_model_from_response CPython.runtime models.Campaign
                (Some 1%nat) store1)) 1%nat
  = [("id", VInt 5);
     ("created_at", VDatetime (mk_datetime 2024 1 1 0 0 0));
     ("updated_at", VNone); ("url", VStr "https://x");
     ("shorturl", VStr "https://s/x")].
Proof.
  refine (proj2 (proj2 (proj2
    (create_model_mutates_input CPython.runtime models.Campaign 1%nat store1
       link_data _ link_data_wf _ link_data_dates))) _ _).
  - reflexivity.
  - discriminate.
  - vm_compute. reflexivity.
Defined.

(** C10 as stated fails: when [created_at] holds a number, the parser
    raises [TypeError] before [updated_at] is looked at, and the text of
    [updated_at] stays in the caller's mapping. *)
Lemma numeric_date_stops_conversion :
  dict_get mixed_dates_data "updated_at" = Some (VStr "2024-01-01 00:00:00")
  /\ dict_get
       (deref (fst (models.create_model_from_response CPython.runtime models.Link
                      (Some 1%nat) store4)) 1%nat) "updated_at"
     = Some (VStr "2024-01-01 00:00:00")
  /\ snd (models.create_model_from_response CPython.runtime models.Link
            (Some 1%nat) store4)
     = Raise (Exc TypeError (VStr "strptime() argument 1 must be str, not int")).
Proof. vm_compute. repeat split. Qed.

(** C4 as stated fails: the error of a mismatch is no [ValidationError]. *)
Lemma construction_mismatch_is_value_error :
  snd (models.create_model_from_response CPython.runtime models.Link
         (Some 1%nat) {[ 1%nat := [("id", VInt 5); ("colour", VStr "red")] ]})
  = Raise (Exc ValueError
      (VStr "Invalid data for Link: Link.__init__() got an unexpected keyword argument 'colour'"))
  /\ issubclass ValueError ValidationError = false
  /\ issubclass ValueError ShotcutAPIError = false.
Proof. vm_compute. repeat split. Qed.

Lemma construction_mismatch_raises_value_error_witness :
  exists detail,
    snd (models.create_model_from_response CPython.runtime models.Campaign
           (Some 1%nat) store1)
    = Raise (Exc ValueError (VStr ("Invalid data for Campaign: " ++ detail)))
    /\ issubclass ValueError ShotcutAPIError = false.
Proof.
  apply (construction_mismatch_raises_value_error CPython.runtime models.Campaign
           1%nat store1 link_data).
  - reflexivity.
  - exact link_data_wf.
  - discriminate.
  - exact link_data_dates.
  - left. exists "url". split; simpl; intuition discriminate.
Defined.

(** ** The colour validator *)

Section Colour.
Variable rt : runtime.

Lemma in_byte_range_spec t :
  in_byte_range t = true
  <-> exists n, int_literal (strip t) = Some n /\ 0 <= n <= 255.
Proof.
  unfold in_byte_range. destruct (int_literal (strip t)) as [n|].
  - rewrite andb_true_iff, !Z.leb_le. split.
    + intros H. exists n. split; [reflexivity|exact H].
    + intros [n' [E H]]. injection E as ->. exact H.
  - split; [discriminate|]. intros [n [E _]]. discriminate.
Qed.

Lemma all_components_outcome (values : list string) :
  utils.all_components rt values = Return (forallb in_byte_range values)
  \/ (forallb in_byte_range values = false
      /\ exists a, utils.all_components rt values = Raise (Exc ValueError a)).
Proof.
  induction values as [|v values IH]; [left; reflexivity|].
  cbn [utils.all_components forallb int].
  unfold in_byte_range at 1 3.
  destruct (int_literal (strip v)) as [n|]; cbn [bind].
  - destruct ((0 <=? n) && (n <=? 255)); [exact IH|left; reflexivity].
  - right. split; [reflexivity|]. eexists. reflexivity.
Qed.

Lemma all_components_caught (values : list string) :
  try_except (utils.all_components rt values) ValueError (fun _ => Return false)
  = Return (forallb in_byte_range values).
Proof.
  destruct (all_components_outcome values) as [->|[E [a ->]]]; [reflexivity|].
  rewrite E. reflexivity.
Qed.

Lemma component_spec t :
  component t <-> free "," t = true /\ in_byte_range t = true.
Proof.
  unfold component, free. rewrite in_byte_range_spec.
  split; intros [Hf [n [Hn Hr]]]; (split; [exact Hf|]); exists n;
    (split; [apply int_strip_spec; exact Hn|exact Hr]).
Qed.

Lemma rgb_form_middle (m : string) :
  rgb_form ("rgb(" ++ m ++ ")")
  <-> exists R G B, split "," m = [R; G; B]
        /\ forallb in_byte_range [R; G; B] = true.
Proof.
  unfold rgb_form. split.
  - intros (R & G & B & E & HR & HG & HB).
    apply component_spec in HR, HG, HB.
    exists R, G, B. split.
    + apply split_three. repeat split; try tauto.
      apply sapp_inv_head in E. apply (sapp_inv_tail _ _ ")").
      rewrite E. simpl. rewrite !sapp_assoc. simpl. rewrite !sapp_assoc. reflexivity.
    + simpl. destruct HR as [_ ->], HG as [_ ->], HB as [_ ->]. reflexivity.
  - intros (R & G & B & E & H). apply split_three in E.
    destruct E as (-> & HR & HG & HB). simpl in H.
    rewrite !andb_true_iff in H. destruct H as (? & ? & ? & _).
    exists R, G, B. rewrite !component_spec. repeat split; try assumption.
    simpl. rewrite !sapp_assoc. simpl. rewrite !sapp_assoc. reflexivity.
Qed.

Lemma validate_rgb_color_run (s : string) :
  s <> "" ->
  exists b, utils.validate_rgb_color rt (Some s) = Return b
            /\ (b = true <-> rgb_form s).
Proof.
  intros Hne. unfold utils.validate_rgb_color. cbn [of_optional_str truthy].
  destruct (String.eqb s "") eqn:E; [apply String.eqb_eq in E; contradiction|].
  cbn [negb].
  destruct (startswith s "rgb(") eqn:Hs; cbn [negb orb].
  - destruct (endswith s ")") eqn:He; cbn [negb].
    + destruct (rgb_shape s Hs He) as [m ->]. rewrite slice_rgb.
      pose proof (rgb_form_middle m) as Hf.
      destruct (split "," m) as [|R [|G [|B [|X l]]]] eqn:Esp;
        cbn [length Nat.eqb negb].
      * exists false. split; [reflexivity|]. rewrite Hf. split; [discriminate|].
        intros (? & ? & ? & ? & _). discriminate.
      * exists false. split; [reflexivity|]. rewrite Hf. split; [discriminate|].
        intros (? & ? & ? & ? & _). discriminate.
      * exists false. split; [reflexivity|]. rewrite Hf. split; [discriminate|].
        intros (? & ? & ? & ? & _). discriminate.
      * rewrite all_components_caught. eexists. split; [reflexivity|].
        rewrite Hf. split.
        -- intros H. exists R, G, B. split; [reflexivity|exact H].
        -- intros (R' & G' & B' & H1 & H2). injection H1 as <- <- <-. exact H2.
      * exists false. split; [reflexivity|]. rewrite Hf. split; [discriminate|].
        intros (? & ? & ? & ? & _). discriminate.
    + exists false. split; [reflexivity|]. split; [discriminate|].
      intros (R & G & B & -> & _). exfalso.
      assert (endswith ("rgb(" ++ R ++ "," ++ G ++ "," ++ B ++ ")") ")" = true) as H.
      { apply endswith_spec. exists ("rgb(" ++ R ++ "," ++ G ++ "," ++ B).
        rewrite !sapp_assoc. reflexivity. }
      congruence.
  - exists false. split; [reflexivity|]. split; [discriminate|].
    intros (R & G & B & -> & _). exfalso.
    assert (startswith ("rgb(" ++ R ++ "," ++ G ++ "," ++ B ++ ")") "rgb(" = true) as H.
    { apply startswith_spec. eexists. reflexivity. }
    congruence.
Qed.


End Colour.



Lemma forall_chars_weaken (p q : ascii -> bool) t :
  (forall c, p c = true -> q c = true) ->
  forall_chars p t = true -> forall_chars q t = true.
Proof.
  intros Hpq. induction t as [|c t IH]; simpl; [reflexivity|].
  rewrite !andb_true_iff. intros [H1 H2]. split; [apply Hpq; exact H1|apply IH; exact H2].
Qed.



(** ** The request pipeline, case by case *)

Section PipelineCases.
Variable rt : runtime.
Variable send : transport.
Variables (self : api.ShotcutAPI) (method endpoint : string).
Variables (data params : option dict) (w : wire).

Lemma make_request_send_fails e :
  send (transmitted self method endpoint data params) = Raise e ->
  snd (api._make_request rt send self method endpoint data params w)
  = if issubclass (exc_type e) RequestException
    then Raise (request_failed rt e) else Raise e.
Proof.
  intros Hs.
  unfold api._make_request, try_except_prog, pbind, request_, lift, ret, throw.
  unfold transmitted in Hs. rewrite Hs. simpl.
  destruct (issubclass _ _); reflexivity.
Qed.

Lemma make_request_json_fails resp e :
  send (transmitted self method endpoint data params) = Return resp ->
  json resp = Raise e ->
  snd (api._make_request rt send self method endpoint data params w)
  = if issubclass (exc_type e) RequestException
    then Raise (request_failed rt e) else Raise e.
Proof.
  intros Hs Hj.
  unfold api._make_request, try_except_prog, pbind, request_, lift, ret, throw.
  unfold transmitted in Hs. rewrite Hs. simpl. rewrite Hj. simpl.
  destruct (issubclass _ _); reflexivity.
Qed.

Lemma truthy_not_zero v : truthy v = true -> eq_int v 0 = false.
Proof.
  destruct v as [|b|n|s|l|d|t]; simpl; try reflexivity.
  - intros ->. reflexivity.
  - intros H. apply negb_true_iff in H. exact H.
Qed.

Lemma check_api_error_dict (body : dict) :
  api.check_api_error (VDict body)
  = if truthy (error_code body)
    then Raise (Exc api_ShotcutAPIError (error_message body))
    else Return tt.
Proof.
  unfold api.check_api_error, api.get, api.subscript, error_code, error_message.
  cbn [bind]. destruct (dict_get body "error") as [v|] eqn:E; [|reflexivity].
  destruct (truthy v) eqn:T; [|reflexivity].
  cbn [bind]. rewrite (truthy_not_zero v T). reflexivity.
Qed.

Lemma check_api_error_other body :
  (forall d, body <> VDict d) ->
  api.check_api_error body
  = Raise (Exc AttributeError
      (VStr ("'" ++ type_name body ++ "' object has no attribute 'get'"))).
Proof.
  intros H. destruct body; try reflexivity. exfalso. exact (H _ eq_refl).
Qed.

Lemma check_rate_limit_raises resp :
  headers_get (resp_headers resp) "X-RateLimit-Remaining" = Some "0" ->
  exists e, api.check_rate_limit rt resp = Raise e
            /\ (exc_type e = api_ShotcutAPIError \/ exc_type e = ValueError
                \/ exists ts, fromtimestamp rt ts = Raise e).
Proof.
  intros H. rewrite (check_rate_limit_exhausted rt resp H).
  unfold api.header.
  destruct (headers_get (resp_headers resp) "X-RateLimit-Reset") as [s|].
  - destruct (int_str_outcome rt s) as [[n En]|[a Ea]].
    + rewrite En. cbn [bind]. destruct (fromtimestamp rt n) as [t|e] eqn:Et.
      * eexists. split; [reflexivity|]. left. reflexivity.
      * exists e. split; [reflexivity|]. right. right. exists n. exact Et.
    + rewrite Ea. eexists. split; [reflexivity|]. right. left. reflexivity.
  - cbn [int bind]. destruct (fromtimestamp rt 0) as [t|e] eqn:Et.
    + eexists. split; [reflexivity|]. left. reflexivity.
    + exists e. split; [reflexivity|]. right. right. exists 0. exact Et.
Qed.

(** X1.  Whatever its outcome, one call of the pipeline of a client made
    for the key [key] transmits one request and no more (a failure is not
    retried): to the endpoint under [https://shotcut.in/api/], with the two
    headers [Authorization: Bearer key] and [Content-Type: application/json],
    and with an absent or empty body or parameter mapping given as [None]. *)
Theorem one_request_per_call (key : string) :
  fst (api._make_request rt send (api.__init__ key) method endpoint data params w)
  = List.app w
      [mk_request method ("https://shotcut.in/api/" ++ endpoint)
         [("Authorization", "Bearer " ++ key);
          ("Content-Type", "application/json")]
         (match data with Some (kv :: d) => Some (kv :: d) | _ => None end)
         (match params with Some (kv :: d) => Some (kv :: d) | _ => None end)].
Proof.
  rewrite make_request_wire. unfold transmitted, api.if_nonempty. simpl.
  destruct data as [[|? ?]|], params as [[|? ?]|]; reflexivity.
Qed.

(** X2.  A failure of the transport is reported as the API error of
    [api.py] with the text [Request failed: ] and the text of the failure
    when it is a [RequestException] (a connection error, a timeout), and
    reaches the caller as it is otherwise. *)
Theorem transport_failure_reported e :
  send (transmitted self method endpoint data params) = Raise e ->
  (issubclass (exc_type e) RequestException = true ->
   snd (api._make_request rt send self method endpoint data params w)
   = Raise (Exc api_ShotcutAPIError (VStr ("Request failed: " ++ str_exc rt e))))
  /\ (issubclass (exc_type e) RequestException = false ->
      snd (api._make_request rt send self method endpoint data params w) = Raise e).
Proof.
  intros Hs. rewrite (make_request_send_fails e Hs).
  split; intros ->; reflexivity.
Qed.

(** X3.  The body is decoded before the headers are looked at: when the
    body of the response is no JSON, the pipeline reports [Request failed: ]
    with the text of the decoder's error (a [RequestException] of the HTTP
    library), also when the headers say that no requests remain. *)
Theorem decode_failure_reported resp e :
  send (transmitted self method endpoint data params) = Return resp ->
  json resp = Raise e ->
  issubclass (exc_type e) RequestException = true ->
  snd (api._make_request rt send self method endpoint data params w)
  = Raise (Exc api_ShotcutAPIError (VStr ("Request failed: " ++ str_exc rt e))).
Proof.
  intros Hs Hj Hc. rewrite (make_request_json_fails resp e Hs Hj), Hc. reflexivity.
Qed.

(** X4.  A body that decodes to something other than an object (an array,
    a number, a text, [null]) makes the pipeline raise the [AttributeError]
    of the missing [get] method; the handler does not catch it and it is no
    API error. *)
Theorem non_object_body_escapes resp body :
  send (transmitted self method endpoint data params) = Return resp ->
  json resp = Return body ->
  headers_get (resp_headers resp) "X-RateLimit-Remaining" <> Some "0" ->
  (forall d, body <> VDict d) ->
  snd (api._make_request rt send self method endpoint data params w)
  = Raise (Exc AttributeError
      (VStr ("'" ++ type_name body ++ "' object has no attribute 'get'")))
  /\ issubclass AttributeError api_ShotcutAPIError = false.
Proof.
  intros Hs Hj Hr Hb.
  rewrite (make_request_response rt send self method endpoint data params w resp body Hs Hj).
  rewrite (check_rate_limit_not_exhausted rt resp Hr).
  rewrite (check_api_error_other body Hb). split; reflexivity.
Qed.

(** X5.  The [error] entry of the body is judged by its truth value,
    whatever its type: when requests remain and the body is an object, the
    pipeline raises the API error with the [message] entry (or
    [Unknown API error]) exactly when the entry is present and true (a
    nonzero number, [true], a non-empty text such as ["0"], a non-empty
    array or object), and returns the body otherwise.  The comparison with
    0 never changes the outcome. *)
Theorem body_error_by_truth_value resp (body : dict) :
  send (transmitted self method endpoint data params) = Return resp ->
  json resp = Return (VDict body) ->
  headers_get (resp_headers resp) "X-RateLimit-Remaining" <> Some "0" ->
  snd (api._make_request rt send self method endpoint data params w)
  = if truthy (error_code body)
    then Raise (Exc api_ShotcutAPIError (error_message body))
    else Return (VDict body).
Proof.
  intros Hs Hj Hr.
  rewrite (make_request_response rt send self method endpoint data params w resp _ Hs Hj).
  rewrite (check_rate_limit_not_exhausted rt resp Hr), check_api_error_dict.
  destruct (truthy (error_code body)); reflexivity.
Qed.

(** X6.  The pipeline raises none of the four classes of [exceptions.py]:
    when the network, the decoder and the clock raise none of them, no
    failure of a call is a [ShotcutAPIError] of the taxonomy or one of its
    specialisations. *)
Theorem pipeline_raises_no_typed_error e :
  untyped_transport send -> untyped_clock rt ->
  snd (api._make_request rt send self method endpoint data params w) = Raise e ->
  exceptions.typed_error e = false.
Proof.
  intros Ht Hc. specialize (Ht (transmitted self method endpoint data params)).
  destruct (send (transmitted self method endpoint data params)) as [resp|e0] eqn:Hs.
  - destruct (json resp) as [body|e0] eqn:Hj.
    + rewrite (make_request_response rt send self method endpoint data params w resp body Hs Hj).
      destruct (headers_get (resp_headers resp) "X-RateLimit-Remaining") as [v|] eqn:Hr.
      * destruct (String.eqb v "0") eqn:Ev.
        -- apply String.eqb_eq in Ev. subst v.
           destruct (check_rate_limit_raises resp Hr) as (e1 & -> & He1).
           destruct (issubclass (exc_type e1) RequestException) eqn:Hsub;
             intros [= <-]; [reflexivity|].
           destruct He1 as [H|[H|[ts H]]].
           ++ unfold exceptions.typed_error. rewrite H. reflexivity.
           ++ unfold exceptions.typed_error. rewrite H. reflexivity.
           ++ exact (Hc ts e1 H).
        -- apply String.eqb_neq in Ev.
           rewrite (check_rate_limit_not_exhausted rt resp);
             [|rewrite Hr; congruence].
           destruct body as [| | | | |d|];
             try (cbn; intros [= <-]; reflexivity).
           rewrite check_api_error_dict.
           destruct (truthy (error_code d)); [|discriminate].
           cbn. intros [= <-]. reflexivity.
      * rewrite (check_rate_limit_not_exhausted rt resp); [|rewrite Hr; discriminate].
        destruct body as [| | | | |d|];
          try (cbn; intros [= <-]; reflexivity).
        rewrite check_api_error_dict.
        destruct (truthy (error_code d)); [|discriminate].
        cbn. intros [= <-]. reflexivity.
    + rewrite (make_request_json_fails resp e0 Hs Hj).
      destruct (issubclass (exc_type e0) RequestException); intros [= <-];
        [reflexivity|exact Ht].
  - rewrite (make_request_send_fails e0 Hs).
    destruct (issubclass (exc_type e0) RequestException); intros [= <-];
      [reflexivity|exact Ht].
Qed.

(** X7.  The pipeline returns a value in one case only: the transport
    answers, the body decodes to an object, the headers do not say that no
    requests remain, and the [error] entry of the body is absent or false.
    The value is then the decoded body, unchanged. *)
Theorem pipeline_returns_iff v :
  snd (api._make_request rt send self method endpoint data params w) = Return v
  <-> exists resp body,
        send (transmitted self method endpoint data params) = Return resp
        /\ json resp = Return (VDict body)
        /\ headers_get (resp_headers resp) "X-RateLimit-Remaining" <> Some "0"
        /\ truthy (error_code body) = false
        /\ v = VDict body.
Proof.
  split.
  - destruct (send (transmitted self method endpoint data params)) as [resp|e0] eqn:Hs.
    2:{ rewrite (make_request_send_fails e0 Hs).
        destruct (issubclass _ _); discriminate. }
    destruct (json resp) as [body|e0] eqn:Hj.
    2:{ rewrite (make_request_json_fails resp e0 Hs Hj).
        destruct (issubclass _ _); discriminate. }
    rewrite (make_request_response rt send self method endpoint data params w resp body Hs Hj).
    destruct (headers_get (resp_headers resp) "X-RateLimit-Remaining") as [x|] eqn:Hr.
    + destruct (String.eqb x "0") eqn:Ev.
      * apply String.eqb_eq in Ev. subst x.
        destruct (check_rate_limit_raises resp Hr) as (e1 & -> & _).
        destruct (issubclass _ _); discriminate.
      * apply String.eqb_neq in Ev.
        assert (Hne : Some x <> Some "0") by congruence. rewrite <- Hr in Hne.
        rewrite (check_rate_limit_not_exhausted rt resp Hne).
        destruct body as [| | | | |d|]; try (cbn; discriminate).
        rewrite check_api_error_dict.
        destruct (truthy (error_code d)) eqn:T; [cbn; discriminate|].
        intros [= <-]. exists resp, d. auto.
    + assert (Hne : @None string <> Some "0") by discriminate. rewrite <- Hr in Hne.
      rewrite (check_rate_limit_not_exhausted rt resp Hne).
      destruct body as [| | | | |d|]; try (cbn; discriminate).
      rewrite check_api_error_dict.
      destruct (truthy (error_code d)) eqn:T; [cbn; discriminate|].
      intros [= <-]. exists resp, d. auto.
  - intros (resp & body & Hs & Hj & Hr & T & ->).
    rewrite (make_request_response rt send self method endpoint data params w resp _ Hs Hj).
    rewrite (check_rate_limit_not_exhausted rt resp Hr), check_api_error_dict, T.
    reflexivity.
Qed.

End PipelineCases.

Section BodyError.
Variable rt : runtime.
Variable send : transport.
Variables (self : api.ShotcutAPI) (method endpoint : string).
Variables (data params : option dict) (w : wire).


End BodyError.



(** ** The resource methods *)

Lemma str_int_inj a b : str_int a = str_int b -> a = b.
Proof.
  unfold str_int. intros H.
  assert (Hn : forall z, Z.to_int z <> Decimal.Pos Decimal.Nil
                         /\ Z.to_int z <> Decimal.Neg Decimal.Nil).
  { intros z. split; intros E; pose proof (f_equal Z.of_int E) as E0;
      rewrite DecimalZ.of_to in E0; simpl in E0; subst z; discriminate E. }
  apply DecimalZ.to_int_inj.
  assert (Some (Z.to_int a) = Some (Z.to_int b)) as E.
  { rewrite <- (NilZero.isi (Z.to_int a)), <- (NilZero.isi (Z.to_int b));
      try apply Hn. rewrite H. reflexivity. }
  injection E as E. exact E.
Qed.


Ltac endpoint :=
  rewrite ?make_request_wire;
  unfold transmitted, sends_body, sends_params, api.set_if, api.set_if_not_none,
    given, given_flag, as_body, of_optional_str;
  cbn [truthy];
  repeat match goal with
         | |- context [String.eqb ?s ""] =>
             is_var s; destruct (String.eqb s "")
         end;
  reflexivity.

Section Resources.
Variable rt : runtime.
Variable send : transport.
Variables (self : api.ShotcutAPI) (w : wire).

(** X8.  The methods with optional text arguments transmit an argument
    only when it is given and not empty, in the order of the parameters:
    [update_account], [update_domain] and [update_pixel] transmit no body
    at all when nothing is left, [create_qr_code] and [update_qr_code]
    always transmit [data] (and [type]) as given. *)
Theorem optional_text_only_when_given (id : Z) (a b c : option string)
    (type : string) (data : value) :
  fst (api.update_account rt send self a b w)
  = (w ++ [sends_body self "PUT" "account/update"
             (as_body (given "email" a ++ given "password" b))])%list
  /\ fst (api.update_domain rt send self id a b w)
     = List.app w [sends_body self "PUT" ("domain/" ++ str_int id ++ "/update")
                     (as_body (given "redirectroot" a ++ given "redirect404" b)%list)]
  /\ fst (api.update_pixel rt send self id a b w)
     = List.app w [sends_body self "PUT" ("pixel/" ++ str_int id ++ "/update")
                     (as_body (given "name" a ++ given "tag" b)%list)]
  /\ fst (api.create_qr_code rt send self type data a b c w)
     = (w ++ [sends_body self "POST" "qr/add"
                (Some ([("type", VStr type); ("data", data)]
                       ++ given "background" a ++ given "foreground" b
                       ++ given "logo" c))])%list
  /\ fst (api.update_qr_code rt send self id data a b c w)
     = List.app w [sends_body self "PUT" ("qr/" ++ str_int id ++ "/update")
                     (Some ([("data", data)]
                            ++ given "background" a ++ given "foreground" b
                            ++ given "logo" c)%list)].
Proof.
  unfold api.update_account, api.update_domain, api.update_pixel,
    api.create_qr_code, api.update_qr_code.
  destruct a as [a|], b as [b|], c as [c|]; repeat split; endpoint.
Qed.

(** X9.  A flag is transmitted whenever it is not [None], also when it is
    [False], whereas an empty text is left out: [update_campaign] transmits
    [name] always (also when empty), [slug] when given and not empty, and
    [public] when not [None]; [update_channel] transmits the three texts
    that are given and not empty and [starred] when not [None], and no body
    when nothing is left. *)
Theorem flags_sent_when_not_none (id : Z) (name : string)
    (a b c : option string) (flag : option bool) :
  fst (api.update_campaign rt send self id name a flag w)
  = List.app w [sends_body self "PUT" ("campaign/" ++ str_int id ++ "/update")
                  (Some ([("name", VStr name)] ++ given "slug" a
                         ++ given_flag "public" flag)%list)]
  /\ fst (api.update_channel rt send self id a b c flag w)
     = List.app w [sends_body self "PUT" ("channel/" ++ str_int id ++ "/update")
                     (as_body (given "name" a ++ given "description" b
                               ++ given "color" c
                               ++ given_flag "starred" flag)%list)].
Proof.
  unfold api.update_campaign, api.update_channel.
  destruct a as [a|], b as [b|], c as [c|], flag as [flag|]; split; endpoint.
Qed.

End Resources.

Lemma str_int_no_slash z :
  forall_chars (fun c => negb (Ascii.eqb c "/")) (str_int z) = true.
Proof.
  unfold str_int.
  assert (He : forall u, forall_chars (fun c => negb (Ascii.eqb c "/"))
                           (NilEmpty.string_of_uint u) = true).
  { induction u; simpl; try exact IHu; reflexivity. }
  assert (Hu : forall u, forall_chars (fun c => negb (Ascii.eqb c "/"))
                           (NilZero.string_of_uint u) = true).
  { intros [| | | | | | | | | |]; try reflexivity; apply He. }
  destruct (Z.to_int z); simpl; apply Hu.
Qed.

(** The text after the last [/] is determined. *)
Lemma last_segment_unique a b x y :
  free "/" x = true -> free "/" y = true ->
  a ++ String "/" x = b ++ String "/" y -> a = b /\ x = y.
Proof.
  assert (Hno : forall u v, free "/" (u ++ String "/" v) = false).
  { intros u v. unfold free. induction u as [|c u IH]; simpl; [reflexivity|].
    rewrite IH. apply andb_false_r. }
  revert b. induction a as [|c a IH]; intros [|c' b] Hx Hy E; simpl in E.
  - injection E as ->. auto.
  - injection E as _ ->. rewrite Hno in Hx. discriminate.
  - injection E as _ <-. rewrite Hno in Hy. discriminate.
  - injection E as -> E. destruct (IH b Hx Hy E) as [-> ->]. auto.
Qed.

Lemma none_free_cons k v (d : dict) :
  v <> VNone -> none_free d -> none_free ((k, v) :: d).
Proof.
  intros Hv Hd k'. simpl. destruct (String.eqb k k'); [congruence|apply Hd].
Qed.

Lemma none_free_nil : none_free [].
Proof. intros k. discriminate. Qed.

Section MoreResources.
Variable rt : runtime.
Variable send : transport.
Variables (self : api.ShotcutAPI) (w : wire).

(** X10.  The methods that create a campaign, a channel or a pixel
    transmit every parameter under its key, an optional text that is left
    out as [None]: the body holds a [None] exactly when an optional
    argument is [None]. *)
Theorem create_sends_every_parameter (name type tag : string)
    (slug description color : option string) (public starred : bool) :
  fst (api.create_campaign rt send self name slug public w)
  = (w ++ [sends_body self "POST" "campaign/add"
             (Some [("name", VStr name); ("slug", of_optional_str slug);
                    ("public", VBool public)])])%list
  /\ (none_free [("name", VStr name); ("slug", of_optional_str slug);
                 ("public", VBool public)] <-> slug <> None)
  /\ fst (api.create_channel rt send self name description color starred w)
     = (w ++ [sends_body self "POST" "channel/add"
                (Some [("name", VStr name);
                       ("description", of_optional_str description);
                       ("color", of_optional_str color);
                       ("starred", VBool starred)])])%list
  /\ (none_free [("name", VStr name);
                 ("description", of_optional_str description);
                 ("color", of_optional_str color);
                 ("starred", VBool starred)]
      <-> description <> None /\ color <> None)
  /\ fst (api.create_pixel rt send self type name tag w)
     = (w ++ [sends_body self "POST" "pixel/add"
                (Some [("type", VStr type); ("name", VStr name);
                       ("tag", VStr tag)])])%list.
Proof.
  unfold api.create_campaign, api.create_channel, api.create_pixel.
  rewrite !make_request_wire.
  split; [reflexivity|]. split; [|split; [reflexivity|split; [|reflexivity]]].
  - split.
    + intros H ->. exact (H "slug" eq_refl).
    + intros H. destruct slug as [s|]; [|congruence].
      repeat (apply none_free_cons; [discriminate|]). apply none_free_nil.
  - split.
    + intros H. split; intros ->;
        [exact (H "description" eq_refl)|].
      destruct description; exact (H "color" eq_refl).
    + intros [H1 H2]. destruct description as [s|]; [|congruence].
      destruct color as [s'|]; [|congruence].
      repeat (apply none_free_cons; [discriminate|]). apply none_free_nil.
Qed.

(** X11.  Every list method transmits one [GET] without a body whose
    parameters are [limit] and [page] as given, whatever the numbers (zero
    and negative ones included); [list_links] adds [order] always and
    [short] only when it is given and not empty. *)
Theorem list_methods_send_paging (limit page id : Z) (order : string)
    (short : option string) :
  let paging := [("limit", VInt limit); ("page", VInt page)] in
  fst (api.list_domains rt send self limit page w)
  = (w ++ [sends_params self "domains" paging])%list
  /\ fst (api.list_overlays rt send self limit page w)
     = (w ++ [sends_params self "overlay" paging])%list
  /\ fst (api.list_campaigns rt send self limit page w)
     = (w ++ [sends_params self "campaigns" paging])%list
  /\ fst (api.list_channels rt send self limit page w)
     = (w ++ [sends_params self "channels" paging])%list
  /\ fst (api.list_channel_items rt send self id limit page w)
     = List.app w [sends_params self ("channel/" ++ str_int id) paging]
  /\ fst (api.list_splash rt send self limit page w)
     = (w ++ [sends_params self "splash" paging])%list
  /\ fst (api.list_pixels rt send self limit page w)
     = (w ++ [sends_params self "pixels" paging])%list
  /\ fst (api.list_qr_codes rt send self limit page w)
     = (w ++ [sends_params self "qr" paging])%list
  /\ fst (api.list_links rt send self limit page order short w)
     = (w ++ [sends_params self "urls"
                (paging ++ [("order", VStr order)] ++ given "short" short)])%list.
Proof.
  cbv zeta.
  unfold api.list_domains, api.list_overlays, api.list_campaigns,
    api.list_channels, api.list_channel_items, api.list_splash,
    api.list_pixels, api.list_qr_codes, api.list_links.
  destruct short as [s|]; repeat split; endpoint.
Qed.


(** X13.  An identifier is written into the URL in decimal, so that two
    calls of a method address the same resource for the same identifier
    only; so it is for the two identifiers of [assign_link_to_campaign],
    and for the two identifiers and the item type, written as it is, of
    [assign_item_to_channel]. *)
Theorem resource_urls_distinct (a b c d : Z) (t t' : string) :
  (fst (api.get_link rt send self a w) = fst (api.get_link rt send self b w)
   <-> a = b)
  /\ (fst (api.delete_link rt send self a w)
      = fst (api.delete_link rt send self b w) <-> a = b)
  /\ (fst (api.get_qr_code rt send self a w)
      = fst (api.get_qr_code rt send self b w) <-> a = b)
  /\ (fst (api.delete_qr_code rt send self a w)
      = fst (api.delete_qr_code rt send self b w) <-> a = b)
  /\ (fst (api.delete_domain rt send self a w)
      = fst (api.delete_domain rt send self b w) <-> a = b)
  /\ (fst (api.delete_campaign rt send self a w)
      = fst (api.delete_campaign rt send self b w) <-> a = b)
  /\ (fst (api.delete_channel rt send self a w)
      = fst (api.delete_channel rt send self b w) <-> a = b)
  /\ (fst (api.delete_pixel rt send self a w)
      = fst (api.delete_pixel rt send self b w) <-> a = b)
  /\ (fst (api.assign_link_to_campaign rt send self a c w)
      = fst (api.assign_link_to_campaign rt send self b d w)
      <-> a = b /\ c = d)
  /\ (fst (api.assign_item_to_channel rt send self a t c w)
      = fst (api.assign_item_to_channel rt send self b t' d w)
      <-> a = b /\ t = t' /\ c = d).
Proof.
  unfold api.get_link, api.delete_link, api.get_qr_code, api.delete_qr_code,
    api.delete_domain, api.delete_campaign, api.delete_channel,
    api.delete_pixel, api.assign_link_to_campaign, api.assign_item_to_channel.
  rewrite !make_request_wire. unfold transmitted.
  assert (Hurl : forall m u v (x y : option dict),
            (w ++ [mk_request m (api.base_url self ++ "/" ++ u) (api.headers self) x y])%list
            = (w ++ [mk_request m (api.base_url self ++ "/" ++ v) (api.headers self) x y])%list
            -> u = v).
  { intros m u v x y H. apply app_inv_head in H. injection H as H.
    apply sapp_inv_head in H. simpl in H. injection H as H. exact H. }
  assert (Hmid : forall pre suf x y,
            pre ++ str_int x ++ suf = pre ++ str_int y ++ suf -> x = y).
  { intros pre suf x y H. apply sapp_inv_head, sapp_inv_tail in H.
    apply str_int_inj. exact H. }
  repeat match goal with |- _ /\ _ => split end;
    (split; [intros H; apply Hurl in H
            |first [intros ->|intros [-> ->]|intros (-> & -> & ->)];
             reflexivity]).
  1-8: try (apply (Hmid _ _ _ _ H)).
  - apply (Hmid "url/" ""). rewrite !sapp_nil_r. exact H.
  - apply (Hmid "qr/" ""). rewrite !sapp_nil_r. exact H.
  - apply sapp_inv_head in H.
    change (str_int a ++ "/assign/" ++ str_int c)
      with (str_int a ++ String "/" ("assign/" ++ str_int c)) in H.
    change (str_int b ++ "/assign/" ++ str_int d)
      with (str_int b ++ String "/" ("assign/" ++ str_int d)) in H.
    apply (span_unique (fun c => negb (Ascii.eqb c "/"))) in H;
      try apply str_int_no_slash; try reflexivity.
    destruct H as [Ha Hc]. apply sapp_inv_head in Hc.
    split; apply str_int_inj; assumption.
  - apply sapp_inv_head in H.
    change (str_int a ++ "/assign/" ++ t ++ "/" ++ str_int c)
      with (str_int a ++ String "/" ("assign/" ++ t ++ "/" ++ str_int c)) in H.
    change (str_int b ++ "/assign/" ++ t' ++ "/" ++ str_int d)
      with (str_int b ++ String "/" ("assign/" ++ t' ++ "/" ++ str_int d)) in H.
    apply (span_unique (fun c => negb (Ascii.eqb c "/"))) in H;
      try apply str_int_no_slash; try reflexivity.
    destruct H as [Ha Hc]. apply sapp_inv_head in Hc.
    change (t ++ "/" ++ str_int c) with (t ++ String "/" (str_int c)) in Hc.
    change (t' ++ "/" ++ str_int d) with (t' ++ String "/" (str_int d)) in Hc.
    apply last_segment_unique in Hc; try apply str_int_no_slash.
    destruct Hc as [Ht Hc].
    repeat split; try assumption; apply str_int_inj; assumption.
Qed.

End MoreResources.

(** ** Record construction, case by case *)

Lemma filter_nil {A} (f : A -> bool) (l : list A) :
  (forall x, In x l -> f x = false) -> List.filter f l = [].
Proof.
  induction l as [|a l IH]; simpl; intros H; [reflexivity|].
  rewrite (H a (or_introl eq_refl)). apply IH. intros x Hx. apply H. right. exact Hx.
Qed.

Lemma dict_get_in_keys (d : dict) k v : dict_get d k = Some v -> In k (keys d).
Proof.
  induction d as [|[k' v'] d IH]; simpl; [discriminate|].
  destruct (String.eqb k' k) eqn:E.
  - apply String.eqb_eq in E. auto.
  - intros H. right. exact (IH H).
Qed.

Lemma in_keys_dict_get (d : dict) k : In k (keys d) -> exists v, dict_get d k = Some v.
Proof.
  induction d as [|[k' v'] d IH]; simpl; [contradiction|].
  destruct (String.eqb k' k) eqn:E; [eauto|].
  intros [H|H]; [apply String.eqb_neq in E; contradiction|exact (IH H)].
Qed.

Section ConstructionCases.
Variable rt : runtime.

Lemma init_succeeds (cls : dataclass) (d d' : dict) :
  keys d' = keys d -> ~ keys_mismatch cls d ->
  Dataclasses.init rt cls d'
  = Return (mk_instance (__name__ cls) (map (attr_of d') (fields cls))).
Proof.
  intros Hk Hm. unfold Dataclasses.init.
  assert (unexpected cls d' = []) as ->.
  { unfold unexpected. apply filter_nil. intros k Hin. rewrite Hk in Hin.
    apply negb_false_iff. destruct (mem k (field_names cls)) eqn:E; [reflexivity|].
    exfalso. apply Hm. left. exists k. split; [exact Hin|].
    apply mem_false. exact E. }
  assert (missing cls d' = []) as ->; [|reflexivity].
  unfold missing. rewrite filter_nil; [reflexivity|]. intros f Hin.
  destruct (f_default f) eqn:Ed; [reflexivity|].
  apply negb_false_iff. unfold dict_contains.
  destruct (dict_get d' (f_name f)) eqn:G; [reflexivity|].
  exfalso. apply Hm. right. exists f. split; [exact Hin|]. split; [exact Ed|].
  intros Hk'. rewrite <- Hk in Hk'. apply in_keys_dict_get in Hk'.
  destruct Hk' as [v Hv]. congruence.
Qed.

Lemma attr_given (kwargs : dict) (fs : list Dataclasses.field) k v :
  In k (map f_name fs) -> dict_get kwargs k = Some v ->
  dict_get (map (attr_of kwargs) fs) k = Some v.
Proof.
  induction fs as [|f fs IH]; simpl; [contradiction|]. intros Hin Hv.
  destruct (String.eqb (f_name f) k) eqn:E.
  - apply String.eqb_eq in E. rewrite E, Hv. reflexivity.
  - destruct Hin as [Hin|Hin]; [apply String.eqb_neq in E; contradiction|].
    exact (IH Hin Hv).
Qed.

Lemma attr_default (kwargs : dict) (fs : list Dataclasses.field) f v :
  List.NoDup (map f_name fs) -> In f fs ->
  dict_get kwargs (f_name f) = None -> f_default f = Some v ->
  dict_get (map (attr_of kwargs) fs) (f_name f) = Some v.
Proof.
  induction fs as [|f0 fs IH]; simpl; [contradiction|].
  intros Hnd [->|Hin] Hk Hd.
  - rewrite String.eqb_refl, Hk, Hd. reflexivity.
  - inversion Hnd as [|? ? Hn Hnd']; subst.
    destruct (String.eqb (f_name f0) (f_name f)) eqn:E.
    + apply String.eqb_eq in E. exfalso. apply Hn. rewrite E.
      apply in_map. exact Hin.
    + exact (IH Hnd' Hin Hk Hd).
Qed.

Lemma convert_entry_type_error l k (h : heap) d v :
  h !! l = Some d -> dict_get d k = Some v ->
  truthy v = true -> (forall s, v <> VStr s) ->
  models.convert_entry rt l k h
  = (h, Raise (Exc TypeError
         (VStr ("strptime() argument 1 must be str, not " ++ type_name v)))).
Proof.
  intros Hl Hk Ht Hs.
  unfold models.convert_entry, pbind, contains, getitem, setitem, lift, ret, deref.
  rewrite Hl. simpl. unfold dict_contains. rewrite Hk, Hl. simpl. rewrite Hk.
  unfold models.convert_datetime. rewrite Ht. cbn [negb].
  destruct v; try reflexivity. exfalso. exact (Hs _ eq_refl).
Qed.

Lemma create_model_type_error cls l (h : heap) d v :
  h !! l = Some d -> dict_get d "created_at" = Some v ->
  truthy v = true -> (forall s, v <> VStr s) ->
  models.create_model_from_response rt cls (Some l) h
  = (h, Raise (Exc TypeError
         (VStr ("strptime() argument 1 must be str, not " ++ type_name v)))).
Proof.
  intros Hl Hk Ht Hs.
  unfold models.create_model_from_response.
  unfold pbind at 1. unfold read at 1, deref. rewrite Hl. simpl.
  destruct d as [|kv d0] eqn:Ed; [discriminate|]. rewrite <- Ed in *. simpl.
  unfold pbind at 1.
  rewrite (convert_entry_type_error l "created_at" h d v Hl Hk Ht Hs).
  reflexivity.
Qed.

Lemma validate_date_strptime s :
  s <> "" ->
  utils.validate_date rt (Some s)
  = Return (match strptime rt (VStr s) "%Y-%m-%d %H:%M:%S" with
            | Return _ => true
            | Raise _ => false
            end).
Proof.
  intros Hne. unfold utils.validate_date. cbn [of_optional_str truthy].
  destruct (String.eqb s "") eqn:E; [apply String.eqb_eq in E; contradiction|].
  cbn [negb].
  destruct (strptime_str_outcome rt s "%Y-%m-%d %H:%M:%S") as [[t ->]|[a ->]];
    reflexivity.
Qed.

Lemma convert_datetime_strptime s :
  s <> "" ->
  models.convert_datetime rt (VStr s)
  = Return (match strptime rt (VStr s) "%Y-%m-%d %H:%M:%S" with
            | Return t => VDatetime t
            | Raise _ => VNone
            end).
Proof.
  intros Hne. unfold models.convert_datetime. cbn [truthy].
  destruct (String.eqb s "") eqn:E; [apply String.eqb_eq in E; contradiction|].
  cbn [negb].
  destruct (strptime_str_outcome rt s "%Y-%m-%d %H:%M:%S") as [[t ->]|[a ->]];
    reflexivity.
Qed.

(** X14.  Record construction from no data: for [None] and for an empty
    mapping the result is [None] for every record kind, without an error
    about the required fields that are missing, and the store is left as
    it is. *)
Theorem no_data_gives_none (cls : dataclass) (l : loc) (h : heap) :
  h !! l = Some [] ->
  models.create_model_from_response rt cls None h = (h, Return None)
  /\ models.create_model_from_response rt cls (Some l) h = (h, Return None).
Proof.
  intros Hl. split; [reflexivity|].
  unfold models.create_model_from_response, pbind, read, ret, deref.
  rewrite Hl. reflexivity.
Qed.

(** X15.  Record construction succeeds exactly when the keys of the
    mapping match the declaration: every key names a field and every field
    without a default is a key.  The record then has the name of the class;
    an attribute holds the value of its key as it is, whatever its type (a
    date entry converted), or the declared default when the key is
    absent. *)
Theorem construction_succeeds_iff_keys_match (cls : dataclass) (l : loc)
    (h : heap) (d : dict) :
  h !! l = Some d -> wf_dict d -> d <> [] -> dates_are_text d ->
  List.NoDup (field_names cls) ->
  let out := snd (models.create_model_from_response rt cls (Some l) h) in
  ((exists obj, out = Return (Some obj)) <-> ~ keys_mismatch cls d)
  /\ (forall obj, out = Return (Some obj) ->
        class_of obj = __name__ cls
        /\ (forall k v, dict_get d k = Some v ->
              getattr obj k = Some (if is_date_key k then parsed rt v else v))
        /\ (forall f v, In f (fields cls) -> dict_get d (f_name f) = None ->
              f_default f = Some v -> getattr obj (f_name f) = Some v)).
Proof.
  intros Hl Hwf Hne Hd Hnd. cbv zeta.
  rewrite (create_model_run rt cls l h d Hl Hwf Hne Hd). cbn [snd].
  unfold construct. split.
  - split.
    + intros [obj Ho] Hm.
      rewrite (mismatch_rejected rt cls d _ (keys_dates_replaced rt d) Hm) in Ho.
      discriminate Ho.
    + intros Hm. rewrite (init_succeeds cls d _ (keys_dates_replaced rt d) Hm).
      eexists. reflexivity.
  - intros obj Ho.
    assert (Hm : ~ keys_mismatch cls d).
    { intros Hm.
      rewrite (mismatch_rejected rt cls d _ (keys_dates_replaced rt d) Hm) in Ho.
      discriminate Ho. }
    rewrite (init_succeeds cls d _ (keys_dates_replaced rt d) Hm) in Ho.
    injection Ho as <-. unfold getattr. cbn [class_of attrs].
    split; [reflexivity|]. split.
    + intros k v Hk. apply attr_given.
      * destruct (mem k (field_names cls)) eqn:E.
        -- unfold mem in E. apply existsb_exists in E. destruct E as [k' [Hin E]].
           apply String.eqb_eq in E. subst k'. exact Hin.
        -- exfalso. apply Hm. left. exists k.
           split; [exact (dict_get_in_keys d k v Hk)|apply mem_false; exact E].
      * rewrite dict_get_dates_replaced, Hk. reflexivity.
    + intros f v Hin Hk Hdef. apply attr_default; try assumption.
      rewrite dict_get_dates_replaced, Hk. reflexivity.
Qed.

(** X16.  A date that does not parse is dropped without an error.  When
    construction succeeds and a date entry was given as text, the record
    holds a date-time if [validate_date] accepts the text and the text is
    not empty, and [None] otherwise; it never holds the text. *)
Theorem invalid_date_becomes_none (cls : dataclass) (l : loc) (h : heap)
    (d : dict) (k s : string) (obj : instance) :
  h !! l = Some d -> wf_dict d -> dates_are_text d ->
  In k date_keys -> dict_get d k = Some (VStr s) ->
  snd (models.create_model_from_response rt cls (Some l) h) = Return (Some obj) ->
  (exists t, getattr obj k = Some (VDatetime t)
             /\ s <> "" /\ utils.validate_date rt (Some s) = Return true)
  \/ (getattr obj k = Some VNone
      /\ (s = "" \/ utils.validate_date rt (Some s) = Return false)).
Proof.
  intros Hl Hwf Hd Hin Hk.
  assert (Hne : d <> []) by (intros ->; discriminate Hk).
  rewrite (create_model_run rt cls l h d Hl Hwf Hne Hd). cbn [snd].
  unfold construct. intros Ho.
  assert (Hm : ~ keys_mismatch cls d).
  { intros Hm.
    rewrite (mismatch_rejected rt cls d _ (keys_dates_replaced rt d) Hm) in Ho.
    discriminate Ho. }
  rewrite (init_succeeds cls d _ (keys_dates_replaced rt d) Hm) in Ho.
  injection Ho as <-. unfold getattr. cbn [attrs].
  assert (Hf : In k (field_names cls)).
  { destruct (mem k (field_names cls)) eqn:E.
    - unfold mem in E. apply existsb_exists in E. destruct E as [k' [Hin' E]].
      apply String.eqb_eq in E. subst k'. exact Hin'.
    - exfalso. apply Hm. left. exists k.
      split; [exact (dict_get_in_keys d k _ Hk)|apply mem_false; exact E]. }
  rewrite (attr_given (dates_replaced rt d) (fields cls) k (parsed rt (VStr s)) Hf).
  2:{ rewrite dict_get_dates_replaced, Hk. simpl.
      rewrite (is_date_key_In k Hin). reflexivity. }
  destruct (String.eqb s "") eqn:Es.
  - apply String.eqb_eq in Es. subst s. right. split; [|left; reflexivity].
    unfold parsed.
    destruct (strptime_str_outcome rt "" "%Y-%m-%d %H:%M:%S") as [[t Ht]|[a ->]];
      [|reflexivity].
    apply strptime_sound in Ht.
    destruct Ht as (Y & m & d0 & ws & H & M & S & day & E & (_ & HY & _) & _).
    destruct Y; [simpl in HY; lia|discriminate E].
  - apply String.eqb_neq in Es. rewrite (validate_date_strptime s Es).
    unfold parsed.
    destruct (strptime rt (VStr s) "%Y-%m-%d %H:%M:%S") as [t|e].
    + left. exists t. auto.
    + right. auto.
Qed.

(** X17.  A date entry that holds an object other than text (a number, a
    date-time) and counts as true is not converted: construction raises the
    [TypeError] of the parser, which neither of the two handlers catches,
    and writes nothing. *)
Theorem non_text_date_raises_type_error (cls : dataclass) (l : loc) (h : heap)
    (d : dict) (v : value) :
  h !! l = Some d -> dict_get d "created_at" = Some v ->
  truthy v = true -> (forall s, v <> VStr s) ->
  models.create_model_from_response rt cls (Some l) h
  = (h, Raise (Exc TypeError
         (VStr ("strptime() argument 1 must be str, not " ++ type_name v))))
  /\ issubclass TypeError ValueError = false.
Proof.
  intros Hl Hk Ht Hs. split; [|reflexivity].
  exact (create_model_type_error cls l h d v Hl Hk Ht Hs).
Qed.

(** X18.  Construction can be done once per mapping.  After a call that
    converted the text of [created_at] in the caller's mapping, a second
    call on the same mapping meets a date-time where it expects text and
    raises [TypeError], for any record kind and whatever the first call
    returned. *)
Theorem second_construction_raises (cls cls' : dataclass) (l : loc) (h : heap)
    (d : dict) (s : string) :
  h !! l = Some d -> wf_dict d -> dates_are_text d ->
  dict_get d "created_at" = Some (VStr s) ->
  s <> "" -> utils.validate_date rt (Some s) = Return true ->
  let h1 := fst (models.create_model_from_response rt cls (Some l) h) in
  models.create_model_from_response rt cls' (Some l) h1
  = (h1, Raise (Exc TypeError
          (VStr "strptime() argument 1 must be str, not datetime.datetime"))).
Proof.
  intros Hl Hwf Hd Hk Hne Hv. cbv zeta.
  assert (Hne' : d <> []) by (intros ->; discriminate Hk).
  rewrite (create_model_run rt cls l h d Hl Hwf Hne' Hd). cbn [fst].
  rewrite (validate_date_strptime s Hne) in Hv.
  destruct (strptime rt (VStr s) "%Y-%m-%d %H:%M:%S") as [t|e] eqn:Et;
    [|discriminate Hv].
  apply (create_model_type_error cls' l _ (dates_replaced rt d) (VDatetime t)).
  - apply lookup_insert_eq.
  - rewrite dict_get_dates_replaced, Hk. simpl. unfold parsed. rewrite Et.
    reflexivity.
  - reflexivity.
  - discriminate.
Qed.

(** X19.  The date validator and the converter of the models agree on every
    text that is not empty: [validate_date] accepts it exactly when
    [convert_datetime] yields a date-time, and rejects it exactly when
    [convert_datetime] yields [None].  They differ on the empty text and on
    [None], which the validator accepts and the converter turns into
    [None]. *)
Theorem validator_agrees_with_converter (s : string) :
  s <> "" ->
  (utils.validate_date rt (Some s) = Return true
   <-> exists t, models.convert_datetime rt (VStr s) = Return (VDatetime t))
  /\ (utils.validate_date rt (Some s) = Return false
      <-> models.convert_datetime rt (VStr s) = Return VNone)
  /\ utils.validate_date rt (Some "") = Return true
  /\ models.convert_datetime rt (VStr "") = Return VNone
  /\ utils.validate_date rt None = Return true
  /\ models.convert_datetime rt VNone = Return VNone.
Proof.
  intros Hne.
  rewrite (validate_date_strptime s Hne), (convert_datetime_strptime s Hne).
  destruct (strptime rt (VStr s) "%Y-%m-%d %H:%M:%S") as [t|e].
  - repeat split; try reflexivity; try discriminate; eauto.
  - repeat split; try reflexivity; try discriminate.
    intros [t Ht]. discriminate Ht.
Qed.

End ConstructionCases.

(** ** Dates: rendering, parsing and the calendar *)

Lemma in_upto (n k : Z) :
  0 <= n < k -> In n (map Z.of_nat (seq 0 (Z.to_nat k))).
Proof.
  intros H. apply in_map_iff. exists (Z.to_nat n). split; [lia|].
  apply in_seq. lia.
Qed.

Lemma renders_4 n : 0 <= n <= 9999 -> renders 4 n = true.
Proof.
  intros H.
  assert (E : forallb (renders 4) (map Z.of_nat (seq 0 (Z.to_nat 10000))) = true)
    by (vm_compute; reflexivity).
  rewrite forallb_forall in E. apply E. apply in_upto. lia.
Qed.

Lemma renders_2 n : 0 <= n <= 99 -> renders 2 n = true.
Proof.
  intros H.
  assert (E : forallb (renders 2) (map Z.of_nat (seq 0 (Z.to_nat 100))) = true)
    by (vm_compute; reflexivity).
  rewrite forallb_forall in E. apply E. apply in_upto. lia.
Qed.

Lemma renders_numeral width n :
  renders width n = true ->
  numeral width width (zfill width (str_int n))
  /\ number (zfill width (str_int n)) = n.
Proof.
  unfold renders, numeral. cbv zeta.
  rewrite !andb_true_iff, Nat.eqb_eq, Z.eqb_eq. intros [[H1 H2] H3].
  rewrite H2. repeat split; auto.
Qed.

Lemma number_from_range t : forall acc,
  forall_chars isdecimal t = true -> 0 <= acc ->
  acc * 10 ^ Z.of_nat (String.length t) <= number_from acc t
  /\ number_from acc t < (acc + 1) * 10 ^ Z.of_nat (String.length t).
Proof.
  induction t as [|c t IH]; intros acc Hd Ha.
  - simpl. lia.
  - simpl in Hd. apply andb_true_iff in Hd. destruct Hd as [Hc Hd].
    assert (Hv : 0 <= digit_value c <= 9) by chars.
    cbn [number_from String.length].
    specialize (IH (10 * acc + digit_value c) Hd ltac:(lia)).
    rewrite Nat2Z.inj_succ, Z.pow_succ_r by lia.
    assert (0 < 10 ^ Z.of_nat (String.length t)) by (apply Z.pow_pos_nonneg; lia).
    nia.
Qed.

Lemma number_nonneg t : forall_chars isdecimal t = true -> 0 <= number t.
Proof.
  intros H. destruct (number_from_range t 0 H ltac:(lia)) as [H1 _].
  unfold number. lia.
Qed.

Lemma number_bound (n : nat) w :
  numeral n n w -> number w < 10 ^ Z.of_nat n.
Proof.
  intros (Hd & Hlo & Hhi).
  destruct (number_from_range w 0 Hd ltac:(lia)) as [_ H2].
  assert (String.length w = n) as E by lia. rewrite E in H2.
  unfold number. lia.
Qed.

Section Dates.
Variable rt : runtime.

(** The parser on a text that has the shape of the format. *)
Lemma strptime_fields Y m d day ws H M S :
  numeral 4 4 Y -> numeral 1 2 m -> 1 <= number m <= 12 ->
  day_text d day -> 1 <= day <= 31 ->
  ws <> "" -> forall_chars isspace ws = true ->
  numeral 1 2 H -> number H <= 23 ->
  numeral 1 2 M -> number M <= 59 -> numeral 1 2 S -> number S <= 61 ->
  strptime rt
    (VStr (Y ++ "-" ++ m ++ "-" ++ d ++ ws ++ H ++ ":" ++ M ++ ":" ++ S))
    "%Y-%m-%d %H:%M:%S"
  = datetime_new (number Y) (number m) day (number H) (number M) (number S).
Proof.
  intros HY Hm Hmr Hd Hdr Hne Hws HH HHr HM HMr HS HSr.
  unfold strptime. rewrite pattern_of_format. cbn [String.append].
  rewrite (match_pattern Y m d day ws H M S HY Hm Hmr Hd Hdr Hne Hws
             HH HHr HM HMr HS HSr).
  cbn [rest groups]. change (negb (String.eqb "" "")) with false. cbv iota.
  exact (convert_fields rt Y m d day H M S _ HY Hm Hd HH HM HS eq_refl).
Qed.

Lemma datetime_new_test y m d H M S :
  datetime_new y m d H M S
  = if valid_datetimeb y m d H M S then Return (mk_datetime y m d H M S)
    else match datetime_new y m d H M S with
         | Return t => Return t
         | Raise e => Raise e
         end.
Proof.
  destruct (valid_datetimeb y m d H M S) eqn:E.
  - unfold valid_datetimeb in E. rewrite !andb_true_iff in E.
    destruct E as [[[[[[[[[[[E1 E2] E3] E4] E5] E6] E7] E8] E9] E10] E11] E12].
    unfold datetime_new. rewrite E1, E2, E3, E4, E5, E6, E7, E8, E9, E10, E11, E12.
    reflexivity.
  - destruct (datetime_new y m d H M S); reflexivity.
Qed.

Lemma datetime_new_invalid y m d H M S :
  valid_datetimeb y m d H M S = false ->
  exists a, datetime_new y m d H M S = Raise (Exc ValueError a).
Proof.
  intros E. destruct (datetime_new_outcome y m d H M S) as [[t Ht]|Hr]; [|exact Hr].
  exfalso.
  assert (Hv : valid_datetime y m d H M S) by (apply datetime_new_valid; eauto).
  destruct Hv as (? & ? & ? & ? & ? & ?).
  unfold valid_datetimeb in E.
  repeat match goal with
         | H : _ <= _ <= _ |- _ => destruct H
         end.
  repeat match goal with
         | H : ?a <= ?b |- _ => apply Z.leb_le in H; rewrite H in E
         end.
  discriminate E.
Qed.

(** X20.  Rendering and parsing a date-time are inverse to each other: the
    text that [str] gives for a moment of the calendar, as in the message
    of the rate limit error, is accepted by [validate_date] and converted
    back to the same moment by [convert_datetime]. *)
Theorem rendered_date_parses_back (t : datetime) :
  valid t ->
  models.convert_datetime rt (VStr (str rt (VDatetime t))) = Return (VDatetime t)
  /\ utils.validate_date rt (Some (str rt (VDatetime t))) = Return true.
Proof.
  intros (Hy & Hm & Hd & HH & HM & HS).
  pose proof (days_in_month_le (year t) (month t)) as Hle.
  destruct (renders_numeral 4 (year t) (renders_4 (year t) ltac:(lia))) as [NY EY].
  destruct (renders_numeral 2 (month t) (renders_2 (month t) ltac:(lia))) as [Nm Em].
  destruct (renders_numeral 2 (day t) (renders_2 (day t) ltac:(lia))) as [Nd Ed].
  destruct (renders_numeral 2 (hour t) (renders_2 (hour t) ltac:(lia))) as [NH EH].
  destruct (renders_numeral 2 (minute t) (renders_2 (minute t) ltac:(lia))) as [NM EM].
  destruct (renders_numeral 2 (second t) (renders_2 (second t) ltac:(lia))) as [NS ES].
  pose proof (fun w (Hw : numeral 2 2 w) =>
                numeral_weaken 2 2 1 2 w Hw ltac:(lia) ltac:(lia)) as W.
  assert (Hp : strptime rt (VStr (str rt (VDatetime t))) "%Y-%m-%d %H:%M:%S"
               = Return t).
  { cbn [str]. unfold str_datetime.
    rewrite (strptime_fields _ _ _ (day t) " " _ _ _ NY (W _ Nm)
               ltac:(lia) (or_introl (conj (W _ Nd) (eq_sym Ed))) ltac:(lia)
               ltac:(discriminate) eq_refl (W _ NH) ltac:(lia) (W _ NM)
               ltac:(lia) (W _ NS) ltac:(lia)).
    rewrite EY, Em, EH, EM, ES, datetime_new_test.
    assert (valid_datetimeb (year t) (month t) (day t) (hour t) (minute t)
              (second t) = true) as ->.
    { unfold valid_datetimeb. rewrite !andb_true_iff, !Z.leb_le. lia. }
    destruct t; reflexivity. }
  assert (Hne : str rt (VDatetime t) <> "").
  { cbn [str]. unfold str_datetime. destruct NY as (_ & Hlen & _).
    destruct (zfill 4 (str_int (year t))); [simpl in Hlen; lia|discriminate]. }
  rewrite (convert_datetime_strptime rt _ Hne), (validate_date_strptime rt _ Hne), Hp.
  split; reflexivity.
Qed.

(** X21.  The validator checks the calendar.  On a text of the shape
    [Y-m-d H:M:S] whose fields are in the ranges that the format admits (a
    year of four digits, month 1 to 12, day 1 to 31, hour 0 to 23, minute 0
    to 59, second 0 to 61), [validate_date] answers true exactly when the
    year is not 0, the day exists in that month of that year (29 February
    in leap years only) and the second is below 60. *)
Theorem validate_date_checks_calendar (Y m d H M S : string) :
  date_time_shape Y m d H M S ->
  utils.validate_date rt
    (Some (Y ++ "-" ++ m ++ "-" ++ d ++ " " ++ H ++ ":" ++ M ++ ":" ++ S))
  = Return ((1 <=? number Y)
            && (number d <=? days_in_month (number Y) (number m))
            && (number S <=? 59)).
Proof.
  intros (HY & Hm & Hd & HH & HM & HS & Hmr & Hdr & HHr & HMr & HSr).
  assert (Hne : Y ++ "-" ++ m ++ "-" ++ d ++ " " ++ H ++ ":" ++ M ++ ":" ++ S <> "").
  { destruct HY as (_ & Hlen & _).
    destruct Y; [simpl in Hlen; lia|discriminate]. }
  rewrite (validate_date_strptime rt _ Hne).
  rewrite (strptime_fields Y m d (number d) " " H M S HY Hm Hmr
             (or_introl (conj Hd eq_refl)) Hdr ltac:(discriminate) eq_refl
             HH HHr HM HMr HS HSr).
  f_equal.
  assert (B : forall w hi, numeral 1 hi w -> 0 <= number w).
  { intros w hi Hw. apply number_nonneg. exact (numeral_decimal _ _ _ Hw). }
  pose proof (B _ _ HH). pose proof (B _ _ HM). pose proof (B _ _ HS).
  assert (HYu : number Y <= 9999).
  { pose proof (number_bound 4 Y HY) as Hb.
    change (10 ^ Z.of_nat 4) with 10000 in Hb. lia. }
  destruct (valid_datetimeb (number Y) (number m) (number d) (number H)
              (number M) (number S)) eqn:E.
  - rewrite datetime_new_test, E. symmetry.
    unfold valid_datetimeb in E. rewrite !andb_true_iff, !Z.leb_le in E.
    rewrite !andb_true_iff, !Z.leb_le. lia.
  - destruct (datetime_new_invalid _ _ _ _ _ _ E) as [a ->]. symmetry.
    unfold valid_datetimeb in E.
    destruct ((1 <=? number Y)
              && (number d <=? days_in_month (number Y) (number m))
              && (number S <=? 59)) eqn:E'; [|reflexivity].
    rewrite !andb_true_iff, !Z.leb_le in E'.
    assert (valid_datetimeb (number Y) (number m) (number d) (number H)
              (number M) (number S) = true) as E2.
    { unfold valid_datetimeb. rewrite !andb_true_iff, !Z.leb_le. lia. }
    unfold valid_datetimeb in E2. congruence.
Qed.

End Dates.

(** ** Cleaning, again *)

Lemma filter_present_lookup (d : dict) k :
  wf_dict d ->
  dict_get (List.filter present d) k
  = match dict_get d k with
    | Some VNone => None
    | r => r
    end.
Proof.
  unfold wf_dict. induction d as [|[k' v] d IH]; intros Hwf; [reflexivity|].
  inversion Hwf as [|? ? Hn Hd]; subst. specialize (IH Hd).
  cbn [List.filter dict_get]. unfold present at 1. cbn [snd].
  destruct (String.eqb k' k) eqn:E.
  - apply String.eqb_eq in E. subst k'.
    destruct (is_none v) eqn:Ev; cbn [negb].
    + destruct v; try discriminate Ev.
      apply dict_get_not_in. intros Hin. apply Hn.
      unfold keys in *. apply in_map_iff in Hin. destruct Hin as [[k0 v0] [Hk Hin]].
      apply filter_In in Hin. apply in_map_iff. exists (k0, v0). tauto.
    + cbn [dict_get]. rewrite String.eqb_refl. destruct v; try reflexivity.
      discriminate Ev.
  - destruct (is_none v); cbn [negb]; [exact IH|].
    cbn [dict_get]. rewrite E. exact IH.
Qed.

Lemma filter_present_none_free (d : dict) :
  wf_dict d -> none_free d -> List.filter present d = d.
Proof.
  unfold wf_dict. induction d as [|[k v] d IH]; intros Hwf Hf; [reflexivity|].
  inversion Hwf as [|? ? Hn Hd]; subst.
  cbn [List.filter]. unfold present at 1. cbn [snd].
  destruct v; cbn [is_none negb];
    try (f_equal; apply IH; [exact Hd|]; intros k' Hk';
         apply (Hf k'); cbn [dict_get];
         destruct (String.eqb k k') eqn:E;
         [apply String.eqb_eq in E; subst k'; exfalso; apply Hn;
          exact (dict_get_in_keys d k _ Hk')|exact Hk']).
  exfalso. apply (Hf k). cbn [dict_get]. rewrite String.eqb_refl. reflexivity.
Qed.

(** X22.  Cleaning is a projection.  The cleaned mapping holds no [None];
    a lookup in it finds what the mapping held unless that was [None];
    cleaning a mapping without [None] changes nothing, so that cleaning
    twice is cleaning once. *)
Theorem clean_params_idempotent (params : dict) :
  wf_dict params ->
  none_free (utils.clean_params params)
  /\ (forall k, dict_get (utils.clean_params params) k
                = match dict_get params k with
                  | Some VNone => None
                  | r => r
                  end)
  /\ (none_free params -> utils.clean_params params = params)
  /\ utils.clean_params (utils.clean_params params) = utils.clean_params params.
Proof.
  intros Hwf. rewrite (clean_params_filter params Hwf).
  assert (Hl : forall k, dict_get (List.filter present params) k
                         = match dict_get params k with
                           | Some VNone => None
                           | r => r
                           end)
    by (intros k; apply filter_present_lookup; exact Hwf).
  assert (Hf : none_free (List.filter present params)).
  { intros k. rewrite Hl. destruct (dict_get params k) as [[]|]; discriminate. }
  assert (Hwf' : wf_dict (List.filter present params))
    by (apply NoDup_keys_filter; exact Hwf).
  split; [exact Hf|]. split; [exact Hl|]. split.
  - intros H. apply filter_present_none_free; assumption.
  - rewrite (clean_params_filter _ Hwf').
    apply filter_present_none_free; assumption.
Qed.

(** ** Colours in plain decimal *)

Lemma lstrip_by_solid (p : ascii -> bool) t :
  forall_chars (fun c => negb (p c)) t = true -> lstrip_by p t = t.
Proof.
  destruct t as [|c t]; simpl; [reflexivity|].
  rewrite andb_true_iff, negb_true_iff. intros [-> _]. reflexivity.
Qed.

Lemma rstrip_by_solid (p : ascii -> bool) t :
  forall_chars (fun c => negb (p c)) t = true -> rstrip_by p t = t.
Proof.
  induction t as [|c t IH]; simpl; [reflexivity|].
  rewrite andb_true_iff, negb_true_iff. intros [Hc Ht].
  rewrite (IH Ht). destruct t; [rewrite Hc|]; reflexivity.
Qed.

Lemma in_byte_range_decimal t :
  forall_chars isdecimal t = true -> t <> "" ->
  in_byte_range t
  = (Z.of_nat (String.length t) <=? int_max_str_digits) && (number t <=? 255).
Proof.
  intros Hd Hne. unfold in_byte_range. rewrite int_literal_strip.
  assert (Hs : forall_chars (fun c => negb (isspace c)) t = true).
  { apply (forall_chars_weaken isdecimal); [|exact Hd].
    intros c Hc. rewrite (decimal_not_space c Hc). reflexivity. }
  assert (strip t = t) as ->.
  { unfold strip, strip_by. rewrite (lstrip_by_solid _ _ Hs).
    exact (rstrip_by_solid _ _ Hs). }
  rewrite (capped_literal_numeral t Hd Hne).
  destruct (Z.of_nat (String.length t) <=? int_max_str_digits); [|reflexivity].
  pose proof (number_nonneg t Hd) as H0. apply Z.leb_le in H0. rewrite H0.
  reflexivity.
Qed.

Lemma decimal_free t : forall_chars isdecimal t = true -> free "," t = true.
Proof.
  unfold free. apply forall_chars_weaken. intros c Hc. chars.
Qed.

Section PlainColours.
Variable rt : runtime.

(** X23.  On components written in plain decimal digits,
    [validate_rgb_color] accepts [rgb(R,G,B)] exactly when each of the three
    components has at most 4300 digits, leading zeros counted (the cap of
    [int] as the interpreter starts), and denotes a number of at most
    255. *)
Theorem decimal_components_at_most_255 (R G B : string) :
  forall_chars isdecimal R = true -> R <> "" ->
  forall_chars isdecimal G = true -> G <> "" ->
  forall_chars isdecimal B = true -> B <> "" ->
  utils.validate_rgb_color rt (Some ("rgb(" ++ R ++ "," ++ G ++ "," ++ B ++ ")"))
  = Return
      ((Z.of_nat (String.length R) <=? 4300) && (number R <=? 255)
       && ((Z.of_nat (String.length G) <=? 4300) && (number G <=? 255))
       && ((Z.of_nat (String.length B) <=? 4300) && (number B <=? 255))).
Proof.
  intros HR NR HG NG HB NB.
  assert (E : "rgb(" ++ R ++ "," ++ G ++ "," ++ B ++ ")"
              = "rgb(" ++ (R ++ String "," (G ++ String "," B)) ++ ")").
  { simpl. rewrite !sapp_assoc. simpl. rewrite !sapp_assoc. reflexivity. }
  rewrite E.
  destruct (validate_rgb_color_run rt
              ("rgb(" ++ (R ++ String "," (G ++ String "," B)) ++ ")")
              ltac:(discriminate)) as [b [-> Hb]].
  f_equal. rewrite rgb_form_middle in Hb.
  assert (Hsp : split "," (R ++ String "," (G ++ String "," B)) = [R; G; B]).
  { apply split_three. repeat split; try reflexivity; apply decimal_free; assumption. }
  rewrite Hsp in Hb.
  assert (Hv : forallb in_byte_range [R; G; B]
               = (Z.of_nat (String.length R) <=? 4300) && (number R <=? 255)
                 && ((Z.of_nat (String.length G) <=? 4300) && (number G <=? 255))
                 && ((Z.of_nat (String.length B) <=? 4300) && (number B <=? 255))).
  { cbn [forallb]. rewrite !in_byte_range_decimal by assumption.
    rewrite andb_true_r, andb_assoc. reflexivity. }
  rewrite <- Hv.
  destruct (forallb in_byte_range [R; G; B]) eqn:Ef.
  - apply Hb. exists R, G, B. auto.
  - destruct b; [|reflexivity].
    destruct (proj1 Hb eq_refl) as (R' & G' & B' & [= <- <- <-] & H). congruence.
Qed.

End PlainColours.

Lemma decimal_components_at_most_255_witness :
  utils.validate_rgb_color CPython.runtime (Some "rgb(0255,007,300)") = Return false.
Proof.
  apply (decimal_components_at_most_255 CPython.runtime "0255" "007" "300");
    first [reflexivity|discriminate].
Defined.

(** ** The properties above at concrete inputs *)

Lemma link_data_matches : ~ keys_mismatch models.Link link_data.
Proof.
  intros [[k [Hin Hn]]|[f [Hin [Hd Hn]]]].
  - apply Hn. simpl in Hin. simpl. tauto.
  - simpl in Hin.
    repeat (destruct Hin as [<-|Hin]; [try discriminate Hd; apply Hn; simpl; tauto|]).
    contradiction.
Qed.

Lemma transport_failure_reported_witness :
  snd (api._make_request CPython.runtime unreachable client "GET" "account"
         None None [])
  = Raise (Exc api_ShotcutAPIError (VStr "Request failed: connection refused")).
Proof.
  exact (proj1 (transport_failure_reported CPython.runtime unreachable client
                  "GET" "account" None None [] _ eq_refl) eq_refl).
Defined.

Lemma decode_failure_reported_witness :
  snd (api._make_request CPython.runtime not_json client "GET" "account"
         None None [])
  = Raise (Exc api_ShotcutAPIError
      (VStr "Request failed: Expecting value: line 1 column 1 (char 0)")).
Proof.
  exact (decode_failure_reported CPython.runtime not_json client "GET" "account"
           None None [] out_of_quota_page _ eq_refl eq_refl eq_refl).
Defined.

Lemma non_object_body_escapes_witness :
  snd (api._make_request CPython.runtime array_body client "GET" "urls"
         None None [])
  = Raise (Exc AttributeError (VStr "'list' object has no attribute 'get'"))
  /\ issubclass AttributeError api_ShotcutAPIError = false.
Proof.
  apply (non_object_body_escapes CPython.runtime array_body client "GET" "urls"
           None None [] array_response (VList []));
    [reflexivity|reflexivity|discriminate|discriminate].
Defined.

Lemma body_error_by_truth_value_witness :
  snd (api._make_request CPython.runtime text_code client "GET" "account"
         None None [])
  = Raise (Exc api_ShotcutAPIError (VStr "Unknown API error")).
Proof.
  apply (body_error_by_truth_value CPython.runtime text_code client "GET"
           "account" None None [] text_code_response text_code_body);
    [reflexivity|reflexivity|discriminate].
Defined.

Lemma pipeline_raises_no_typed_error_witness :
  exceptions.typed_error
    (Exc ValueError (VStr "invalid literal for int() with base 10: 'soon'"))
  = false.
Proof.
  apply (pipeline_raises_no_typed_error CPython.runtime malformed_reset client
           "GET" "account" None None []).
  - intros r. exact I.
  - intros ts e. cbn [fromtimestamp CPython.runtime]. unfold CPython.fromtimestamp.
    destruct (CPython.civil_from_days (ts / 86400)) as [[y m] d].
    destruct (CPython.civil_from_days ((ts - 86400) / 86400)) as [[y0 m0] d0].
    unfold value_error.
    repeat match goal with
           | |- context [if ?b then _ else _] => destruct b
           end; intros [= <-]; reflexivity.
  - reflexivity.
Defined.


Lemma no_data_gives_none_witness :
  models.create_model_from_response CPython.runtime models.Link (Some 1%nat) store0
  = (store0, Return None).
Proof.
  exact (proj2 (no_data_gives_none CPython.runtime models.Link 1%nat store0 eq_refl)).
Defined.

Lemma construction_succeeds_iff_keys_match_witness :
  exists obj,
    snd (models.create_model_from_response CPython.runtime models.Link
           (Some 1%nat) store1)
    = Return (Some obj).
Proof.
  pose proof (construction_succeeds_iff_keys_match CPython.runtime models.Link
                1%nat store1 link_data eq_refl link_data_wf
                ltac:(discriminate) link_data_dates) as H.
  cbv zeta in H. apply H.
  - simpl. repeat (constructor; [simpl; intuition discriminate|]). constructor.
  - exact link_data_matches.
Defined.

Lemma invalid_date_becomes_none_witness :
  (exists t, getattr link_record "updated_at" = Some (VDatetime t)
             /\ "yesterday" <> ""
             /\ utils.validate_date CPython.runtime (Some "yesterday") = Return true)
  \/ (getattr link_record "updated_at" = Some VNone
      /\ ("yesterday" = ""
          \/ utils.validate_date CPython.runtime (Some "yesterday") = Return false)).
Proof.
  apply (invalid_date_becomes_none CPython.runtime models.Link 1%nat store1
           link_data "updated_at" "yesterday" link_record eq_refl link_data_wf
           link_data_dates).
  - simpl. tauto.
  - reflexivity.
  - vm_compute. reflexivity.
Defined.

Lemma non_text_date_raises_type_error_witness :
  models.create_model_from_response CPython.runtime models.Link (Some 1%nat) store3
  = (store3, Raise (Exc TypeError
               (VStr "strptime() argument 1 must be str, not int")))
  /\ issubclass TypeError ValueError = false.
Proof.
  apply (non_text_date_raises_type_error CPython.runtime models.Link 1%nat store3
           numeric_date_data (VInt 1704067200));
    [reflexivity|reflexivity|reflexivity|discriminate].
Defined.

Lemma second_construction_raises_witness :
  let h1 := fst (models.create_model_from_response CPython.runtime models.Link
                   (Some 1%nat) store1) in
  models.create_model_from_response CPython.runtime models.Link (Some 1%nat) h1
  = (h1, Raise (Exc TypeError
          (VStr "strptime() argument 1 must be str, not datetime.datetime"))).
Proof.
  apply (second_construction_raises CPython.runtime models.Link models.Link
           1%nat store1 link_data "2024-01-01 00:00:00" eq_refl link_data_wf
           link_data_dates eq_refl).
  - discriminate.
  - vm_compute. reflexivity.
Defined.

Lemma validator_agrees_with_converter_witness :
  utils.validate_date CPython.runtime (Some "yesterday") = Return false
  <-> models.convert_datetime CPython.runtime (VStr "yesterday") = Return VNone.
Proof.
  refine (proj1 (proj2 (validator_agrees_with_converter CPython.runtime
                          "yesterday" _))).
  discriminate.
Defined.

Lemma rendered_date_parses_back_witness :
  models.convert_datetime CPython.runtime (VStr "2024-02-29 23:59:59")
  = Return (VDatetime leap_day).
Proof.
  refine (proj1 (rendered_date_parses_back CPython.runtime leap_day _)).
  unfold valid, valid_datetime, leap_day. cbn [year month day hour minute second].
  change (days_in_month 2024 2) with 29. lia.
Defined.

Lemma validate_date_checks_calendar_witness :
  utils.validate_date CPython.runtime (Some "2023-02-29 00:00:00") = Return false.
Proof.
  refine (validate_date_checks_calendar CPython.runtime "2023" "02" "29" "00"
            "00" "00" _).
  unfold date_time_shape, numeral.
  repeat split; try reflexivity; try (simpl; lia); vm_compute; discriminate.
Defined.

Lemma clean_params_idempotent_witness :
  utils.clean_params
    (utils.clean_params [("a", VInt 1); ("b", VNone); ("c", VInt 0)])
  = utils.clean_params [("a", VInt 1); ("b", VNone); ("c", VInt 0)].
Proof.
  refine (proj2 (proj2 (proj2 (clean_params_idempotent
                   [("a", VInt 1); ("b", VNone); ("c", VInt 0)] _)))).
  unfold wf_dict. simpl.
  repeat (constructor; [simpl; intuition discriminate|]). constructor.
Defined.
